(** * Incident-triage agent: Observe, Reason, Decide, Act, Memory

    A shallow embedding of the agent pipeline of [src/agent/*.py] and the
    properties its specification states about it.

    Conventions of the embedding.
    - A Python [float] is a binary64 number: Rocq's primitive [float].
      Integer-valued JSON numbers are read as the floats they denote.
    - A Python dict with a fixed set of keys is a record; a key that the
      code reads with [.get] and that may be absent is an [option] field.
    - A dict whose iteration order is observed (the [error_types]
      histogram) is an association list in insertion order; a dict that is
      only looked up and merged (an incident's [outcome]) is a [gmap].
    - [time.time()], [uuid.uuid4()], the environment variable [USE_LLM]
      and the delegate are inputs of the functions that consult them.
    - A call that can raise returns a [result]; a file is a [file]
      state that the persistence steps transform one at a time. *)

From Stdlib Require Import Floats ZArith Lia Ascii String.
From stdpp Require Import base list strings gmap.
Set Warnings "-inexact-float,-register-all".

(* ===================================================================== *)
(** ** Order facts about binary64 comparison                              *)
(* ===================================================================== *)

Module FloatOrder.

Definition not_nan (x : float) : Prop := PrimFloat.is_nan x = false.

Ltac cmp_cases :=
  repeat match goal with
  | H : context [ (?x ?= ?y)%Z ] |- _ => destruct (Z.compare_spec x y); subst
  | |- context [ (?x ?= ?y)%Z ] => destruct (Z.compare_spec x y); subst
  | H : context [ (?x ?= ?y)%positive ] |- _ => destruct (Pos.compare_spec x y); subst
  | |- context [ (?x ?= ?y)%positive ] => destruct (Pos.compare_spec x y); subst
  end; simpl in *; try congruence; try lia.

Lemma SFcompare_antisym a b c :
  SFcompare a b = Some c -> SFcompare b a = Some (CompOpp c).
Proof.
  destruct a as [[]|[]| |[] m1 e1], b as [[]|[]| |[] m2 e2]; simpl;
    intros H; inversion H; subst; clear H; try reflexivity;
    change (PosDef.Pos.compare_cont Eq) with Pos.compare in *; cmp_cases.
Qed.

Lemma SFcompare_refl a : a <> S754_nan -> SFcompare a a = Some Eq.
Proof.
  destruct a as [[]|[]| |[] m e]; simpl; intros H; try congruence;
    change (PosDef.Pos.compare_cont Eq) with Pos.compare in *;
    rewrite Z.compare_refl, Pos.compare_refl; reflexivity.
Qed.

Lemma SFcompare_total a b :
  a <> S754_nan -> b <> S754_nan -> exists c, SFcompare a b = Some c.
Proof.
  destruct a as [[]|[]| |[] m1 e1], b as [[]|[]| |[] m2 e2]; simpl;
    intros Ha Hb; try congruence; eauto.
Qed.

Definition seq_cmp (c1 c2 : comparison) : comparison :=
  match c1 with Eq => c2 | _ => c1 end.

Lemma SFcompare_trans a b c c1 c2 :
  SFcompare a b = Some c1 -> SFcompare b c = Some c2 ->
  c1 <> Gt -> c2 <> Gt -> SFcompare a c = Some (seq_cmp c1 c2).
Proof.
  destruct a as [[]|[]| |[] m1 e1], b as [[]|[]| |[] m2 e2],
    c as [[]|[]| |[] m3 e3]; simpl;
    intros H1 H2 N1 N2; inversion H1; inversion H2; subst; clear H1 H2;
    try reflexivity; try congruence;
    change (PosDef.Pos.compare_cont Eq) with Pos.compare in *; cmp_cases.
Qed.

Lemma not_nan_spec x : not_nan x <-> Prim2SF x <> S754_nan.
Proof.
  unfold not_nan, PrimFloat.is_nan. rewrite FloatAxioms.eqb_spec. unfold SFeqb.
  split.
  - intros H E. rewrite E in H. discriminate.
  - intros H. rewrite (SFcompare_refl _ H). reflexivity.
Qed.

Lemma ltb_Lt x y : (x <? y)%float = true <-> SFcompare (Prim2SF x) (Prim2SF y) = Some Lt.
Proof.
  rewrite ltb_spec. unfold SFltb.
  destruct (SFcompare _ _) as [[]|]; split; congruence.
Qed.

Lemma leb_Le x y :
  (x <=? y)%float = true <->
  SFcompare (Prim2SF x) (Prim2SF y) = Some Lt \/ SFcompare (Prim2SF x) (Prim2SF y) = Some Eq.
Proof.
  rewrite leb_spec. unfold SFleb.
  destruct (SFcompare _ _) as [[]|]; split; intros; try tauto; try congruence;
    destruct H; congruence.
Qed.

Lemma leb_not_nan x y : (x <=? y)%float = true -> not_nan x /\ not_nan y.
Proof.
  rewrite leb_Le, !not_nan_spec. intros H.
  split; intros E; rewrite E in H; destruct (Prim2SF x), (Prim2SF y), H; discriminate.
Qed.

Lemma ltb_leb x y : (x <? y)%float = true -> (x <=? y)%float = true.
Proof. rewrite ltb_Lt, leb_Le. tauto. Qed.

Lemma leb_refl x : not_nan x -> (x <=? x)%float = true.
Proof. rewrite not_nan_spec, leb_Le. intros H. right. apply SFcompare_refl, H. Qed.

(** [x <= y] excludes [y < x]. *)
Lemma leb_ltb_false x y : (x <=? y)%float = true -> (y <? x)%float = false.
Proof.
  rewrite leb_Le. intros H. apply not_true_is_false. rewrite ltb_Lt. intros L.
  apply SFcompare_antisym in L. simpl in L. destruct H; congruence.
Qed.

(** On numbers, [not (x < y)] is [y <= x]. *)
Lemma ltb_false_leb x y :
  not_nan x -> not_nan y -> (x <? y)%float = false -> (y <=? x)%float = true.
Proof.
  rewrite !not_nan_spec. intros Hx Hy H. apply leb_Le.
  destruct (SFcompare_total _ _ Hx Hy) as [c Hc].
  destruct c.
  - right. apply SFcompare_antisym in Hc. exact Hc.
  - apply ltb_Lt in Hc. congruence.
  - left. apply SFcompare_antisym in Hc. exact Hc.
Qed.

Lemma leb_trans x y z :
  (x <=? y)%float = true -> (y <=? z)%float = true -> (x <=? z)%float = true.
Proof.
  rewrite !leb_Le. intros [H1|H1] [H2|H2];
    pose proof (SFcompare_trans _ _ _ _ _ H1 H2) as T; simpl in T;
    [left|left|left|right]; apply T; discriminate.
Qed.

Lemma leb_ltb_trans x y z :
  (x <=? y)%float = true -> (y <? z)%float = true -> (x <? z)%float = true.
Proof.
  rewrite leb_Le, !ltb_Lt. intros [H1|H1] H2;
    pose proof (SFcompare_trans _ _ _ _ _ H1 H2) as T; simpl in T;
    apply T; discriminate.
Qed.

Lemma ltb_leb_trans x y z :
  (x <? y)%float = true -> (y <=? z)%float = true -> (x <? z)%float = true.
Proof.
  rewrite leb_Le, !ltb_Lt. intros H1 [H2|H2];
    pose proof (SFcompare_trans _ _ _ _ _ H1 H2) as T; simpl in T;
    apply T; discriminate.
Qed.

End FloatOrder.

(* ===================================================================== *)
(** ** Python values and builtins                                         *)
(* ===================================================================== *)

(** A JSON value, as [json.loads] returns it and [json.dump] writes it. *)
Inductive json : Type :=
| JNull
| JBool (b : bool)
| JNum (x : float)
| JStr (s : string)
| JArr (items : list json)
| JObj (members : list (string * json)).

(** [d.get(key)] on a JSON object (its members have distinct keys, in
    insertion order). *)
Fixpoint obj_get (key : string) (members : list (string * json)) : option json :=
  match members with
  | [] => None
  | (k, v) :: rest => if bool_decide (k = key) then Some v else obj_get key rest
  end.

(** [value == text] for a string literal [text]. *)
Definition json_is_str (value : json) (text : string) : bool :=
  match value with
  | JStr s => bool_decide (s = text)
  | _ => false
  end.

(** Truth value of a JSON value ([a or b] keeps [a] when it is truthy). *)
Definition truthy (value : json) : bool :=
  match value with
  | JNull => false
  | JBool b => b
  | JNum x => negb (x =? 0)%float
  | JStr s => negb (bool_decide (s = ""))
  | JArr items => match items with [] => false | _ :: _ => true end
  | JObj members => match members with [] => false | _ :: _ => true end
  end.

Definition py_or (a : option json) (b : json) : json :=
  match a with
  | Some v => if truthy v then v else b
  | None => b
  end.

(** The outcome of a call that may raise: the value returned, or the
    message [str(e)] of the [Exception] raised.  The messages that the
    program itself words are kept whole; of a message worded by the Python
    runtime (a missing attribute, a value that is not iterable, a file that
    is missing or does not parse) the fixed words are kept, without the
    class name, path or position that the runtime adds to them. *)
Inductive result (A : Type) : Type :=
| Ok (a : A)
| Raise (e : string).
Arguments Ok {A} a.
Arguments Raise {A} e.

Definition bind {A B : Type} (r : result A) (k : A -> result B) : result B :=
  match r with
  | Ok a => k a
  | Raise e => Raise e
  end.

Notation "x <-! r ; k" := (bind r (fun x => k))
  (at level 100, r at next level, right associativity).

(** [try: body except Exception as e: handler(e)]. *)
Definition try_except {A : Type} (body : result A) (handler : string -> A) : A :=
  match body with
  | Ok a => a
  | Raise e => handler e
  end.

(** [float(n)] for a small non-negative [int]. *)
Definition float_of_nat (n : nat) : float :=
  PrimFloat.of_uint63 (Uint63.of_Z (Z.of_nat n)).

(** [max(a, b)]: the first argument stays unless the second is greater. *)
Definition py_max (a b : float) : float :=
  if (a <? b)%float then b else a.

(** [max(iterable)] over a non-empty iterable [x, l...]. *)
Definition py_max_of (x : float) (l : list float) : float :=
  fold_left py_max l x.

(** [max(iterable, key=key)] over a non-empty iterable [x, l...]:
    the item changes only when a later key is strictly greater. *)
Definition py_max_by {A : Type} (key : A -> float) (x : A) (l : list A) : A :=
  fold_left (fun best item => if (key best <? key item)%float then item else best) l x.

(** Truth value of a list: [not value] holds on the empty list. *)
Definition falsy {A : Type} (value : list A) : bool :=
  match value with
  | [] => true
  | _ :: _ => false
  end.

(** [counts[key] += 1] on a [defaultdict(int)]: a new key goes last. *)
Fixpoint bump (key : string) (counts : list (string * nat)) : list (string * nat) :=
  match counts with
  | [] => [(key, 1)]
  | (k, n) :: rest =>
      if bool_decide (k = key) then (k, S n) :: rest else (k, n) :: bump key rest
  end.

(** [counts.get(key, 0)]. *)
Fixpoint count_get (key : string) (counts : list (string * nat)) : nat :=
  match counts with
  | [] => 0
  | (k, n) :: rest => if bool_decide (k = key) then n else count_get key rest
  end.

(* ===================================================================== *)
(** ** Data model                                                         *)
(* ===================================================================== *)

(** The records of the signal buckets, by the one field the agent reads:
    [c.get("status")], [error.get("type", ...)], [m.get("stage", ...)].
    Tickets and webhook results are only counted. *)
Module Checkout.
Record t := { status : option string }.
End Checkout.

Module ErrorEvent.
Record t := { type : option string }.
End ErrorEvent.

Module MigrationState.
Record t := { stage : option string }.
End MigrationState.

(** The raw batch: a bucket may be absent. *)
Module RawSignals.
Record t := {
    tickets : option (list json);
    errors : option (list ErrorEvent.t);
    checkouts : option (list Checkout.t);
    webhooks : option (list json);
    migration_states : option (list MigrationState.t)
  }.
End RawSignals.

Module Signals.
Record t := {
    tickets : list json;
    errors : list ErrorEvent.t;
    checkouts : list Checkout.t;
    webhooks : list json;
    migration_states : list MigrationState.t
  }.
End Signals.

Module Stats.
Record t := {
    ticket_count : nat;
    error_count : nat;
    failed_checkouts : nat;
    error_types : list (string * nat);
    migration_stage_distribution : list (string * nat)
  }.
End Stats.

Module Anomaly.
Record t := {
    type : string;
    error_type : option string;
    count : nat;
    severity : string
  }.
End Anomaly.

Module Observation.
Record t := {
    observation_id : nat;
    timestamp : float;
    signals : Signals.t;
    stats : Stats.t;
    anomalies : list Anomaly.t;
    confidence : float
  }.
End Observation.

(** A hypothesis dict; consumers read every key with [.get]. *)
Module Hyp.
Record t := {
    cause : option json;
    explanation : option json;
    confidence : option float
  }.
End Hyp.

Module Reasoning.
Record t := {
    reasoning_mode : string;
    hypotheses : list Hyp.t;
    assumptions : list json;
    unknowns : list json;
    confidence : float;
    error : option string
  }.
End Reasoning.

Module Decision.
Record t := {
    type : string;
    severity : option string;
    reason : string;
    requires_human_approval : bool
  }.
End Decision.

Module Trace.
Record t := {
    observation_confidence : float;
    reasoning_confidence : float
  }.
End Trace.

Module DecisionOutput.
Record t := {
    observation_id : nat;
    decisions : list Decision.t;
    risk_level : string;
    trace : Trace.t
  }.
End DecisionOutput.

(** An action dict, by its ["action"] tag. *)
Inductive Action : Type :=
| monitoring (note : string)
| support_guidance_prepared (message : string) (reason : string)
| engineering_escalation_created (severity : option string) (summary : string).

Module StateUpdate.
Record t := {
    timestamp : float;
    observation_id : nat;
    actions_taken : list Action;
    pending_approvals : list Decision.t;
    risk_level : string
  }.
End StateUpdate.

Module Incident.
Record t := {
    incident_id : string;
    timestamp : float;
    observation : Observation.t;
    reasoning : Reasoning.t;
    decision : DecisionOutput.t;
    action : StateUpdate.t;
    outcome : option (gmap string json)
  }.
End Incident.

(* ===================================================================== *)
(** ** Observer (src/agent/observe.py)                                    *)
(* ===================================================================== *)

Module Observer.

(** [_ingest_signals]: an absent bucket reads as the empty list. *)
Definition _ingest_signals (raw_signals : RawSignals.t) : Signals.t :=
  {| Signals.tickets := default [] (RawSignals.tickets raw_signals);
     Signals.errors := default [] (RawSignals.errors raw_signals);
     Signals.checkouts := default [] (RawSignals.checkouts raw_signals);
     Signals.webhooks := default [] (RawSignals.webhooks raw_signals);
     Signals.migration_states := default [] (RawSignals.migration_states raw_signals) |}.

Definition is_failed (c : Checkout.t) : bool :=
  bool_decide (Checkout.status c = Some "failed").

Definition error_key (e : ErrorEvent.t) : string :=
  default "unknown" (ErrorEvent.type e).

Definition stage_key (m : MigrationState.t) : string :=
  default "unknown" (MigrationState.stage m).

(** [_compute_stats]. *)
Definition _compute_stats (signals : Signals.t) : Stats.t :=
  {| Stats.ticket_count := length (Signals.tickets signals);
     Stats.error_count := length (Signals.errors signals);
     Stats.failed_checkouts :=
       fold_left (fun total c => if is_failed c then total + 1 else total)
                 (Signals.checkouts signals) 0;
     Stats.error_types :=
       fold_left (fun error_types error => bump (error_key error) error_types)
                 (Signals.errors signals) [];
     Stats.migration_stage_distribution :=
       fold_left (fun counts m => bump (stage_key m) counts)
                 (Signals.migration_states signals) [] |}.

Definition checkout_failures (count : nat) : Anomaly.t :=
  {| Anomaly.type := "checkout_failures";
     Anomaly.error_type := None;
     Anomaly.count := count;
     Anomaly.severity := "high" |}.

Definition repeated_error (error_type : string) (count : nat) : Anomaly.t :=
  {| Anomaly.type := "repeated_error";
     Anomaly.error_type := Some error_type;
     Anomaly.count := count;
     Anomaly.severity := "medium" |}.

(** [_detect_anomalies]: the rules read [stats] only. *)
Definition _detect_anomalies (signals : Signals.t) (stats : Stats.t) : list Anomaly.t :=
  let anomalies := [] in
  let anomalies :=
    if 0 <? Stats.failed_checkouts stats
    then anomalies ++ [checkout_failures (Stats.failed_checkouts stats)]
    else anomalies in
  fold_left
    (fun anomalies '(error_type, count) =>
       if 5 <=? count then anomalies ++ [repeated_error error_type count] else anomalies)
    (Stats.error_types stats) anomalies.

(** The five [signals.items()] values, by their truth value. *)
Definition bucket_falsiness (signals : Signals.t) : list bool :=
  [ falsy (Signals.tickets signals);
    falsy (Signals.errors signals);
    falsy (Signals.checkouts signals);
    falsy (Signals.webhooks signals);
    falsy (Signals.migration_states signals) ].

(** [_estimate_confidence]. *)
Definition _estimate_confidence (signals : Signals.t) : float :=
  let missing_sources :=
    fold_left (fun missing_sources not_value =>
                 if not_value : bool then missing_sources + 1 else missing_sources)
              (bucket_falsiness signals) 0 in
  let confidence := (1.0 - (float_of_nat missing_sources * 0.1))%float in
  py_max confidence 0.5%float.

(** [observe]: [self] is the instance's [observation_id] counter before the
    call, [now] the reading of [time.time()]; the result carries the
    counter after the call. *)
Definition observe (self : nat) (now : float) (raw_signals : RawSignals.t)
  : Observation.t * nat :=
  let self := self + 1 in
  let signals := _ingest_signals raw_signals in
  let stats := _compute_stats signals in
  let anomalies := _detect_anomalies signals stats in
  let confidence := _estimate_confidence signals in
  ({| Observation.observation_id := self;
      Observation.timestamp := now;
      Observation.signals := signals;
      Observation.stats := stats;
      Observation.anomalies := anomalies;
      Observation.confidence := confidence |}, self).

End Observer.

(* ===================================================================== *)
(** ** The delegate client (src/agent/llm_client.py)                      *)
(* ===================================================================== *)

Module OllamaClient.

Fixpoint has_char (chars : list ascii) (text : string) : bool :=
  match text with
  | EmptyString => false
  | String c rest => bool_decide (c ∈ chars) || has_char chars rest
  end.

(** [type(parsed)] as an f-string prints it, for the value [parsed] that
    [json.loads] made of [text].  A JSON number is an [int] when its text
    has neither fraction nor exponent and a [float] otherwise (the
    constants [NaN], [Infinity] and [-Infinity] are floats as well); the
    text tells them apart, [json] keeps every number as a float. *)
Definition type_of_parsed (text : string) (parsed : json) : string :=
  let class :=
    match parsed with
    | JNull => "NoneType"
    | JBool _ => "bool"
    | JNum _ => if has_char ["."; "e"; "E"; "N"; "I"]%char text then "float" else "int"
    | JStr _ => "str"
    | JArr _ => "list"
    | JObj _ => "dict"
    end in
  "<class '" +:+ class +:+ "'>".

Section Client.

(** [requests.post(...)], [raise_for_status()] and [response.json()]: the
    body of the reply, or the transport, timeout or status error raised. *)
Variable http_post : string -> result json.
(** [str.strip]. *)
Variable py_strip : string -> string.
(** [json.loads]: the parsed value, or [JSONDecodeError]. *)
Variable json_loads : string -> result json.

(** [generate]: the parsed JSON object of the reply text, or an error. *)
Definition generate (prompt : string) : result json :=
  raw <-! http_post prompt;
  text <-! match raw with
           | JObj members => Ok (default (JStr "") (obj_get "response" members))
           | _ => Raise "object has no attribute 'get'"
           end;
  match text with
  | JStr s =>
      if bool_decide (py_strip s = "")
      then Raise "LLM returned empty response"
      else
        let text := py_strip s in
        match json_loads text with
        | Raise _ => Raise ("LLM returned invalid JSON:" +:+ String "010" text)
        | Ok parsed =>
            match parsed with
            | JObj _ => Ok parsed
            | _ => Raise ("LLM JSON root must be an object, got " +:+
                          type_of_parsed text parsed)
            end
        end
  | _ => Raise "LLM returned empty response"
  end.

End Client.
End OllamaClient.

(* ===================================================================== *)
(** ** Reasoner (src/agent/reason.py)                                     *)
(* ===================================================================== *)

Module Reasoner.

(** [str.lower] on ASCII text. *)
Definition lower_char (c : ascii) : ascii :=
  let n := nat_of_ascii c in
  if (65 <=? n) && (n <=? 90) then ascii_of_nat (n + 32) else c.

Fixpoint lower (s : string) : string :=
  match s with
  | EmptyString => EmptyString
  | String c rest => String (lower_char c) (lower rest)
  end.

(** [_should_use_llm]. *)
Definition _should_use_llm (observation : Observation.t) : bool :=
  if (Observation.confidence observation <? 0.85)%float then true
  else if 2 <=? length (Observation.anomalies observation) then true
  else false.

Definition hypothesis (cause explanation : string) (confidence : float) : Hyp.t :=
  {| Hyp.cause := Some (JStr cause);
     Hyp.explanation := Some (JStr explanation);
     Hyp.confidence := Some confidence |}.

(** [h["confidence"]]: [KeyError] on a dict without the key. *)
Definition confidence_item (h : Hyp.t) : result float :=
  match Hyp.confidence h with
  | Some c => Ok c
  | None => Raise "'confidence'"
  end.

Fixpoint confidence_items (hypotheses : list Hyp.t) : result (list float) :=
  match hypotheses with
  | [] => Ok []
  | h :: rest =>
      c <-! confidence_item h;
      cs <-! confidence_items rest;
      Ok (c :: cs)
  end.

(** [max(h["confidence"] for h in hypotheses)]: [ValueError] on no item. *)
Definition max_confidence (hypotheses : list Hyp.t) : result float :=
  cs <-! confidence_items hypotheses;
  match cs with
  | [] => Raise "max() arg is an empty sequence"
  | c :: rest => Ok (py_max_of c rest)
  end.

(** [_reason_deterministic]. *)
Definition _reason_deterministic (observation : Observation.t) : result Reasoning.t :=
  let stats := Observation.stats observation in
  let error_types := Stats.error_types stats in
  let hypotheses := [] in
  let hypotheses :=
    if 5 <=? Stats.failed_checkouts stats
    then hypotheses ++ [hypothesis "migration_misconfiguration"
           "High number of checkout failures detected after migration" 0.8]
    else hypotheses in
  let hypotheses :=
    if 3 <=? count_get "webhook_401" error_types
    then hypotheses ++ [hypothesis "webhook_auth_failure"
           "Repeated webhook authentication failures detected" 0.7]
    else hypotheses in
  let hypotheses :=
    if 3 <=? count_get "frontend_state_mismatch" error_types
    then hypotheses ++ [hypothesis "frontend_backend_mismatch"
           "Frontend and backend states are inconsistent" 0.65]
    else hypotheses in
  let hypotheses :=
    if 10 <=? count_get "unknown" error_types
    then hypotheses ++ [hypothesis "platform_regression"
           "High volume of unknown errors suggests a platform regression" 0.6]
    else hypotheses in
  let hypotheses :=
    if falsy hypotheses
    then hypotheses ++ [hypothesis "normal_operation"
           "System signals are within expected parameters" 0.9]
    else hypotheses in
  confidence <-! max_confidence hypotheses;
  Ok {| Reasoning.reasoning_mode := "deterministic";
        Reasoning.hypotheses := hypotheses;
        Reasoning.assumptions := [JStr "Observed signals accurately reflect system behavior"];
        Reasoning.unknowns := [JStr "Merchant-specific configurations not visible"];
        Reasoning.confidence := confidence;
        Reasoning.error := None |}.

(** The reasoning returned by the [except Exception as e] handler. *)
Definition llm_failed (e : string) : Reasoning.t :=
  {| Reasoning.reasoning_mode := "llm_failed";
     Reasoning.hypotheses :=
       [hypothesis "unknown" "LLM failed or returned malformed output" 0.4];
     Reasoning.assumptions := [];
     Reasoning.unknowns := [JStr "LLM reasoning failed"];
     Reasoning.confidence := 0.4;
     Reasoning.error := Some e |}.

Section Delegate.

(** [float(text)] on a string: the number it spells, if any. *)
Variable parse_float : string -> option float.
(** [str(value)] and [json.dumps(value)]. *)
Variable py_str : json -> string.
Variable json_dumps : json -> string.
(** [_build_prompt]: the fixed instructions followed by the printed
    [stats] and [anomalies] of the observation. *)
Variable _build_prompt : Observation.t -> string.

(** [float(value)]. *)
Definition py_float (value : json) : result float :=
  match value with
  | JNum x => Ok x
  | JBool b => Ok (if b then 1 else 0)%float
  | JStr s =>
      match parse_float s with
      | Some x => Ok x
      | None => Raise "could not convert string to float"
      end
  | _ => Raise "float() argument must be a string or a real number"
  end.

(** [isinstance(value, (int, float))], with the number it denotes. *)
Definition as_number (value : json) : option float :=
  match value with
  | JNum x => Some x
  | JBool b => Some (if b then 1 else 0)%float
  | _ => None
  end.

(** [_stringify]. *)
Definition _stringify (value : json) : json :=
  match value with
  | JStr s => JStr s
  | JObj members =>
      py_or (obj_get "description" members)
        (py_or (obj_get "explanation" members)
           (py_or (obj_get "justification" members)
              (JStr (json_dumps value))))
  | _ => JStr (py_str value)
  end.

Fixpoint chars (s : string) : list json :=
  match s with
  | EmptyString => []
  | String c rest => JStr (String c EmptyString) :: chars rest
  end.

(** [for item in value]: [TypeError] on a value that is not iterable. *)
Definition py_iter (value : json) : result (list json) :=
  match value with
  | JArr items => Ok items
  | JObj members => Ok (map (fun kv => JStr (fst kv)) members)
  | JStr s => Ok (chars s)
  | _ => Raise "object is not iterable"
  end.

(** The loop over [raw_hypotheses]: entries that are neither dicts nor
    strings are skipped. *)
Fixpoint normalize_hypotheses (confidence : float) (raw_hypotheses : list json)
    (hypotheses : list Hyp.t) : result (list Hyp.t) :=
  match raw_hypotheses with
  | [] => Ok hypotheses
  | h :: rest =>
      match h with
      | JObj members =>
          c <-! py_float (default (JNum confidence) (obj_get "confidence" members));
          normalize_hypotheses confidence rest
            (hypotheses ++
               [{| Hyp.cause := Some (default (JStr "unknown") (obj_get "cause" members));
                   Hyp.explanation := Some (default (JStr "") (obj_get "explanation" members));
                   Hyp.confidence := Some c |}])
      | JStr s =>
          normalize_hypotheses confidence rest
            (hypotheses ++
               [{| Hyp.cause := Some (JStr s);
                   Hyp.explanation := Some (JStr "");
                   Hyp.confidence := Some confidence |}])
      | _ => normalize_hypotheses confidence rest hypotheses
      end
  end.

(** The body of the [try] block of [_reason_with_llm]. *)
Definition llm_attempt (generate : string -> result json) (observation : Observation.t)
  : result Reasoning.t :=
  let prompt := _build_prompt observation in
  response <-! generate prompt;
  response <-! match response with
               | JObj members => Ok members
               | _ => Raise "object has no attribute 'get'"
               end;
  let confidence := default 0.5%float (as_number (default (JNum 0.5) (obj_get "confidence" response))) in
  let raw_hypotheses := default (JArr []) (obj_get "hypotheses" response) in
  hypotheses <-! match raw_hypotheses with
                 | JArr items => normalize_hypotheses confidence items []
                 | _ => Ok []
                 end;
  let hypotheses :=
    if falsy hypotheses
    then hypotheses ++
           [hypothesis "unknown" "LLM did not return a valid hypothesis" 0.4]
    else hypotheses in
  assumptions <-! py_iter (default (JArr []) (obj_get "assumptions" response));
  unknowns <-! py_iter (default (JArr []) (obj_get "unknowns" response));
  Ok {| Reasoning.reasoning_mode := "llm";
        Reasoning.hypotheses := hypotheses;
        Reasoning.assumptions := map _stringify assumptions;
        Reasoning.unknowns := map _stringify unknowns;
        Reasoning.confidence := confidence;
        Reasoning.error := None |}.

(** [_reason_with_llm]: every exception of the attempt is caught. *)
Definition _reason_with_llm (generate : string -> result json)
    (observation : Observation.t) : Reasoning.t :=
  try_except (llm_attempt generate observation) llm_failed.

(** [reason]: [llm] is the delegate the instance was built with, [USE_LLM]
    the value of the environment variable, if set. *)
Definition reason (llm : option (string -> result json)) (USE_LLM : option string)
    (observation : Observation.t) : result Reasoning.t :=
  let use_llm_env := bool_decide (lower (default "true" USE_LLM) = "true") in
  match llm with
  | Some generate =>
      if use_llm_env && _should_use_llm observation
      then Ok (_reason_with_llm generate observation)
      else _reason_deterministic observation
  | None => _reason_deterministic observation
  end.

End Delegate.
End Reasoner.

(* ===================================================================== *)
(** ** Decider (src/agent/decide.py)                                      *)
(* ===================================================================== *)

Module Decider.

Definition _monitor_only (reason : string) : Decision.t :=
  {| Decision.type := "monitor_only";
     Decision.severity := None;
     Decision.reason := reason;
     Decision.requires_human_approval := false |}.

Definition _support_guidance (reason : string) (requires_human_approval : bool) : Decision.t :=
  {| Decision.type := "support_guidance";
     Decision.severity := None;
     Decision.reason := reason;
     Decision.requires_human_approval := requires_human_approval |}.

Definition _escalate_engineering (severity reason : string)
    (requires_human_approval : bool) : Decision.t :=
  {| Decision.type := "escalate_engineering";
     Decision.severity := Some severity;
     Decision.reason := reason;
     Decision.requires_human_approval := requires_human_approval |}.

Definition _documentation_update (reason : string) : Decision.t :=
  {| Decision.type := "documentation_update_suggestion";
     Decision.severity := None;
     Decision.reason := reason;
     Decision.requires_human_approval := true |}.

Definition make_trace (observation : Observation.t) (reasoning : Reasoning.t) : Trace.t :=
  {| Trace.observation_confidence := Observation.confidence observation;
     Trace.reasoning_confidence := Reasoning.confidence reasoning |}.

(** [_block]. *)
Definition _block (reason : string) (observation : Observation.t)
    (reasoning : Reasoning.t) : DecisionOutput.t :=
  {| DecisionOutput.observation_id := Observation.observation_id observation;
     DecisionOutput.decisions :=
       [{| Decision.type := "block_auto_actions";
           Decision.severity := None;
           Decision.reason := reason;
           Decision.requires_human_approval := true |}];
     DecisionOutput.risk_level := "high";
     DecisionOutput.trace := make_trace observation reasoning |}.

(** [_assess_risk]. *)
Definition _assess_risk (decisions : list Decision.t) : string :=
  if existsb (fun d => bool_decide (Decision.type d = "escalate_engineering")) decisions
  then "high"
  else if existsb Decision.requires_human_approval decisions
  then "medium"
  else "low".

(** [_finalize]. *)
Definition _finalize (decisions : list Decision.t) (observation : Observation.t)
    (reasoning : Reasoning.t) : DecisionOutput.t :=
  {| DecisionOutput.observation_id := Observation.observation_id observation;
     DecisionOutput.decisions := decisions;
     DecisionOutput.risk_level := _assess_risk decisions;
     DecisionOutput.trace := make_trace observation reasoning |}.

(** The key of [_get_top_hypothesis]: [h.get("confidence", 0)]. *)
Definition confidence_key (h : Hyp.t) : float :=
  default 0%float (Hyp.confidence h).

(** [_get_top_hypothesis]. *)
Definition _get_top_hypothesis (hypotheses : list Hyp.t) : Hyp.t :=
  match hypotheses with
  | [] => {| Hyp.cause := Some (JStr "unknown");
             Hyp.explanation := None;
             Hyp.confidence := Some 0%float |}
  | h :: rest => py_max_by confidence_key h rest
  end.

(** [decide]: the top hypothesis is computed first, the safety gate is
    tested next, and the policy by cause applies past the gate. *)
Definition decide (observation : Observation.t) (reasoning : Reasoning.t)
  : DecisionOutput.t :=
  let hypotheses := Reasoning.hypotheses reasoning in
  let decisions := [] in
  let top_hypothesis := _get_top_hypothesis hypotheses in
  let cause := default (JStr "unknown") (Hyp.cause top_hypothesis) in
  if (Observation.confidence observation <? 0.6)%float
  then _block "Low observation confidence" observation reasoning
  else
    let decisions :=
      if json_is_str cause "platform_regression" then
        decisions ++ [_escalate_engineering "high"
                        "Suspected platform regression across services" false]
      else if json_is_str cause "webhook_auth_failure" then
        decisions ++ [_support_guidance "Webhook authentication failures detected" false]
      else if json_is_str cause "frontend_backend_mismatch" then
        (decisions ++ [_documentation_update "Frontend and backend state mismatch observed"])
          ++ [_monitor_only "Mismatch may resolve after configuration sync"]
      else if json_is_str cause "migration_misconfiguration" then
        decisions ++ [_support_guidance "Likely merchant-side migration misconfiguration" false]
      else if json_is_str cause "normal_operation" then
        decisions ++ [_monitor_only "System operating normally"]
      else
        decisions ++ [_monitor_only "Root cause unclear, monitoring for changes"] in
    _finalize decisions observation reasoning.

End Decider.

(* ===================================================================== *)
(** ** Files that hold one JSON document                                  *)
(* ===================================================================== *)

(** What a reader finds at a path that holds text: no file, text that is
    not a JSON document, or a complete document.  [Unparsable] is exactly
    the text on which [json.load] raises [json.JSONDecodeError]: the empty
    file that [open(path, "w")] leaves, and a document of which only a
    first part has been written.  Files that fail otherwise (bytes that are
    no text, a document of another shape than the one stored) are outside
    this type. *)
Inductive file (A : Type) : Type :=
| Absent
| Unparsable
| Document (content : A).
Arguments Absent {A}.
Arguments Unparsable {A}.
Arguments Document {A} content.

(** The steps of [with open(path, "w") as f: json.dump(content, f)], as
    another reader of the path can see them.  Opening for writing creates
    or truncates the file.  [json.dump] then hands the document to the file
    object piece by piece, and the buffer of the file object is flushed to
    the path whenever it fills, so that the path holds a first part of the
    document before it holds all of it: [flush_part] is such a flush (one
    stands for all of them, their number depends on the size of the
    document and shows the reader nothing new).  [json_dump] is the last
    flush, on leaving the [with] block, after which the whole document is
    there. *)
Inductive write_step (A : Type) : Type :=
| open_w
| flush_part
| json_dump (content : A).
Arguments open_w {A}.
Arguments flush_part {A}.
Arguments json_dump {A} content.

Definition exec_step {A : Type} (f : file A) (s : write_step A) : file A :=
  match s with
  | open_w => Unparsable
  | flush_part => Unparsable
  | json_dump content => Document content
  end.

(** The file after all the steps. *)
Definition run {A : Type} (steps : list (write_step A)) (f : file A) : file A :=
  fold_left exec_step steps f.

(** The file as it stands before the first step and after each step: the
    states another reader of the path can find while the steps run. *)
Fixpoint states_during {A : Type} (steps : list (write_step A)) (f : file A)
  : list (file A) :=
  match steps with
  | [] => [f]
  | s :: rest => f :: states_during rest (exec_step f s)
  end.

(** [with open(path, "r") as f: json.load(f)]: [FileNotFoundError] for a
    missing file, [JSONDecodeError] for text that is not a JSON document.
    Of the messages the fixed words are kept: the first also names the
    path, the second the position, and its words are those for an empty
    file (for a document written in part they depend on where the text
    ends).  No caller reads the message. *)
Definition json_load {A : Type} (f : file A) : result A :=
  match f with
  | Document content => Ok content
  | Absent => Raise "No such file or directory"
  | Unparsable => Raise "Expecting value"
  end.

(* ===================================================================== *)
(** ** Actor (src/agent/act.py)                                           *)
(* ===================================================================== *)

Module Actor.

Definition _monitor (decision : Decision.t) : Action :=
  monitoring (Decision.reason decision).

Definition _support_guidance (decision : Decision.t) : Action :=
  support_guidance_prepared
    "Provide merchant with migration checklist, webhook verification steps, and API credential validation."
    (Decision.reason decision).

Definition _escalate_engineering (decision : Decision.t) : Action :=
  engineering_escalation_created
    (Decision.severity decision)
    "Potential platform regression detected during headless migration.".

(** [_execute]: [None] for an unknown or blocked action. *)
Definition _execute (decision : Decision.t) : option Action :=
  let action_type := Decision.type decision in
  if bool_decide (action_type = "monitor_only") then Some (_monitor decision)
  else if bool_decide (action_type = "support_guidance") then Some (_support_guidance decision)
  else if bool_decide (action_type = "escalate_engineering") then Some (_escalate_engineering decision)
  else None.

(** The steps of [_write_state]: the stored list is read if the file is
    there, extended, and written.  Only [json.JSONDecodeError] is caught:
    text that is not a JSON document counts as the empty list. *)
Definition _write_state (update : StateUpdate.t) (STATE_FILE : file (list StateUpdate.t))
  : list (write_step (list StateUpdate.t)) :=
  let existing :=
    match STATE_FILE with
    | Absent => []
    | Unparsable => []
    | Document existing => existing
    end in
  let existing := existing ++ [update] in
  [open_w; flush_part; json_dump existing].

(** One turn of the loop of [act] over the decisions. *)
Definition act_step (acc : list Action * list Decision.t) (decision : Decision.t)
  : list Action * list Decision.t :=
  let '(actions_taken, pending_approvals) := acc in
  if Decision.requires_human_approval decision
  then (actions_taken, pending_approvals ++ [decision])
  else
    match _execute decision with
    | Some action => (actions_taken ++ [action], pending_approvals)
    | None => (actions_taken, pending_approvals)
    end.

(** [act]: [now] is the reading of [time.time()]; the result is the state
    update returned and the state file after [_write_state]. *)
Definition act (now : float) (decision_output : DecisionOutput.t)
    (STATE_FILE : file (list StateUpdate.t))
  : StateUpdate.t * file (list StateUpdate.t) :=
  let '(actions_taken, pending_approvals) :=
    fold_left act_step (DecisionOutput.decisions decision_output) ([], []) in
  let state_update :=
    {| StateUpdate.timestamp := now;
       StateUpdate.observation_id := DecisionOutput.observation_id decision_output;
       StateUpdate.actions_taken := actions_taken;
       StateUpdate.pending_approvals := pending_approvals;
       StateUpdate.risk_level := DecisionOutput.risk_level decision_output |} in
  (state_update, run (_write_state state_update STATE_FILE) STATE_FILE).

End Actor.

(* ===================================================================== *)
(** ** Memory (src/agent/memory.py)                                       *)
(* ===================================================================== *)

Module Memory.

Abbreviation store := (file (list Incident.t)).

(** [__init__]: an absent file is created holding the empty list. *)
Definition init (MEMORY_FILE : store) : store :=
  match MEMORY_FILE with
  | Absent => Document []
  | _ => MEMORY_FILE
  end.

Definition _load (MEMORY_FILE : store) : result (list Incident.t) :=
  json_load MEMORY_FILE.

Definition _save (memory : list Incident.t) : list (write_step (list Incident.t)) :=
  [open_w; flush_part; json_dump memory].

Definition new_incident (uuid4 : string) (now : float)
    (observation : Observation.t) (reasoning : Reasoning.t)
    (decision : DecisionOutput.t) (action : StateUpdate.t) : Incident.t :=
  {| Incident.incident_id := uuid4;
     Incident.timestamp := now;
     Incident.observation := observation;
     Incident.reasoning := reasoning;
     Incident.decision := decision;
     Incident.action := action;
     Incident.outcome := None |}.

(** The write steps of [record_incident], or the error of [_load]. *)
Definition record_incident_steps (uuid4 : string) (now : float)
    (observation : Observation.t) (reasoning : Reasoning.t)
    (decision : DecisionOutput.t) (action : StateUpdate.t) (MEMORY_FILE : store)
  : result (list (write_step (list Incident.t))) :=
  let incident := new_incident uuid4 now observation reasoning decision action in
  memory <-! _load MEMORY_FILE;
  let memory := memory ++ [incident] in
  Ok (_save memory).

(** [record_incident]: [uuid4] and [now] are the values drawn from
    [uuid.uuid4()] and [time.time()]; the result is the id returned (or the
    error raised) and the memory file after the call. *)
Definition record_incident (uuid4 : string) (now : float)
    (observation : Observation.t) (reasoning : Reasoning.t)
    (decision : DecisionOutput.t) (action : StateUpdate.t) (MEMORY_FILE : store)
  : result string * store :=
  match record_incident_steps uuid4 now observation reasoning decision action MEMORY_FILE with
  | Ok steps => (Ok uuid4, run steps MEMORY_FILE)
  | Raise e => (Raise e, MEMORY_FILE)
  end.

(** The dict [{"timestamp": time.time(), **outcome}]: a key of [outcome]
    replaces an earlier one. *)
Definition stamped (now : float) (outcome : gmap string json) : gmap string json :=
  outcome ∪ {[ "timestamp" := JNum now ]}.

Definition set_outcome (entry : Incident.t) (value : gmap string json) : Incident.t :=
  {| Incident.incident_id := Incident.incident_id entry;
     Incident.timestamp := Incident.timestamp entry;
     Incident.observation := Incident.observation entry;
     Incident.reasoning := Incident.reasoning entry;
     Incident.decision := Incident.decision entry;
     Incident.action := Incident.action entry;
     Incident.outcome := Some value |}.

(** The loop of [update_outcome]: the first entry with the id gets the
    outcome, and the loop stops there. *)
Fixpoint attach (incident_id : string) (value : gmap string json)
    (memory : list Incident.t) : list Incident.t :=
  match memory with
  | [] => []
  | entry :: rest =>
      if bool_decide (Incident.incident_id entry = incident_id)
      then set_outcome entry value :: rest
      else entry :: attach incident_id value rest
  end.

Definition update_outcome_steps (incident_id : string) (outcome : gmap string json)
    (now : float) (MEMORY_FILE : store)
  : result (list (write_step (list Incident.t))) :=
  memory <-! _load MEMORY_FILE;
  let memory := attach incident_id (stamped now outcome) memory in
  Ok (_save memory).

(** [update_outcome]. *)
Definition update_outcome (incident_id : string) (outcome : gmap string json)
    (now : float) (MEMORY_FILE : store) : result unit * store :=
  match update_outcome_steps incident_id outcome now MEMORY_FILE with
  | Ok steps => (Ok tt, run steps MEMORY_FILE)
  | Raise e => (Raise e, MEMORY_FILE)
  end.

(** Truth value of the [cause] argument: [None] and the empty string are
    false. *)
Definition cause_given (cause : option string) : bool :=
  match cause with
  | Some c => negb (bool_decide (c = ""))
  | None => false
  end.

(** [h.get("cause") != cause]. *)
Definition cause_differs (h : Hyp.t) (cause : option string) : bool :=
  match Hyp.cause h, cause with
  | Some v, Some c => negb (json_is_str v c)
  | None, None => false
  | _, _ => true
  end.

(** The inner loop of [query_similar]: [true] when it reaches
    [results.append(entry)] (and breaks). *)
Fixpoint reaches_append (cause : option string) (min_confidence : float)
    (hypotheses : list Hyp.t) : bool :=
  match hypotheses with
  | [] => false
  | h :: rest =>
      if cause_given cause && cause_differs h cause
      then reaches_append cause min_confidence rest
      else if (default 0%float (Hyp.confidence h) <? min_confidence)%float
      then reaches_append cause min_confidence rest
      else true
  end.

(** [query_similar]. *)
Definition query_similar (cause : option string) (min_confidence : float)
    (MEMORY_FILE : store) : result (list Incident.t) :=
  memory <-! _load MEMORY_FILE;
  let results := [] in
  Ok (fold_left
        (fun results entry =>
           let hypotheses := Reasoning.hypotheses (Incident.reasoning entry) in
           if reaches_append cause min_confidence hypotheses
           then results ++ [entry]
           else results)
        memory results).

(** Reading the entry with a given id, as [update_outcome] locates it. *)
Definition lookup (incident_id : string) (MEMORY_FILE : store) : result (option Incident.t) :=
  memory <-! _load MEMORY_FILE;
  Ok (find (fun entry => bool_decide (Incident.incident_id entry = incident_id)) memory).

End Memory.

(* ===================================================================== *)
(** ** Sample inputs                                                      *)
(* ===================================================================== *)

Module Sample.

(** A batch with every bucket absent, and one with 8 failed checkouts,
    10 [checkout_timeout] errors, 25 tickets and one migration marker. *)
Definition no_signals : RawSignals.t :=
  {| RawSignals.tickets := None;
     RawSignals.errors := None;
     RawSignals.checkouts := None;
     RawSignals.webhooks := None;
     RawSignals.migration_states := None |}.

Definition checkout_storm : RawSignals.t :=
  {| RawSignals.tickets := Some (replicate 25 (JStr "ticket"));
     RawSignals.errors :=
       Some (replicate 10 {| ErrorEvent.type := Some "checkout_timeout" |});
     RawSignals.checkouts :=
       Some (replicate 8 {| Checkout.status := Some "failed" |});
     RawSignals.webhooks := None;
     RawSignals.migration_states :=
       Some [{| MigrationState.stage := Some "cutover" |}] |}.

Definition blind_observation : Observation.t :=
  fst (Observer.observe 0 1700000000 no_signals).

Definition storm_observation : Observation.t :=
  fst (Observer.observe 0 1700000000 checkout_storm).

(** A reasoning whose two best hypotheses tie at 0.7. *)
Definition tied_reasoning : Reasoning.t :=
  {| Reasoning.reasoning_mode := "llm";
     Reasoning.hypotheses :=
       [ Reasoner.hypothesis "migration_misconfiguration" "" 0.3;
         Reasoner.hypothesis "frontend_backend_mismatch" "" 0.7;
         Reasoner.hypothesis "platform_regression" "" 0.7 ];
     Reasoning.assumptions := [];
     Reasoning.unknowns := [];
     Reasoning.confidence := 0.7;
     Reasoning.error := None |}.

End Sample.

(* ===================================================================== *)
(** ** Properties of the Decider                                          *)
(* ===================================================================== *)

(** C1. When the observation's confidence is below 0.6, [decide] returns
    exactly one decision, of type [block_auto_actions] and requiring human
    approval, with risk level [high]; the decisions and the risk level are
    the same whatever the reasoning holds. *)
Theorem decide_blocks_below_gate (observation : Observation.t) (reasoning : Reasoning.t) :
  (Observation.confidence observation <? 0.6)%float = true ->
  exists d,
    DecisionOutput.decisions (Decider.decide observation reasoning) = [d] /\
    Decision.type d = "block_auto_actions" /\
    Decision.requires_human_approval d = true /\
    DecisionOutput.risk_level (Decider.decide observation reasoning) = "high" /\
    forall reasoning',
      DecisionOutput.decisions (Decider.decide observation reasoning') = [d] /\
      DecisionOutput.risk_level (Decider.decide observation reasoning') = "high".
Proof.
  intros Hlow.
  assert (forall r, Decider.decide observation r =
                    Decider._block "Low observation confidence" observation r) as Hgate.
  { intros r. unfold Decider.decide. rewrite Hlow. reflexivity. }
  eexists. rewrite Hgate. simpl.
  repeat split; try reflexivity; rewrite Hgate; reflexivity.
Qed.

Lemma decide_blocks_below_gate_witness :
  (Observation.confidence Sample.blind_observation <? 0.6)%float = true /\
  exists d,
    DecisionOutput.decisions
      (Decider.decide Sample.blind_observation Sample.tied_reasoning) = [d] /\
    Decision.type d = "block_auto_actions" /\
    Decision.requires_human_approval d = true /\
    DecisionOutput.risk_level
      (Decider.decide Sample.blind_observation Sample.tied_reasoning) = "high" /\
    forall reasoning',
      DecisionOutput.decisions (Decider.decide Sample.blind_observation reasoning') = [d] /\
      DecisionOutput.risk_level (Decider.decide Sample.blind_observation reasoning') = "high".
Proof.
  split; [vm_compute; reflexivity |].
  apply (decide_blocks_below_gate Sample.blind_observation Sample.tied_reasoning).
  vm_compute; reflexivity.
Defined.

(** [m] is the earliest item of greatest key in [l]: no key exceeds its
    key, and every item before it has a strictly smaller key. *)
Definition first_greatest {A : Type} (key : A -> float) (l : list A) (m : A) : Prop :=
  exists i, l !! i = Some m /\
    (forall j y, l !! j = Some y -> (key y <=? key m)%float = true) /\
    (forall j y, j < i -> l !! j = Some y -> (key y <? key m)%float = true).

Lemma py_max_by_first_greatest {A : Type} (key : A -> float) (x : A) (l : list A) :
  (forall y, y ∈ x :: l -> FloatOrder.not_nan (key y)) ->
  first_greatest key (x :: l) (py_max_by key x l).
Proof.
  induction l as [|z l IH] using rev_ind; intros Hnum.
  - exists 0. split; [reflexivity|]. split.
    + intros [|j] y Hy; simpl in Hy; [|by rewrite lookup_nil in Hy].
      injection Hy as <-. apply FloatOrder.leb_refl, Hnum. left.
    + intros j y Hj. lia.
  - unfold py_max_by. rewrite fold_left_app. simpl.
    fold (py_max_by key x l).
    destruct IH as (i & Hi & Hle & Hlt).
    { intros y Hy. apply Hnum. rewrite app_comm_cons. apply elem_of_app. by left. }
    assert (FloatOrder.not_nan (key z)) as Hz.
    { apply Hnum. rewrite app_comm_cons. apply elem_of_app. right. left. }
    assert (FloatOrder.not_nan (key (py_max_by key x l))) as Hm.
    { apply Hnum. rewrite app_comm_cons. apply elem_of_app. left.
      eapply list_elem_of_lookup_2, Hi. }
    rewrite app_comm_cons.
    destruct (key (py_max_by key x l) <? key z)%float eqn:E.
    + exists (length (x :: l)). split; [|split].
      * by rewrite lookup_app_r, Nat.sub_diag.
      * intros j y Hy. apply lookup_app_Some in Hy as [Hy|[_ Hy]].
        -- apply FloatOrder.ltb_leb. eapply FloatOrder.leb_ltb_trans; [eapply Hle, Hy | exact E].
        -- apply list_lookup_singleton_Some in Hy as [_ <-]. by apply FloatOrder.leb_refl.
      * intros j y Hj Hy. rewrite lookup_app_l in Hy by exact Hj.
        eapply FloatOrder.leb_ltb_trans; [eapply Hle, Hy | exact E].
    + exists i. split; [|split].
      * apply lookup_app_l_Some, Hi.
      * intros j y Hy. apply lookup_app_Some in Hy as [Hy|[_ Hy]].
        -- eapply Hle, Hy.
        -- apply list_lookup_singleton_Some in Hy as [_ <-].
           by apply FloatOrder.ltb_false_leb.
      * intros j y Hj Hy. eapply Hlt; [exact Hj|].
        apply lookup_lt_Some in Hi.
        rewrite lookup_app_l in Hy by lia. exact Hy.
Qed.

(** What the policy table fixes of a decision: its type, its severity and
    whether it requires human approval. *)
Definition row (d : Decision.t) : string * option string * bool :=
  (Decision.type d, Decision.severity d, Decision.requires_human_approval d).

Definition known_causes : list string :=
  [ "platform_regression"; "webhook_auth_failure"; "frontend_backend_mismatch";
    "migration_misconfiguration"; "normal_operation" ].

(** The policy table of the specification, from a cause (absent when there
    is none) to the rows of the decisions produced. *)
Inductive policy : option json -> list (string * option string * bool) -> Prop :=
| policy_platform_regression :
    policy (Some (JStr "platform_regression"))
           [("escalate_engineering", Some "high", false)]
| policy_webhook_auth_failure :
    policy (Some (JStr "webhook_auth_failure"))
           [("support_guidance", None, false)]
| policy_frontend_backend_mismatch :
    policy (Some (JStr "frontend_backend_mismatch"))
           [("documentation_update_suggestion", None, true); ("monitor_only", None, false)]
| policy_migration_misconfiguration :
    policy (Some (JStr "migration_misconfiguration"))
           [("support_guidance", None, false)]
| policy_normal_operation :
    policy (Some (JStr "normal_operation"))
           [("monitor_only", None, false)]
| policy_default cause :
    (forall s, s ∈ known_causes -> cause <> Some (JStr s)) ->
    policy cause [("monitor_only", None, false)].

(** The confidence of a hypothesis as the specification reads it: the
    number it carries, and 0 for a hypothesis that carries none. *)
Definition hypothesis_confidence (h : Hyp.t) : float :=
  match Hyp.confidence h with
  | Some confidence => confidence
  | None => 0%float
  end.

(** The cause the specification has the Decider act on: that of the
    earliest hypothesis of greatest confidence, and none when there is no
    hypothesis. *)
Definition selected_cause (hypotheses : list Hyp.t) (cause : option json) : Prop :=
  (hypotheses = [] /\ cause = None) \/
  (exists top, first_greatest hypothesis_confidence hypotheses top /\
               cause = Hyp.cause top).

(** The key by which [_get_top_hypothesis] compares is that confidence. *)
Lemma confidence_key_spec (h : Hyp.t) :
  Decider.confidence_key h = hypothesis_confidence h.
Proof. unfold Decider.confidence_key, hypothesis_confidence. by destruct (Hyp.confidence h). Qed.

Lemma first_greatest_ext {A : Type} (key key' : A -> float) (l : list A) (m : A) :
  (forall x, key x = key' x) ->
  first_greatest key l m -> first_greatest key' l m.
Proof.
  intros Hkey (i & Hi & Hle & Hlt). exists i. split; [exact Hi|]. split.
  - intros j y Hy. rewrite <- !Hkey. eapply Hle, Hy.
  - intros j y Hj Hy. rewrite <- !Hkey. eapply Hlt; [exact Hj | exact Hy].
Qed.

Lemma json_is_str_true value text :
  json_is_str value text = true <-> value = JStr text.
Proof.
  destruct value; simpl; try (split; [discriminate | intros [=]]).
  rewrite bool_decide_eq_true. split; [intros ->; reflexivity | intros [=]; assumption].
Qed.

Lemma policy_of_cause (cause : option json) (observation : Observation.t)
    (reasoning : Reasoning.t) (top : Hyp.t) :
  (Observation.confidence observation <? 0.6)%float = false ->
  Decider._get_top_hypothesis (Reasoning.hypotheses reasoning) = top ->
  (cause = Hyp.cause top \/ (cause = None /\ Hyp.cause top = Some (JStr "unknown"))) ->
  policy cause (map row (DecisionOutput.decisions (Decider.decide observation reasoning))).
Proof.
  intros Hgate Htop Hcause. unfold Decider.decide. rewrite Hgate, Htop.
  set (c := default (JStr "unknown") (Hyp.cause top)).
  assert (forall s, s <> "unknown" -> cause = Some (JStr s) <-> c = JStr s) as Hc.
  { intros s Hs. unfold c. destruct Hcause as [->|[-> ->]].
    - destruct (Hyp.cause top); simpl; split; congruence.
    - simpl. split; congruence. }
  destruct (json_is_str c "platform_regression") eqn:E1.
  { apply json_is_str_true, Hc in E1; [|discriminate]. rewrite E1. constructor. }
  destruct (json_is_str c "webhook_auth_failure") eqn:E2.
  { apply json_is_str_true, Hc in E2; [|discriminate]. rewrite E2. constructor. }
  destruct (json_is_str c "frontend_backend_mismatch") eqn:E3.
  { apply json_is_str_true, Hc in E3; [|discriminate]. rewrite E3. constructor. }
  destruct (json_is_str c "migration_misconfiguration") eqn:E4.
  { apply json_is_str_true, Hc in E4; [|discriminate]. rewrite E4. constructor. }
  destruct (json_is_str c "normal_operation") eqn:E5.
  { apply json_is_str_true, Hc in E5; [|discriminate]. rewrite E5. constructor. }
  apply policy_default. intros s Hs Hcs.
  assert (s <> "unknown") as Hne.
  { intros ->. unfold known_causes in Hs.
    repeat (apply elem_of_cons in Hs as [Hs|Hs]; [discriminate|]).
    by apply elem_of_nil in Hs. }
  assert (json_is_str c s = true) as Hyes.
  { apply json_is_str_true, Hc; [exact Hne | exact Hcs]. }
  unfold known_causes in Hs.
  repeat (apply elem_of_cons in Hs as [->|Hs]; [congruence|]).
  by apply elem_of_nil in Hs.
Qed.

(** C5 (as the code has it). Past the safety gate (observation confidence
    at least 0.6), on every reasoning none of whose hypotheses has NaN for
    confidence,
    [decide] acts on the cause of the hypothesis of greatest confidence (a
    hypothesis without one counts as 0), the earliest one on a tie, and
    produces the decisions the policy table lists for that cause; a cause
    outside the table, a hypothesis without a cause and an empty hypothesis
    list all give the single decision [monitor_only]. *)
Theorem decide_follows_policy (observation : Observation.t) (reasoning : Reasoning.t) :
  (0.6 <=? Observation.confidence observation)%float = true ->
  (forall h, h ∈ Reasoning.hypotheses reasoning ->
             FloatOrder.not_nan (hypothesis_confidence h)) ->
  exists cause,
    selected_cause (Reasoning.hypotheses reasoning) cause /\
    policy cause (map row (DecisionOutput.decisions (Decider.decide observation reasoning))).
Proof.
  intros Hconf Hnum.
  apply FloatOrder.leb_ltb_false in Hconf.
  destruct (Reasoning.hypotheses reasoning) as [|h rest] eqn:Hh.
  - exists None. split; [left; split; reflexivity|].
    eapply policy_of_cause; [exact Hconf | rewrite Hh; reflexivity |].
    right. split; reflexivity.
  - exists (Hyp.cause (py_max_by Decider.confidence_key h rest)). split.
    + right. eexists. split; [|reflexivity].
      apply (first_greatest_ext Decider.confidence_key); [exact confidence_key_spec|].
      apply py_max_by_first_greatest.
      intros y Hy. rewrite confidence_key_spec. apply Hnum, Hy.
    + eapply policy_of_cause; [exact Hconf | rewrite Hh; reflexivity |].
      left. reflexivity.
Qed.

Lemma decide_follows_policy_witness :
  (0.6 <=? Observation.confidence Sample.storm_observation)%float = true /\
  (forall h, h ∈ Reasoning.hypotheses Sample.tied_reasoning ->
             FloatOrder.not_nan (hypothesis_confidence h)) /\
  exists cause,
    selected_cause (Reasoning.hypotheses Sample.tied_reasoning) cause /\
    policy cause
      (map row (DecisionOutput.decisions
                  (Decider.decide Sample.storm_observation Sample.tied_reasoning))).
Proof.
  assert (forall h, h ∈ Reasoning.hypotheses Sample.tied_reasoning ->
                    FloatOrder.not_nan (hypothesis_confidence h)) as Hnum.
  { intros h Hh. simpl in Hh.
    repeat (apply elem_of_cons in Hh as [->|Hh]; [vm_compute; reflexivity|]).
    by apply elem_of_nil in Hh. }
  split; [vm_compute; reflexivity|]. split; [exact Hnum|].
  apply (decide_follows_policy Sample.storm_observation Sample.tied_reasoning);
    [vm_compute; reflexivity | exact Hnum].
Defined.

(** A reasoning whose first hypothesis has NaN for confidence and whose
    second is held with confidence 0.9. *)
Definition nan_reasoning : Reasoning.t :=
  {| Reasoning.reasoning_mode := "llm";
     Reasoning.hypotheses :=
       [ Reasoner.hypothesis "platform_regression" "" PrimFloat.nan;
         Reasoner.hypothesis "normal_operation" "" 0.9 ];
     Reasoning.assumptions := [];
     Reasoning.unknowns := [];
     Reasoning.confidence := 0.9;
     Reasoning.error := None |}.

(** C5, the claim as stated for every reasoning fails.  Python's [max] keeps its
    current item unless the next key is strictly greater, and no number is
    greater than NaN: on [nan_reasoning], past the gate, [decide] escalates
    for the cause of the first hypothesis although the second is held with
    confidence 0.9, whose cause the table maps to [monitor_only]; no
    hypothesis of the list is of greatest confidence, so the decisions are
    those of no selected cause. *)
Lemma nan_confidence_is_never_exceeded :
  (0.6 <=? Observation.confidence Sample.storm_observation)%float = true /\
  map (fun h => (Hyp.cause h, hypothesis_confidence h))
      (Reasoning.hypotheses nan_reasoning) =
    [ (Some (JStr "platform_regression"), PrimFloat.nan);
      (Some (JStr "normal_operation"), 0.9%float) ] /\
  map row (DecisionOutput.decisions
             (Decider.decide Sample.storm_observation nan_reasoning)) =
    [("escalate_engineering", Some "high", false)] /\
  ~ (exists cause,
       selected_cause (Reasoning.hypotheses nan_reasoning) cause /\
       policy cause
         (map row (DecisionOutput.decisions
                     (Decider.decide Sample.storm_observation nan_reasoning)))).
Proof.
  split; [vm_compute; reflexivity|].
  split; [vm_compute; reflexivity|].
  split; [vm_compute; reflexivity|].
  intros (cause & [[Hnil _] | (top & (i & Hi & Hle & Hlt) & _)] & _).
  - discriminate Hnil.
  - destruct i as [|[|i]]; cbn in Hi.
    + injection Hi as <-.
      specialize (Hle 1 (Reasoner.hypothesis "normal_operation" "" 0.9) eq_refl).
      vm_compute in Hle. discriminate Hle.
    + injection Hi as <-.
      specialize (Hlt 0 (Reasoner.hypothesis "platform_regression" "" PrimFloat.nan)
                      ltac:(lia) eq_refl).
      vm_compute in Hlt. discriminate Hlt.
    + discriminate Hi.
Qed.

(** Such a reasoning is within reach of the pipeline: when the reply of
    the delegate gives [NaN] for the confidence of its first hypothesis (a
    constant that [json.loads] accepts), [reason] returns it as it is. *)
Example reason_passes_nan_on :
  let reply :=
    JObj [ ("hypotheses",
            JArr [ JObj [ ("cause", JStr "platform_regression");
                          ("confidence", JNum PrimFloat.nan) ];
                   JObj [ ("cause", JStr "normal_operation");
                          ("confidence", JNum 0.9) ] ]);
           ("confidence", JNum 0.9) ] in
  Reasoner.reason (fun _ => None) (fun _ => "") (fun _ => "") (fun _ => "prompt")
    (Some (fun _ => Ok reply)) None Sample.storm_observation = Ok nan_reasoning.
Proof. vm_compute. reflexivity. Qed.

(** On the sample reasoning the tie at 0.7 goes to the earlier hypothesis:
    a documentation suggestion awaiting approval, and monitoring. *)
Example decide_tie_goes_to_earliest :
  map row (DecisionOutput.decisions
             (Decider.decide Sample.storm_observation Sample.tied_reasoning)) =
  [("documentation_update_suggestion", None, true); ("monitor_only", None, false)].
Proof. vm_compute. reflexivity. Qed.

(** The aggregation rule of the specification, as a relation between a
    decision list and a risk level. *)
Definition has_escalation (decisions : list Decision.t) : Prop :=
  exists d, d ∈ decisions /\ Decision.type d = "escalate_engineering".

Definition has_approval (decisions : list Decision.t) : Prop :=
  exists d, d ∈ decisions /\ Decision.requires_human_approval d = true.

Definition aggregate_risk (decisions : list Decision.t) (risk_level : string) : Prop :=
  (has_escalation decisions -> risk_level = "high") /\
  (~ has_escalation decisions -> has_approval decisions -> risk_level = "medium") /\
  (~ has_escalation decisions -> ~ has_approval decisions -> risk_level = "low").

Lemma existsb_elem_of {A : Type} (p : A -> bool) (l : list A) :
  existsb p l = true <-> exists x, x ∈ l /\ p x = true.
Proof.
  rewrite existsb_exists. split; intros (x & Hx & Hp); exists x; split; try exact Hp;
    by apply list_elem_of_In.
Qed.

Lemma assess_risk_aggregates (decisions : list Decision.t) :
  aggregate_risk decisions (Decider._assess_risk decisions).
Proof.
  unfold aggregate_risk, Decider._assess_risk.
  destruct (existsb _ decisions) eqn:Eesc.
  - apply existsb_elem_of in Eesc as (d & Hd & Ht). apply bool_decide_eq_true in Ht.
    assert (has_escalation decisions) by (exists d; split; assumption).
    repeat split; intros; try reflexivity; contradiction.
  - assert (~ has_escalation decisions) as Hno.
    { intros (d & Hd & Ht).
      assert (existsb (fun d => bool_decide (Decision.type d = "escalate_engineering"))
                      decisions = true) as Hyes.
      { apply existsb_elem_of. exists d. split; [exact Hd|]. by apply bool_decide_eq_true. }
      congruence. }
    destruct (existsb Decision.requires_human_approval decisions) eqn:Eapp.
    + apply existsb_elem_of in Eapp.
      repeat split; intros; try reflexivity; contradiction.
    + assert (~ has_approval decisions) as Hnone.
      { intros Happ. apply existsb_elem_of in Happ. congruence. }
      repeat split; intros; try reflexivity; contradiction.
Qed.

(** C6. On the path of [decide] that is not blocked, the risk level
    returned is [high] if some decision returned has type
    [escalate_engineering], else [medium] if some decision returned requires
    human approval, else [low]. *)
Theorem decide_risk_aggregation (observation : Observation.t) (reasoning : Reasoning.t) :
  (Observation.confidence observation <? 0.6)%float = false ->
  aggregate_risk
    (DecisionOutput.decisions (Decider.decide observation reasoning))
    (DecisionOutput.risk_level (Decider.decide observation reasoning)).
Proof.
  intros Hgate. unfold Decider.decide. rewrite Hgate.
  cbv zeta. unfold Decider._finalize. simpl DecisionOutput.decisions.
  simpl DecisionOutput.risk_level. apply assess_risk_aggregates.
Qed.

Lemma decide_risk_aggregation_witness :
  (Observation.confidence Sample.storm_observation <? 0.6)%float = false /\
  aggregate_risk
    (DecisionOutput.decisions
       (Decider.decide Sample.storm_observation Sample.tied_reasoning))
    (DecisionOutput.risk_level
       (Decider.decide Sample.storm_observation Sample.tied_reasoning)).
Proof.
  split; [vm_compute; reflexivity|].
  apply (decide_risk_aggregation Sample.storm_observation Sample.tied_reasoning).
  vm_compute; reflexivity.
Defined.

(* ===================================================================== *)
(** ** Properties of the Observer                                         *)
(* ===================================================================== *)

(** The type of an error event as the specification counts it: the type
    the event carries, and [unknown] for an event that carries none. *)
Definition counted_type (error : ErrorEvent.t) : string :=
  match ErrorEvent.type error with
  | Some type => type
  | None => "unknown"
  end.

(** The stage of a migration state, likewise. *)
Definition counted_stage (m : MigrationState.t) : string :=
  match MigrationState.stage m with
  | Some stage => stage
  | None => "unknown"
  end.

(** The number of events of [errors] whose type is [t]. *)
Definition occurrences (t : string) (errors : list ErrorEvent.t) : nat :=
  length (filter (fun e => counted_type e = t) errors).

(** The keys under which [_compute_stats] counts are that type and that
    stage. *)
Lemma error_key_spec (error : ErrorEvent.t) :
  Observer.error_key error = counted_type error.
Proof. unfold Observer.error_key, counted_type. by destruct (ErrorEvent.type error). Qed.

Lemma stage_key_spec (m : MigrationState.t) :
  Observer.stage_key m = counted_stage m.
Proof. unfold Observer.stage_key, counted_stage. by destruct (MigrationState.stage m). Qed.

(** The failed checkouts of a bucket. *)
Definition failures (checkouts : list Checkout.t) : nat :=
  length (filter (fun c => Checkout.status c = Some "failed") checkouts).

(** A bucket of the raw batch that is absent or empty. *)
Definition is_empty_bucket {A : Type} (bucket : option (list A)) : bool :=
  match bucket with
  | None => true
  | Some [] => true
  | Some (_ :: _) => false
  end.

Definition number_of_empty_buckets (raw_signals : RawSignals.t) : nat :=
  Nat.b2n (is_empty_bucket (RawSignals.tickets raw_signals)) +
  Nat.b2n (is_empty_bucket (RawSignals.errors raw_signals)) +
  Nat.b2n (is_empty_bucket (RawSignals.checkouts raw_signals)) +
  Nat.b2n (is_empty_bucket (RawSignals.webhooks raw_signals)) +
  Nat.b2n (is_empty_bucket (RawSignals.migration_states raw_signals)).

Lemma falsy_default {A : Type} (bucket : option (list A)) :
  falsy (default [] bucket) = is_empty_bucket bucket.
Proof. destruct bucket as [[|x l]|]; reflexivity. Qed.

(** The confidence estimate, by the number of empty buckets. *)
Lemma estimate_confidence_formula (raw_signals : RawSignals.t) :
  let n := number_of_empty_buckets raw_signals in
  let c := Observer._estimate_confidence (Observer._ingest_signals raw_signals) in
  c = py_max 0.5 (1.0 - 0.1 * float_of_nat n)%float /\
  (0.5 <=? c)%float = true /\ (c <=? 1.0)%float = true.
Proof.
  unfold Observer._estimate_confidence, Observer.bucket_falsiness,
    Observer._ingest_signals, number_of_empty_buckets.
  simpl. rewrite !falsy_default.
  destruct (is_empty_bucket (RawSignals.tickets raw_signals)),
    (is_empty_bucket (RawSignals.errors raw_signals)),
    (is_empty_bucket (RawSignals.checkouts raw_signals)),
    (is_empty_bucket (RawSignals.webhooks raw_signals)),
    (is_empty_bucket (RawSignals.migration_states raw_signals));
    vm_compute; repeat split; reflexivity.
Qed.

(** The histogram built by [bump]. *)
Lemma count_get_bump (k t : string) (counts : list (string * nat)) :
  count_get t (bump k counts) =
  if bool_decide (k = t) then S (count_get t counts) else count_get t counts.
Proof.
  induction counts as [|[k' n] rest IH]; simpl.
  - repeat case_bool_decide; congruence.
  - repeat (case_bool_decide; simpl); subst; try congruence.
Qed.

Lemma bump_keys (k : string) (counts : list (string * nat)) :
  (bump k counts).*1 = if bool_decide (k ∈ counts.*1) then counts.*1 else counts.*1 ++ [k].
Proof.
  induction counts as [|[k' n] rest IH]; [reflexivity|].
  rewrite fmap_cons. cbn [bump fst].
  destruct (decide (k' = k)) as [->|Hk].
  - rewrite !bool_decide_eq_true_2; [reflexivity | left | reflexivity].
  - rewrite (bool_decide_eq_false_2 (k' = k)) by exact Hk.
    rewrite fmap_cons, IH. cbn [fst].
    destruct (decide (k ∈ rest.*1)) as [Hin|Hin].
    + rewrite !bool_decide_eq_true_2; [reflexivity | by right | exact Hin].
    + rewrite !bool_decide_eq_false_2; [reflexivity | | exact Hin].
      intros [->|?]%elem_of_cons; congruence.
Qed.

Lemma bump_NoDup (k : string) (counts : list (string * nat)) :
  NoDup counts.*1 -> NoDup (bump k counts).*1.
Proof.
  intros Hnd. rewrite bump_keys. case_bool_decide as Hin; [exact Hnd|].
  apply NoDup_app. split; [exact Hnd|]. split; [|apply NoDup_singleton].
  intros x Hx ->%list_elem_of_singleton. contradiction.
Qed.

Lemma bump_positive (k : string) (counts : list (string * nat)) :
  (forall t c, (t, c) ∈ counts -> 0 < c) ->
  forall t c, (t, c) ∈ bump k counts -> 0 < c.
Proof.
  induction counts as [|[k' n] rest IH]; simpl; intros Hpos t c Hin.
  - apply list_elem_of_singleton in Hin. injection Hin as -> ->. lia.
  - case_bool_decide.
    + apply elem_of_cons in Hin as [Hin|Hin].
      * injection Hin as -> ->. lia.
      * eapply Hpos. right. exact Hin.
    + apply elem_of_cons in Hin as [Hin|Hin].
      * injection Hin as -> ->. eapply Hpos. left.
      * eapply IH; [|exact Hin]. intros t' c' H'. eapply Hpos. right. exact H'.
Qed.

Lemma elem_of_counts (t : string) (c : nat) (counts : list (string * nat)) :
  NoDup counts.*1 ->
  (forall t c, (t, c) ∈ counts -> 0 < c) ->
  (t, c) ∈ counts <-> count_get t counts = c /\ 0 < c.
Proof.
  induction counts as [|[k n] rest IH]; simpl; intros Hnd Hpos.
  - split; [intros H; by apply elem_of_nil in H | lia].
  - apply NoDup_cons in Hnd as [Hk Hnd].
    assert (forall t c, (t, c) ∈ rest -> 0 < c) as Hpos'.
    { intros t' c' H'. eapply Hpos. right. exact H'. }
    case_bool_decide as Hkt.
    + subst k. split.
      * intros [Hin|Hin]%elem_of_cons.
        -- injection Hin as ->. split; [reflexivity|]. eapply Hpos. left.
        -- exfalso. apply Hk. apply list_elem_of_fmap. exists (t, c). split; [reflexivity|exact Hin].
      * intros [-> _]. left.
    + rewrite <- IH by assumption. split.
      * intros [Hin|Hin]%elem_of_cons; [congruence | exact Hin].
      * intros Hin. right. exact Hin.
Qed.

Lemma histogram_invariant (errors : list ErrorEvent.t) (counts : list (string * nat)) :
  NoDup counts.*1 ->
  (forall t c, (t, c) ∈ counts -> 0 < c) ->
  let h := fold_left (fun error_types error => bump (Observer.error_key error) error_types)
                     errors counts in
  NoDup h.*1 /\
  (forall t c, (t, c) ∈ h -> 0 < c) /\
  (forall t, count_get t h = count_get t counts + occurrences t errors).
Proof.
  revert counts. induction errors as [|e errors IH]; intros counts Hnd Hpos; simpl.
  - repeat split; try assumption. intros t. unfold occurrences. simpl. lia.
  - destruct (IH (bump (Observer.error_key e) counts)) as (H1 & H2 & H3).
    { by apply bump_NoDup. }
    { by apply bump_positive. }
    repeat split; try assumption.
    intros t. rewrite H3, count_get_bump, error_key_spec. unfold occurrences.
    rewrite filter_cons. case_bool_decide; case_decide; simpl; try congruence; lia.
Qed.

Lemma failed_checkouts_count (checkouts : list Checkout.t) (total : nat) :
  fold_left (fun total c => if Observer.is_failed c then total + 1 else total)
            checkouts total = total + failures checkouts.
Proof.
  revert total. induction checkouts as [|c checkouts IH]; intros total; simpl.
  - unfold failures. simpl. lia.
  - rewrite IH. unfold failures, Observer.is_failed. rewrite filter_cons.
    case_bool_decide; case_decide; simpl; try congruence; lia.
Qed.

Lemma repeated_errors_loop (counts : list (string * nat)) (anomalies : list Anomaly.t) :
  fold_left
    (fun anomalies '(error_type, count) =>
       if 5 <=? count then anomalies ++ [Observer.repeated_error error_type count]
       else anomalies)
    counts anomalies =
  anomalies ++ map (fun p => Observer.repeated_error p.1 p.2)
                   (filter (fun p => 5 <= p.2) counts).
Proof.
  revert anomalies. induction counts as [|[t c] counts IH]; intros anomalies.
  - simpl. by rewrite app_nil_r.
  - cbn [fold_left]. rewrite IH, filter_cons.
    destruct (Nat.leb_spec 5 c) as [Hc|Hc].
    + rewrite decide_True by exact Hc. cbn [map fst snd]. by rewrite <- app_assoc.
    + rewrite decide_False by (simpl; lia). reflexivity.
Qed.

(** C4. [observe] returns the confidence
    [max(0.5, 1.0 - 0.1 * number_of_empty_buckets)], which lies in
    [0.5, 1.0]; its anomaly list holds the anomaly [checkout_failures] of
    severity [high] exactly when some checkout failed, one anomaly
    [repeated_error] of severity [medium] for each error type that at
    least 5 events of the error bucket have (an event without a type has
    the type [unknown]), nothing else, and nothing twice. *)
Theorem observe_confidence_and_anomalies (self : nat) (now : float)
    (raw_signals : RawSignals.t) :
  let observation := fst (Observer.observe self now raw_signals) in
  let n := number_of_empty_buckets raw_signals in
  let failed := failures (default [] (RawSignals.checkouts raw_signals)) in
  let errors := default [] (RawSignals.errors raw_signals) in
  Observation.confidence observation = py_max 0.5 (1.0 - 0.1 * float_of_nat n)%float /\
  (0.5 <=? Observation.confidence observation)%float = true /\
  (Observation.confidence observation <=? 1.0)%float = true /\
  (forall a, a ∈ Observation.anomalies observation <->
     (0 < failed /\
      a = {| Anomaly.type := "checkout_failures"; Anomaly.error_type := None;
             Anomaly.count := failed; Anomaly.severity := "high" |}) \/
     (exists t, 5 <= occurrences t errors /\
      a = {| Anomaly.type := "repeated_error"; Anomaly.error_type := Some t;
             Anomaly.count := occurrences t errors; Anomaly.severity := "medium" |})) /\
  NoDup (Observation.anomalies observation).
Proof.
  intros observation n failed errors.
  destruct (estimate_confidence_formula raw_signals) as (Hc & Hlo & Hhi).
  split; [exact Hc|]. split; [exact Hlo|]. split; [exact Hhi|].
  unfold observation, Observer.observe. cbn [fst Observation.anomalies].
  unfold Observer._detect_anomalies, Observer._compute_stats.
  cbn [Stats.failed_checkouts Stats.error_types].
  unfold Observer._ingest_signals. cbn [Signals.checkouts Signals.errors].
  fold errors. rewrite failed_checkouts_count. cbn [Nat.add]. fold failed.
  rewrite repeated_errors_loop.
  destruct (histogram_invariant errors []) as (Hnd & Hpos & Hget).
  { constructor. }
  { intros t c H. by apply elem_of_nil in H. }
  set (h := fold_left _ errors []) in *.
  assert (forall t c, (t, c) ∈ h <-> c = occurrences t errors /\ 0 < c) as Hh.
  { intros t c. rewrite (elem_of_counts t c h Hnd Hpos), Hget. simpl. intuition congruence. }
  assert (forall a, a ∈ map (fun p => Observer.repeated_error p.1 p.2)
                            (filter (fun p => 5 <= p.2) h) <->
                    exists t, 5 <= occurrences t errors /\
                              a = Observer.repeated_error t (occurrences t errors)) as Hrep.
  { intros a. rewrite list_elem_of_fmap. split.
    - intros ([t c] & -> & Hin). apply list_elem_of_filter in Hin as [Hc5 Hin].
      apply Hh in Hin as [-> _]. simpl in *. exists t. split; [exact Hc5|reflexivity].
    - intros (t & H5 & ->). exists (t, occurrences t errors). split; [reflexivity|].
      apply list_elem_of_filter. split; [exact H5|]. apply Hh. split; [reflexivity|lia]. }
  assert (NoDup (map (fun p => Observer.repeated_error p.1 p.2)
                     (filter (fun p => 5 <= p.2) h))) as Hndrep.
  { apply NoDup_fmap_2_strong.
    - intros [t1 c1] [t2 c2] H1 H2 Heq.
      apply list_elem_of_filter in H1 as [_ H1]. apply list_elem_of_filter in H2 as [_ H2].
      apply Hh in H1 as [-> _]. apply Hh in H2 as [-> _].
      injection Heq as -> _. reflexivity.
    - apply NoDup_filter. eapply NoDup_fmap_1. exact Hnd. }
  destruct (0 <? failed) eqn:Ef; rewrite app_nil_l.
  - apply Nat.ltb_lt in Ef. split.
    + intros a. rewrite elem_of_app, Hrep, list_elem_of_singleton.
      unfold Observer.checkout_failures, Observer.repeated_error. intuition.
    + apply NoDup_app. split; [apply NoDup_singleton|]. split; [|exact Hndrep].
      intros a ->%list_elem_of_singleton Hin. apply Hrep in Hin as (t & _ & Heq).
      discriminate Heq.
  - apply Nat.ltb_ge in Ef. split.
    + intros a. rewrite Hrep.
      unfold Observer.repeated_error. split.
      * intros H. right. exact H.
      * intros [[H _]|H]; [lia | exact H].
    + exact Hndrep.
Qed.

(** On the batch of the first end-to-end scenario one bucket is empty and
    the two anomalies are the failures and the repeated timeout. *)
Example observe_checkout_storm :
  (Observation.confidence Sample.storm_observation,
   map (fun a => (Anomaly.type a, Anomaly.count a, Anomaly.severity a))
       (Observation.anomalies Sample.storm_observation)) =
  (0.9%float, [("checkout_failures", 8, "high"); ("repeated_error", 10, "medium")]).
Proof. vm_compute. reflexivity. Qed.

(* ===================================================================== *)
(** ** Properties of the Reasoner                                         *)
(* ===================================================================== *)

(** The threshold rules of the specification, in order: whether the rule
    fires on the statistics, and the cause and confidence it contributes. *)
Definition threshold_rules (stats : Stats.t) : list (bool * (string * float)) :=
  [ (5 <=? Stats.failed_checkouts stats, ("migration_misconfiguration", 0.8%float));
    (3 <=? count_get "webhook_401" (Stats.error_types stats),
      ("webhook_auth_failure", 0.7%float));
    (3 <=? count_get "frontend_state_mismatch" (Stats.error_types stats),
      ("frontend_backend_mismatch", 0.65%float));
    (10 <=? count_get "unknown" (Stats.error_types stats),
      ("platform_regression", 0.6%float)) ].

Definition firing_rules (stats : Stats.t) : list (string * float) :=
  map snd (List.filter fst (threshold_rules stats)).

(** The cause and the confidence of a hypothesis. *)
Definition verdict (h : Hyp.t) : option json * option float :=
  (Hyp.cause h, Hyp.confidence h).

Definition expected (rule : string * float) : option json * option float :=
  (Some (JStr (fst rule)), Some (snd rule)).

(** C3. Deterministic reasoning returns, for every observation, one
    hypothesis per threshold rule that fires, in rule order, with the cause
    and confidence of the rule, and the single hypothesis
    [normal_operation] of confidence 0.9 when no rule fires; the hypothesis
    list is not empty, and the overall confidence is the greatest of the
    confidences of the hypotheses returned. *)
Theorem reason_deterministic_rules (observation : Observation.t) :
  exists reasoning,
    Reasoner._reason_deterministic observation = Ok reasoning /\
    Reasoning.reasoning_mode reasoning = "deterministic" /\
    let fired := firing_rules (Observation.stats observation) in
    let hypotheses := Reasoning.hypotheses reasoning in
    (fired <> [] -> map verdict hypotheses = map expected fired) /\
    (fired = [] -> map verdict hypotheses = [(Some (JStr "normal_operation"), Some 0.9%float)]) /\
    hypotheses <> [] /\
    (forall h x, h ∈ hypotheses -> Hyp.confidence h = Some x ->
                 (x <=? Reasoning.confidence reasoning)%float = true) /\
    (exists h, h ∈ hypotheses /\
               Hyp.confidence h = Some (Reasoning.confidence reasoning)).
Proof.
  unfold Reasoner._reason_deterministic, firing_rules, threshold_rules.
  destruct (5 <=? Stats.failed_checkouts (Observation.stats observation));
    destruct (3 <=? count_get "webhook_401" _);
    destruct (3 <=? count_get "frontend_state_mismatch" _);
    destruct (10 <=? count_get "unknown" _);
    (eexists; split; [vm_compute; reflexivity|]);
    (split; [reflexivity|]);
    cbv zeta;
    cbn [Reasoning.hypotheses Reasoning.confidence List.filter fst snd map];
    (split; [intros H; first [reflexivity | exfalso; by apply H]|]);
    (split; [intros H; first [reflexivity | discriminate H]|]);
    (split; [discriminate|]);
    (split;
      [ intros h x Hh Hx;
        repeat (apply elem_of_cons in Hh as [->|Hh];
                [injection Hx as <-; vm_compute; reflexivity|]);
        by apply elem_of_nil in Hh
      | ]);
    eexists;
    first [ split; [left | reflexivity]
          | split; [right; left | reflexivity]
          | split; [right; right; left | reflexivity]
          | split; [right; right; right; left | reflexivity] ].
Qed.

(** With 8 failed checkouts and no error type of the rules, the one
    hypothesis is [migration_misconfiguration] at 0.8; with nothing
    observed it is [normal_operation] at 0.9. *)
Example reason_deterministic_storm :
  match Reasoner._reason_deterministic Sample.storm_observation with
  | Ok reasoning => map verdict (Reasoning.hypotheses reasoning)
  | Raise _ => []
  end = [(Some (JStr "migration_misconfiguration"), Some 0.8%float)].
Proof. vm_compute. reflexivity. Qed.

Example reason_deterministic_quiet :
  match Reasoner._reason_deterministic Sample.blind_observation with
  | Ok reasoning => map verdict (Reasoning.hypotheses reasoning)
  | Raise _ => []
  end = [(Some (JStr "normal_operation"), Some 0.9%float)].
Proof. vm_compute. reflexivity. Qed.

(** The failures of the delegate client: each is an exception of
    [generate], never a value. *)
Lemma generate_returns_object http_post py_strip json_loads prompt value :
  OllamaClient.generate http_post py_strip json_loads prompt = Ok value ->
  exists members, value = JObj members.
Proof.
  unfold OllamaClient.generate, bind.
  destruct (http_post prompt) as [[| | | |?|members]|]; try discriminate.
  destruct (default (JStr "") (obj_get "response" members)); try discriminate.
  case_bool_decide; try discriminate.
  destruct (json_loads _) as [[| | | |?|parsed]|]; try discriminate.
  intros [= <-]. eexists. reflexivity.
Qed.

Lemma generate_transport_error http_post py_strip json_loads prompt e :
  http_post prompt = Raise e ->
  OllamaClient.generate http_post py_strip json_loads prompt = Raise e.
Proof. intros H. unfold OllamaClient.generate. rewrite H. reflexivity. Qed.

(** A reply whose text is blank, is not JSON, or is JSON of another root
    than an object is an exception of [generate] as well. *)
Lemma generate_rejects_bad_text http_post py_strip json_loads prompt members text :
  http_post prompt = Ok (JObj members) ->
  obj_get "response" members = Some (JStr text) ->
  (py_strip text = "" ->
   OllamaClient.generate http_post py_strip json_loads prompt =
     Raise "LLM returned empty response") /\
  (py_strip text <> "" ->
   (forall e, json_loads (py_strip text) = Raise e ->
      OllamaClient.generate http_post py_strip json_loads prompt =
        Raise ("LLM returned invalid JSON:" +:+ String "010" (py_strip text))) /\
   (forall value, json_loads (py_strip text) = Ok value ->
      (forall root, value <> JObj root) ->
      OllamaClient.generate http_post py_strip json_loads prompt =
        Raise ("LLM JSON root must be an object, got " +:+
               OllamaClient.type_of_parsed (py_strip text) value))).
Proof.
  intros Hpost Htext. unfold OllamaClient.generate, bind. rewrite Hpost, Htext.
  cbn [default from_option id]. split.
  - intros Hblank. rewrite bool_decide_eq_true_2 by exact Hblank. reflexivity.
  - intros Hsome. rewrite bool_decide_eq_false_2 by exact Hsome. split.
    + intros e He. rewrite He. reflexivity.
    + intros value Hv Hroot. rewrite Hv.
      destruct value; try reflexivity. exfalso. by eapply Hroot.
Qed.

(** The messages of [generate] on a reply whose text is not JSON and on
    one whose root is a list. *)
Example generate_messages :
  let reply text := fun _ : string => Ok (JObj [("response", JStr text)]) in
  OllamaClient.generate (reply "oops") (fun s => s) (fun _ => Raise "Expecting value")
    "prompt" = Raise ("LLM returned invalid JSON:" +:+ String "010" "oops") /\
  OllamaClient.generate (reply "[1, 2]") (fun s => s)
    (fun _ => Ok (JArr [JNum 1; JNum 2])) "prompt" =
    Raise "LLM JSON root must be an object, got <class 'list'>" /\
  OllamaClient.generate (reply "42") (fun s => s) (fun _ => Ok (JNum 42)) "prompt" =
    Raise "LLM JSON root must be an object, got <class 'int'>".
Proof. cbv zeta. repeat split; vm_compute; reflexivity. Qed.

(** The delegate path of [reason] returns for every outcome of the
    delegate: the attempt's reasoning, or the fallback. *)
Lemma reason_with_llm_modes parse_float py_str json_dumps _build_prompt generate observation :
  let reasoning :=
    Reasoner._reason_with_llm parse_float py_str json_dumps _build_prompt
      generate observation in
  Reasoning.reasoning_mode reasoning = "llm" \/
  Reasoning.reasoning_mode reasoning = "llm_failed".
Proof.
  unfold Reasoner._reason_with_llm, try_except.
  destruct (Reasoner.llm_attempt _ _ _ _ _ _) as [r|e] eqn:E; [left | right; reflexivity].
  unfold Reasoner.llm_attempt, bind in E.
  repeat match type of E with
         | match ?x with _ => _ end = _ => destruct x; try discriminate
         end.
  injection E as <-. reflexivity.
Qed.

(** C2. When the delegate is configured and enabled and the observation
    calls for it, and the delegate's [generate] raises an exception on the
    prompt, [reason] returns normally: the reasoning has mode
    [llm_failed], the single hypothesis [unknown] with confidence 0.4,
    overall confidence 0.4, and the message of the exception recorded. *)
Theorem reason_contains_delegate_failure
    (parse_float : string -> option float) (py_str json_dumps : json -> string)
    (_build_prompt : Observation.t -> string)
    (generate : string -> result json) (USE_LLM : option string)
    (observation : Observation.t) (e : string) :
  Reasoner.lower (default "true" USE_LLM) = "true" ->
  Reasoner._should_use_llm observation = true ->
  generate (_build_prompt observation) = Raise e ->
  exists reasoning,
    Reasoner.reason parse_float py_str json_dumps _build_prompt
      (Some generate) USE_LLM observation = Ok reasoning /\
    Reasoning.reasoning_mode reasoning = "llm_failed" /\
    map verdict (Reasoning.hypotheses reasoning) =
      [(Some (JStr "unknown"), Some 0.4%float)] /\
    Reasoning.confidence reasoning = 0.4%float /\
    Reasoning.error reasoning = Some e.
Proof.
  intros Henv Hneed Hraise.
  exists (Reasoner.llm_failed e). split; [|repeat split].
  unfold Reasoner.reason.
  rewrite bool_decide_eq_true_2 by exact Henv. rewrite Hneed. simpl andb. cbv iota.
  f_equal. unfold Reasoner._reason_with_llm, Reasoner.llm_attempt.
  rewrite Hraise. reflexivity.
Qed.

(** A client whose request times out, behind an upper-case [USE_LLM]. *)
Definition timed_out_client : string -> result json :=
  OllamaClient.generate (fun _ => Raise "Read timed out") (fun s => s)
                        (fun _ => Raise "Expecting value").

Lemma reason_contains_delegate_failure_witness :
  Reasoner.lower (default "true" (Some "TRUE")) = "true" /\
  Reasoner._should_use_llm Sample.blind_observation = true /\
  timed_out_client "prompt" = Raise "Read timed out" /\
  exists reasoning,
    Reasoner.reason (fun _ => None) (fun _ => "") (fun _ => "") (fun _ => "prompt")
      (Some timed_out_client) (Some "TRUE") Sample.blind_observation = Ok reasoning /\
    Reasoning.reasoning_mode reasoning = "llm_failed" /\
    map verdict (Reasoning.hypotheses reasoning) =
      [(Some (JStr "unknown"), Some 0.4%float)] /\
    Reasoning.confidence reasoning = 0.4%float /\
    Reasoning.error reasoning = Some "Read timed out".
Proof.
  split; [vm_compute; reflexivity|].
  split; [vm_compute; reflexivity|].
  split; [vm_compute; reflexivity|].
  apply (reason_contains_delegate_failure (fun _ => None) (fun _ => "") (fun _ => "")
           (fun _ => "prompt") timed_out_client (Some "TRUE")
           Sample.blind_observation "Read timed out");
    vm_compute; reflexivity.
Defined.

(* ===================================================================== *)
(** ** Properties of the Actor                                            *)
(* ===================================================================== *)

(** The action record that corresponds to a decision, by its type. *)
Inductive action_of : Decision.t -> Action -> Prop :=
| action_of_monitor d :
    Decision.type d = "monitor_only" ->
    action_of d (monitoring (Decision.reason d))
| action_of_guidance d :
    Decision.type d = "support_guidance" ->
    action_of d
      (support_guidance_prepared
         "Provide merchant with migration checklist, webhook verification steps, and API credential validation."
         (Decision.reason d))
| action_of_escalation d :
    Decision.type d = "escalate_engineering" ->
    action_of d
      (engineering_escalation_created (Decision.severity d)
         "Potential platform regression detected during headless migration.").

(** The decisions that are executed: not awaiting approval, and of one of
    the three types the Actor knows. *)
Definition executed (d : Decision.t) : Prop :=
  Decision.requires_human_approval d = false /\
  Decision.type d ∈ ["monitor_only"; "support_guidance"; "escalate_engineering"].

Definition awaits_approval (d : Decision.t) : Prop :=
  Decision.requires_human_approval d = true.

Lemma execute_cases (d : Decision.t) :
  (Decision.type d ∈ ["monitor_only"; "support_guidance"; "escalate_engineering"] /\
   exists a, Actor._execute d = Some a /\ action_of d a) \/
  ((Decision.type d ∉ ["monitor_only"; "support_guidance"; "escalate_engineering"]) /\
   Actor._execute d = None).
Proof.
  unfold Actor._execute. cbv zeta.
  case_bool_decide as H1.
  { left. split; [rewrite H1; left|]. eexists. split; [reflexivity|]. by constructor. }
  case_bool_decide as H2.
  { left. split; [rewrite H2; right; left|]. eexists. split; [reflexivity|]. by constructor. }
  case_bool_decide as H3.
  { left. split; [rewrite H3; right; right; left|]. eexists. split; [reflexivity|].
    by constructor. }
  right. split; [|reflexivity].
  intros Hin. repeat (apply elem_of_cons in Hin as [Hin|Hin]; [congruence|]).
  by apply elem_of_nil in Hin.
Qed.

Lemma act_loop (decisions : list Decision.t) :
  forall actions_taken pending_approvals,
  exists performed,
    fold_left Actor.act_step decisions (actions_taken, pending_approvals) =
      (actions_taken ++ performed, pending_approvals ++ filter awaits_approval decisions) /\
    Forall2 action_of (filter executed decisions) performed.
Proof.
  induction decisions as [|d decisions IH]; intros actions_taken pending_approvals.
  - exists []. simpl. rewrite !app_nil_r. split; [reflexivity | constructor].
  - cbn [fold_left]. rewrite !filter_cons.
    destruct (decide (awaits_approval d)) as [Happ|Happ]; unfold awaits_approval in Happ.
    + assert (Actor.act_step (actions_taken, pending_approvals) d =
              (actions_taken, pending_approvals ++ [d])) as ->.
      { unfold Actor.act_step. rewrite Happ. reflexivity. }
      destruct (IH actions_taken (pending_approvals ++ [d])) as (performed & Heq & Hall).
      exists performed. rewrite Heq.
      rewrite decide_False by (intros [? _]; congruence).
      rewrite <- app_assoc. split; [reflexivity | exact Hall].
    + apply not_true_is_false in Happ.
      destruct (execute_cases d) as [(Hin & a & Hex & Ha) | (Hout & Hex)].
      * assert (Actor.act_step (actions_taken, pending_approvals) d =
                (actions_taken ++ [a], pending_approvals)) as ->.
        { unfold Actor.act_step. rewrite Happ, Hex. reflexivity. }
        destruct (IH (actions_taken ++ [a]) pending_approvals) as (performed & Heq & Hall).
        exists (a :: performed). rewrite Heq.
        rewrite decide_True by (split; [exact Happ | exact Hin]).
        rewrite <- app_assoc. split; [reflexivity|]. constructor; assumption.
      * assert (Actor.act_step (actions_taken, pending_approvals) d =
                (actions_taken, pending_approvals)) as ->.
        { unfold Actor.act_step. rewrite Happ, Hex. reflexivity. }
        destruct (IH actions_taken pending_approvals) as (performed & Heq & Hall).
        exists performed. rewrite Heq.
        rewrite decide_False by (intros [_ ?]; contradiction).
        split; [reflexivity | exact Hall].
Qed.

(** C7. [act] splits the decisions in two: [pending_approvals] holds,
    unmodified and in order, exactly the decisions that require human
    approval, and none of them yields an action; [actions_taken] holds, in
    order, exactly one action of the corresponding kind for each other
    decision of type [monitor_only], [support_guidance] or
    [escalate_engineering]; a decision of any other type yields no action,
    and the call returns for every decision set. *)
Theorem act_partitions_decisions (now : float) (decision_output : DecisionOutput.t)
    (STATE_FILE : file (list StateUpdate.t)) :
  let update := fst (Actor.act now decision_output STATE_FILE) in
  let decisions := DecisionOutput.decisions decision_output in
  StateUpdate.pending_approvals update = filter awaits_approval decisions /\
  Forall2 action_of (filter executed decisions) (StateUpdate.actions_taken update).
Proof.
  unfold Actor.act.
  destruct (act_loop (DecisionOutput.decisions decision_output) [] [])
    as (performed & Heq & Hall).
  rewrite Heq. simpl. split; [reflexivity | exact Hall].
Qed.

(** The update returned is also the last entry of the state file. *)
Lemma act_appends_to_state_file (now : float) (decision_output : DecisionOutput.t)
    (existing : list StateUpdate.t) :
  snd (Actor.act now decision_output (Document existing)) =
  Document (existing ++ [fst (Actor.act now decision_output (Document existing))]).
Proof.
  unfold Actor.act.
  destruct (fold_left _ _ _) as [actions_taken pending_approvals]. reflexivity.
Qed.

(* ===================================================================== *)
(** ** Properties of the Memory                                           *)
(* ===================================================================== *)

(** The time recorded with the outcome of the incident of a given id. *)
Definition attachment_time (incident_id : string) (MEMORY_FILE : Memory.store)
  : option json :=
  match Memory.lookup incident_id MEMORY_FILE with
  | Ok (Some entry) =>
      match Incident.outcome entry with
      | Some outcome => outcome !! "timestamp"
      | None => None
      end
  | _ => None
  end.

(** The cycle recorded and the feedback attached in the examples. *)
Definition storm_incident (uuid4 : string) (now : float) : Incident.t :=
  let reasoning :=
    match Reasoner._reason_deterministic Sample.storm_observation with
    | Ok reasoning => reasoning
    | Raise e => Reasoner.llm_failed e
    end in
  let decision := Decider.decide Sample.storm_observation reasoning in
  Memory.new_incident uuid4 now Sample.storm_observation reasoning decision
    (fst (Actor.act now decision Absent)).

Definition resolved : gmap string json := {[ "resolved" := JBool true ]}.

Lemma stamped_timestamp (now : float) (outcome : gmap string json) :
  Memory.stamped now outcome !! "timestamp" =
  Some (default (JNum now) (outcome !! "timestamp")).
Proof.
  unfold Memory.stamped. destruct (outcome !! "timestamp") as [own|] eqn:Hown.
  - apply lookup_union_Some_l. exact Hown.
  - rewrite lookup_union_r by exact Hown. apply lookup_singleton_eq.
Qed.

Lemma find_fresh (uuid4 : string) (memory : list Incident.t) (incident : Incident.t) :
  (forall entry, entry ∈ memory -> Incident.incident_id entry <> uuid4) ->
  Incident.incident_id incident = uuid4 ->
  find (fun entry => bool_decide (Incident.incident_id entry = uuid4))
       (memory ++ [incident]) = Some incident.
Proof.
  intros Hfresh Hid. induction memory as [|entry memory IH]; simpl.
  - rewrite bool_decide_eq_true_2 by exact Hid. reflexivity.
  - rewrite bool_decide_eq_false_2 by (apply Hfresh; left).
    apply IH. intros e He. apply Hfresh. right. exact He.
Qed.

Lemma attach_fresh (uuid4 : string) (value : gmap string json)
    (memory : list Incident.t) (incident : Incident.t) :
  (forall entry, entry ∈ memory -> Incident.incident_id entry <> uuid4) ->
  Incident.incident_id incident = uuid4 ->
  Memory.attach uuid4 value (memory ++ [incident]) =
  memory ++ [Memory.set_outcome incident value].
Proof.
  intros Hfresh Hid. induction memory as [|entry memory IH]; simpl.
  - rewrite bool_decide_eq_true_2 by exact Hid. reflexivity.
  - rewrite bool_decide_eq_false_2 by (apply Hfresh; left).
    f_equal. apply IH. intros e He. apply Hfresh. right. exact He.
Qed.

(** C8 (as the code has it). For a memory file holding a collection in
    which the fresh id does not occur, [record_incident] returns the id and
    stores the incident with no outcome, so that looking the id up at once
    finds an incident whose outcome is null; after one [update_outcome] on
    that id the stored outcome is the given one with its attachment time,
    hence not null; a second [update_outcome] on the same id replaces it by
    the second outcome with the attachment time of the second call.  The
    attachment time of a call is the [timestamp] member of the outcome it
    is given, and the time of the call when the outcome has no such
    member. *)
Theorem record_then_update_outcome (uuid4 : string) (now : float)
    (observation : Observation.t) (reasoning : Reasoning.t)
    (decision : DecisionOutput.t) (action : StateUpdate.t)
    (memory : list Incident.t) :
  (forall entry, entry ∈ memory -> Incident.incident_id entry <> uuid4) ->
  let recorded :=
    Memory.record_incident uuid4 now observation reasoning decision action
      (Document memory) in
  fst recorded = Ok uuid4 /\
  (exists entry, Memory.lookup uuid4 (snd recorded) = Ok (Some entry) /\
                 Incident.outcome entry = None) /\
  forall outcome1 now1,
    let first := Memory.update_outcome uuid4 outcome1 now1 (snd recorded) in
    (exists entry, Memory.lookup uuid4 (snd first) = Ok (Some entry) /\
                   Incident.outcome entry = Some (Memory.stamped now1 outcome1)) /\
    attachment_time uuid4 (snd first) =
      Some (default (JNum now1) (outcome1 !! "timestamp")) /\
    forall outcome2 now2,
      let second := Memory.update_outcome uuid4 outcome2 now2 (snd first) in
      (exists entry, Memory.lookup uuid4 (snd second) = Ok (Some entry) /\
                     Incident.outcome entry = Some (Memory.stamped now2 outcome2)) /\
      attachment_time uuid4 (snd second) =
        Some (default (JNum now2) (outcome2 !! "timestamp")).
Proof.
  intros Hfresh.
  set (incident := Memory.new_incident uuid4 now observation reasoning decision action).
  assert (forall entry, Incident.incident_id entry = uuid4 ->
             Memory.lookup uuid4 (Document (memory ++ [entry])) = Ok (Some entry))
    as Hlookup.
  { intros entry Hid. unfold Memory.lookup. simpl. f_equal.
    apply find_fresh; [exact Hfresh | exact Hid]. }
  assert (forall value entry t,
             snd (Memory.update_outcome uuid4 value t
                    (Document (memory ++ [entry]))) =
             Document (Memory.attach uuid4 (Memory.stamped t value) (memory ++ [entry])))
    as Hupdate.
  { intros. reflexivity. }
  cbv zeta. split; [reflexivity|]. split.
  { exists incident. split; [|reflexivity]. apply Hlookup. reflexivity. }
  intros outcome1 now1.
  change (snd (Memory.record_incident uuid4 now observation reasoning decision action
                 (Document memory))) with (Document (memory ++ [incident])).
  rewrite Hupdate, attach_fresh by (exact Hfresh || reflexivity).
  split.
  { eexists. split; [apply Hlookup; reflexivity | reflexivity]. }
  split.
  { unfold attachment_time. rewrite Hlookup by reflexivity.
    cbn [Incident.outcome Memory.set_outcome]. apply stamped_timestamp. }
  intros outcome2 now2.
  rewrite Hupdate, attach_fresh by (exact Hfresh || reflexivity).
  split.
  { eexists. split; [apply Hlookup; reflexivity | reflexivity]. }
  unfold attachment_time. rewrite Hlookup by reflexivity.
  cbn [Incident.outcome Memory.set_outcome]. apply stamped_timestamp.
Qed.

Lemma record_then_update_outcome_witness :
  (forall entry, entry ∈ [storm_incident "id-0" 100] ->
                 Incident.incident_id entry <> "id-1") /\
  let recorded :=
    Memory.record_incident "id-1" 150 Sample.storm_observation Sample.tied_reasoning
      (Decider.decide Sample.storm_observation Sample.tied_reasoning)
      (fst (Actor.act 150
              (Decider.decide Sample.storm_observation Sample.tied_reasoning) Absent))
      (Document [storm_incident "id-0" 100]) in
  fst recorded = Ok "id-1" /\
  (exists entry, Memory.lookup "id-1" (snd recorded) = Ok (Some entry) /\
                 Incident.outcome entry = None) /\
  forall outcome1 now1,
    let first := Memory.update_outcome "id-1" outcome1 now1 (snd recorded) in
    (exists entry, Memory.lookup "id-1" (snd first) = Ok (Some entry) /\
                   Incident.outcome entry = Some (Memory.stamped now1 outcome1)) /\
    attachment_time "id-1" (snd first) =
      Some (default (JNum now1) (outcome1 !! "timestamp")) /\
    forall outcome2 now2,
      let second := Memory.update_outcome "id-1" outcome2 now2 (snd first) in
      (exists entry, Memory.lookup "id-1" (snd second) = Ok (Some entry) /\
                     Incident.outcome entry = Some (Memory.stamped now2 outcome2)) /\
      attachment_time "id-1" (snd second) =
        Some (default (JNum now2) (outcome2 !! "timestamp")).
Proof.
  assert (forall entry, entry ∈ [storm_incident "id-0" 100] ->
                        Incident.incident_id entry <> "id-1") as Hfresh.
  { intros entry Hin. apply list_elem_of_singleton in Hin. subst entry. discriminate. }
  split; [exact Hfresh|].
  apply (record_then_update_outcome "id-1" 150 Sample.storm_observation
           Sample.tied_reasoning
           (Decider.decide Sample.storm_observation Sample.tied_reasoning)
           (fst (Actor.act 150
                   (Decider.decide Sample.storm_observation Sample.tied_reasoning) Absent))
           [storm_incident "id-0" 100]).
  exact Hfresh.
Defined.

Lemma float_neq (a b : float) :
  (a =? b)%float = false -> (b =? b)%float = true -> a <> b.
Proof. intros Hab Hbb ->. congruence. Qed.

(** C8, the claim as stated fails: after an incident is recorded at time
    100 and its outcome attached at time 200, a second [update_outcome] on
    the same id at time 300 moves the attachment time to 300. *)
Lemma second_update_moves_attachment_time :
  let recorded :=
    snd (Memory.record_incident "id-1" 100 Sample.storm_observation Sample.tied_reasoning
           (Decider.decide Sample.storm_observation Sample.tied_reasoning)
           (fst (Actor.act 100
                   (Decider.decide Sample.storm_observation Sample.tied_reasoning) Absent))
           (Document [])) in
  let first := snd (Memory.update_outcome "id-1" resolved 200 recorded) in
  let second := snd (Memory.update_outcome "id-1" resolved 300 first) in
  attachment_time "id-1" recorded = None /\
  attachment_time "id-1" first = Some (JNum 200) /\
  attachment_time "id-1" second = Some (JNum 300) /\
  attachment_time "id-1" second <> attachment_time "id-1" first.
Proof.
  cbv zeta.
  assert (attachment_time "id-1"
            (snd (Memory.update_outcome "id-1" resolved 200
               (snd (Memory.record_incident "id-1" 100 Sample.storm_observation
                  Sample.tied_reasoning
                  (Decider.decide Sample.storm_observation Sample.tied_reasoning)
                  (fst (Actor.act 100
                     (Decider.decide Sample.storm_observation Sample.tied_reasoning) Absent))
                  (Document []))))) = Some (JNum 200)) as H1.
  { vm_compute. reflexivity. }
  assert (attachment_time "id-1"
            (snd (Memory.update_outcome "id-1" resolved 300
               (snd (Memory.update_outcome "id-1" resolved 200
                  (snd (Memory.record_incident "id-1" 100 Sample.storm_observation
                     Sample.tied_reasoning
                     (Decider.decide Sample.storm_observation Sample.tied_reasoning)
                     (fst (Actor.act 100
                        (Decider.decide Sample.storm_observation Sample.tied_reasoning)
                        Absent))
                     (Document []))))))) = Some (JNum 300)) as H2.
  { vm_compute. reflexivity. }
  split; [vm_compute; reflexivity|]. split; [exact H1|]. split; [exact H2|].
  rewrite H1, H2. intros H.
  assert (JNum 300 = JNum 200) as H' by congruence.
  assert (300%float = 200%float) as H''.
  { exact (f_equal (fun v => match v with JNum x => x | _ => 0%float end) H'). }
  revert H''. apply float_neq; vm_compute; reflexivity.
Qed.

(** What [update_outcome] changes in a collection: nothing when no
    incident has the id, and otherwise the outcome of the first incident
    with the id, every incident staying in its place. *)
Inductive attached (incident_id : string) (value : gmap string json)
  : list Incident.t -> list Incident.t -> Prop :=
| attached_nowhere memory :
    (forall entry, entry ∈ memory -> Incident.incident_id entry <> incident_id) ->
    attached incident_id value memory memory
| attached_at before entry after :
    (forall e, e ∈ before -> Incident.incident_id e <> incident_id) ->
    Incident.incident_id entry = incident_id ->
    attached incident_id value
      (before ++ entry :: after)
      (before ++ Memory.set_outcome entry value :: after).

Lemma attach_attached (incident_id : string) (value : gmap string json)
    (memory : list Incident.t) :
  attached incident_id value memory (Memory.attach incident_id value memory).
Proof.
  induction memory as [|entry memory IH]; simpl.
  - constructor. intros e He. by apply elem_of_nil in He.
  - case_bool_decide as Hid.
    + apply (attached_at incident_id value [] entry memory); [|exact Hid].
      intros e He. by apply elem_of_nil in He.
    + remember (Memory.attach incident_id value memory) as memory' eqn:E.
      clear E. destruct IH as [m Hnone | before e after Hbefore He].
      * apply attached_nowhere.
        intros e [->|He]%elem_of_cons; [exact Hid | by apply Hnone].
      * apply (attached_at incident_id value (entry :: before) e after); [|exact He].
        intros e' [->|He']%elem_of_cons; [exact Hid | by apply Hbefore].
Qed.

(** The views of a reader of the path, one per state of the file. *)
Definition reader_views (steps : result (list (write_step (list Incident.t))))
    (MEMORY_FILE : Memory.store) : list (result (list Incident.t)) :=
  match steps with
  | Ok steps => map Memory._load (states_during steps MEMORY_FILE)
  | Raise _ => []
  end.

(** C9, the claim as stated fails: while [record_incident] rewrites a
    memory file that holds one incident, the file is first truncated and
    then filled through the buffer of the file object; a reader that loads
    it after the truncation, or after a flush that is not the last, finds
    no collection at all, and a call interrupted there leaves the stored
    incident lost. *)
Lemma reader_finds_truncated_memory_file :
  let stored := storm_incident "id-0" 100 in
  let added := storm_incident "id-1" 200 in
  let steps :=
    Memory.record_incident_steps "id-1" 200 (Incident.observation added)
      (Incident.reasoning added) (Incident.decision added) (Incident.action added)
      (Document [stored]) in
  (exists truncated partial,
     reader_views steps (Document [stored]) =
       [Ok [stored]; Raise truncated; Raise partial; Ok [stored; added]]) /\
  forall interrupted_after, interrupted_after = 1 \/ interrupted_after = 2 ->
    exists e,
      match steps with
      | Ok steps => Memory._load (run (take interrupted_after steps) (Document [stored]))
      | Raise e => Raise e
      end = Raise e.
Proof.
  cbv zeta. split.
  - eexists _, _. vm_compute. reflexivity.
  - intros k [->| ->]; eexists; vm_compute; reflexivity.
Qed.

(** A state of the file that a reader can find while a collection is
    rewritten: the collection stored before, text that is not a JSON
    document, or the new collection. *)
Definition reader_finds (old new : list Incident.t) (f : Memory.store) : Prop :=
  f = Document old \/ f = Unparsable \/ f = Document new.

(** C9 (as the code has it). Each mutating operation of the Memory
    rewrites the whole collection in place: it truncates the file and then
    writes the new document through the buffer of the file object.  A
    reader finds the old collection, a file that is not a JSON document
    (empty after the truncation, or holding a first part of the new
    collection), or the new collection; the states in which the file does
    not parse are passed through by every call, and an interruption in one
    of them leaves the file so.  Once the operation has run to its end the
    file holds the whole collection and no stored incident is lost, deleted
    or moved: [record_incident] adds the new incident after the stored
    ones, and [update_outcome] changes at most the outcome of the first
    incident with the given id. *)
Theorem mutations_rewrite_whole_collection (memory : list Incident.t)
    (uuid4 : string) (now : float) (observation : Observation.t)
    (reasoning : Reasoning.t) (decision : DecisionOutput.t) (action : StateUpdate.t)
    (incident_id : string) (outcome : gmap string json) :
  let incident := Memory.new_incident uuid4 now observation reasoning decision action in
  (exists steps,
     Memory.record_incident_steps uuid4 now observation reasoning decision action
       (Document memory) = Ok steps /\
     states_during steps (Document memory) =
       [Document memory; Unparsable; Unparsable; Document (memory ++ [incident])] /\
     (forall f, f ∈ states_during steps (Document memory) ->
                reader_finds memory (memory ++ [incident]) f) /\
     (forall k, 0 < k < length steps ->
                run (take k steps) (Document memory) = Unparsable) /\
     snd (Memory.record_incident uuid4 now observation reasoning decision action
            (Document memory)) = Document (memory ++ [incident])) /\
  (exists steps memory',
     Memory.update_outcome_steps incident_id outcome now (Document memory) = Ok steps /\
     states_during steps (Document memory) =
       [Document memory; Unparsable; Unparsable; Document memory'] /\
     (forall f, f ∈ states_during steps (Document memory) ->
                reader_finds memory memory' f) /\
     (forall k, 0 < k < length steps ->
                run (take k steps) (Document memory) = Unparsable) /\
     snd (Memory.update_outcome incident_id outcome now (Document memory)) =
       Document memory' /\
     attached incident_id (Memory.stamped now outcome) memory memory').
Proof.
  assert (forall old new : list Incident.t,
             (forall f, f ∈ states_during (Memory._save new) (Document old) ->
                        reader_finds old new f) /\
             (forall k, 0 < k < length (Memory._save new) ->
                        run (take k (Memory._save new)) (Document old) = Unparsable))
    as Hsave.
  { intros old new. split.
    - intros f Hf. cbn in Hf. unfold reader_finds.
      repeat (apply elem_of_cons in Hf as [->|Hf]; [tauto|]).
      by apply elem_of_nil in Hf.
    - intros k Hk. cbn [Memory._save length] in Hk.
      assert (k = 1 \/ k = 2) as [->| ->] by lia; reflexivity. }
  cbv zeta. split.
  - eexists. split; [reflexivity|]. split; [reflexivity|].
    split; [apply Hsave|]. split; [apply Hsave | reflexivity].
  - eexists. exists (Memory.attach incident_id (Memory.stamped now outcome) memory).
    split; [reflexivity|]. split; [reflexivity|].
    split; [apply Hsave|]. split; [apply Hsave|]. split; [reflexivity|].
    apply attach_attached.
Qed.

(** [selects P l r]: [r] keeps, once each and in order, the items of [l]
    that satisfy [P], and nothing else. *)
Inductive selects {A : Type} (P : A -> Prop) : list A -> list A -> Prop :=
| selects_nil : selects P [] []
| selects_keep x l r : P x -> selects P l r -> selects P (x :: l) (x :: r)
| selects_skip x l r : ~ P x -> selects P l r -> selects P (x :: l) r.



(** A hypothesis passes the cause filter when no cause is given ([None] or
    the empty string) or its cause is the given one; it meets the floor
    when its confidence (0 when absent) is not below [min_confidence]. *)
Definition passes_cause_filter (cause : option string) (h : Hyp.t) : Prop :=
  match cause with
  | Some c => c = "" \/ Hyp.cause h = Some (JStr c)
  | None => True
  end.

Definition meets_floor (min_confidence : float) (h : Hyp.t) : Prop :=
  (default 0%float (Hyp.confidence h) <? min_confidence)%float = false.

Definition matching (cause : option string) (min_confidence : float)
    (entry : Incident.t) : Prop :=
  exists h, h ∈ Reasoning.hypotheses (Incident.reasoning entry) /\
            passes_cause_filter cause h /\ meets_floor min_confidence h.

(** On numbers, meeting the floor is being at least the floor. *)
Lemma meets_floor_leb (min_confidence : float) (h : Hyp.t) :
  FloatOrder.not_nan min_confidence ->
  FloatOrder.not_nan (default 0%float (Hyp.confidence h)) ->
  meets_floor min_confidence h <->
  (min_confidence <=? default 0%float (Hyp.confidence h))%float = true.
Proof.
  intros Hm Hc. unfold meets_floor. split.
  - by apply FloatOrder.ltb_false_leb.
  - apply FloatOrder.leb_ltb_false.
Qed.

Lemma cause_test (cause : option string) (h : Hyp.t) :
  Memory.cause_given cause && Memory.cause_differs h cause = false <->
  passes_cause_filter cause h.
Proof.
  unfold Memory.cause_given, Memory.cause_differs, passes_cause_filter.
  destruct cause as [c|]; [|split; [constructor | reflexivity]].
  case_bool_decide as Hc; simpl.
  { split; [intros _; left; exact Hc | reflexivity]. }
  destruct (Hyp.cause h) as [v|].
  - rewrite negb_false_iff, json_is_str_true. split.
    + intros ->. right. reflexivity.
    + intros [?|[= ->]]; [contradiction | reflexivity].
  - split; [discriminate | intros [?|[=]]; contradiction].
Qed.

Lemma reaches_append_spec (cause : option string) (min_confidence : float)
    (hypotheses : list Hyp.t) :
  Memory.reaches_append cause min_confidence hypotheses = true <->
  exists h, h ∈ hypotheses /\ passes_cause_filter cause h /\ meets_floor min_confidence h.
Proof.
  induction hypotheses as [|h rest IH]; simpl.
  - split; [discriminate | intros (h & Hh & _); by apply elem_of_nil in Hh].
  - destruct (Memory.cause_given cause && Memory.cause_differs h cause) eqn:Ec.
    + rewrite IH. split.
      * intros (h' & Hin & Hq). exists h'. split; [by right | exact Hq].
      * intros (h' & [->|Hin]%elem_of_cons & Hq & Hf).
        -- apply cause_test in Hq. congruence.
        -- exists h'. repeat split; assumption.
    + apply cause_test in Ec.
      destruct (default 0%float (Hyp.confidence h) <? min_confidence)%float eqn:Ef.
      * rewrite IH. split.
        -- intros (h' & Hin & Hq). exists h'. split; [by right | exact Hq].
        -- intros (h' & [->|Hin]%elem_of_cons & Hq & Hf).
           ++ unfold meets_floor in Hf. congruence.
           ++ exists h'. repeat split; assumption.
      * split; [|reflexivity]. intros _. exists h. split; [left|]. split; assumption.
Qed.

Lemma query_loop (cause : option string) (min_confidence : float)
    (memory results : list Incident.t) :
  exists found,
    fold_left
      (fun results entry =>
         let hypotheses := Reasoning.hypotheses (Incident.reasoning entry) in
         if Memory.reaches_append cause min_confidence hypotheses
         then results ++ [entry]
         else results)
      memory results = results ++ found /\
    selects (matching cause min_confidence) memory found.
Proof.
  revert results. set (step := fun (results : list Incident.t) (entry : Incident.t) => _).
  induction memory as [|entry memory IH]; intros results.
  - exists []. simpl. rewrite app_nil_r. split; [reflexivity | constructor].
  - cbn [fold_left].
    assert (step results entry =
            if Memory.reaches_append cause min_confidence
                 (Reasoning.hypotheses (Incident.reasoning entry))
            then results ++ [entry] else results) as -> by reflexivity.
    destruct (Memory.reaches_append cause min_confidence
                (Reasoning.hypotheses (Incident.reasoning entry))) eqn:E.
    + destruct (IH (results ++ [entry])) as (found & Heq & Hsel).
      exists (entry :: found). rewrite Heq, <- app_assoc. split; [reflexivity|].
      constructor; [|exact Hsel]. by apply reaches_append_spec.
    + destruct (IH results) as (found & Heq & Hsel).
      exists found. split; [exact Heq|].
      apply selects_skip; [|exact Hsel].
      intros Hm. apply reaches_append_spec in Hm. congruence.
Qed.


(** Two hypotheses of one incident qualify and the incident is returned
    once; with the cause of neither it is not returned. *)
Example query_similar_returns_incident_once :
  let stored := storm_incident "id-0" 100 in
  let twice :=
    {| Incident.incident_id := "id-1";
       Incident.timestamp := 200;
       Incident.observation := Incident.observation stored;
       Incident.reasoning := Sample.tied_reasoning;
       Incident.decision := Incident.decision stored;
       Incident.action := Incident.action stored;
       Incident.outcome := None |} in
  match Memory.query_similar None 0.5 (Document [stored; twice]) with
  | Ok results => map Incident.incident_id results
  | Raise _ => []
  end = ["id-0"; "id-1"] /\
  match Memory.query_similar (Some "webhook_auth_failure") 0.5 (Document [stored; twice]) with
  | Ok results => map Incident.incident_id results
  | Raise _ => ["error"]
  end = [].
Proof. cbv zeta. split; vm_compute; reflexivity. Qed.


(* ===================================================================== *)
(** ** The runner (src/run_agent.py)                                      *)
(* ===================================================================== *)

Module AgentRunner.

(** The records of the scenario batches. The [service] key of an error
    event, which no stage reads, is not represented. *)
Definition ticket (i : nat) : json := JObj [("id", JNum (float_of_nat i))].

Definition error_event (type : string) : ErrorEvent.t :=
  {| ErrorEvent.type := Some type |}.

Definition checkout (status : string) : Checkout.t :=
  {| Checkout.status := Some status |}.

Definition webhook (status : string) : json := JObj [("status", JStr status)].

Definition migration (stage : string) : MigrationState.t :=
  {| MigrationState.stage := Some stage |}.

Definition scenario_checkout_failure : RawSignals.t :=
  {| RawSignals.tickets := Some (map ticket (seq 0 25));
     RawSignals.errors := Some (replicate 10 (error_event "checkout_timeout"));
     RawSignals.checkouts := Some (replicate 8 (checkout "failed"));
     RawSignals.webhooks := Some [];
     RawSignals.migration_states := Some [migration "post-cutover"] |}.

Definition scenario_webhook_failure : RawSignals.t :=
  {| RawSignals.tickets := Some (map ticket (seq 0 15));
     RawSignals.errors := Some (replicate 6 (error_event "webhook_401"));
     RawSignals.checkouts := Some (replicate 20 (checkout "success"));
     RawSignals.webhooks := Some (replicate 6 (webhook "failed"));
     RawSignals.migration_states := Some [migration "post-cutover"] |}.

Definition scenario_frontend_mismatch : RawSignals.t :=
  {| RawSignals.tickets := Some (map ticket (seq 0 10));
     RawSignals.errors := Some (replicate 5 (error_event "frontend_state_mismatch"));
     RawSignals.checkouts := Some (replicate 15 (checkout "success"));
     RawSignals.webhooks := Some [];
     RawSignals.migration_states := Some [migration "stable"] |}.

Definition scenario_healthy_system : RawSignals.t :=
  {| RawSignals.tickets := Some [ticket 1; ticket 2];
     RawSignals.errors := Some [];
     RawSignals.checkouts := Some (replicate 30 (checkout "success"));
     RawSignals.webhooks := Some [];
     RawSignals.migration_states := Some [migration "stable"] |}.

Definition SCENARIOS : list RawSignals.t :=
  [ scenario_checkout_failure;
    scenario_webhook_failure;
    scenario_frontend_mismatch;
    scenario_healthy_system ].

(** What a runner works on: the counter of its observer and the two files
    of the working directory. *)
Record t := {
  observation_id : nat;
  STATE_FILE : file (list StateUpdate.t);
  MEMORY_FILE : Memory.store
}.

(** [__init__]: a new observer, and a memory that creates its file when it
    is absent. *)
Definition init (STATE_FILE : file (list StateUpdate.t)) (MEMORY_FILE : Memory.store) : t :=
  {| observation_id := 0;
     STATE_FILE := STATE_FILE;
     MEMORY_FILE := Memory.init MEMORY_FILE |}.

(** What one cycle draws from its environment: the three readings of
    [time.time()] (in [observe], [act] and [record_incident]) and the
    value of [uuid.uuid4()]. *)
Record draws := {
  observe_time : float;
  act_time : float;
  record_time : float;
  uuid4 : string
}.

Section Cycle.

(** The network, the builtins of the delegate path and the environment. *)
Variable http_post : string -> result json.
Variable py_strip : string -> string.
Variable json_loads : string -> result json.
Variable parse_float : string -> option float.
Variable py_str : json -> string.
Variable json_dumps : json -> string.
Variable _build_prompt : Observation.t -> string.
Variable USE_LLM : option string.

(** The reasoner of the runner: [Reasoner(OllamaClient())]. *)
Definition reasoner (observation : Observation.t) : result Reasoning.t :=
  Reasoner.reason parse_float py_str json_dumps _build_prompt
    (Some (OllamaClient.generate http_post py_strip json_loads))
    USE_LLM observation.

(** [run_once]: the incident id returned (or the error raised) and the
    runner's world after the call. *)
Definition run_once (self : t) (env : draws) (raw_signals : RawSignals.t)
  : result string * t :=
  let '(observation, counter) :=
    Observer.observe (observation_id self) (observe_time env) raw_signals in
  match reasoner observation with
  | Raise e =>
      (Raise e,
       {| observation_id := counter;
          STATE_FILE := STATE_FILE self;
          MEMORY_FILE := MEMORY_FILE self |})
  | Ok reasoning =>
      let decision := Decider.decide observation reasoning in
      let '(action, state_file) := Actor.act (act_time env) decision (STATE_FILE self) in
      let '(incident_id, memory_file) :=
        Memory.record_incident (uuid4 env) (record_time env)
          observation reasoning decision action (MEMORY_FILE self) in
      (incident_id,
       {| observation_id := counter;
          STATE_FILE := state_file;
          MEMORY_FILE := memory_file |})
  end.

End Cycle.
End AgentRunner.

(* ===================================================================== *)
(** ** Further properties of the Observer                                 *)
(* ===================================================================== *)

Lemma bump_total (k : string) (counts : list (string * nat)) :
  sum_list (bump k counts).*2 = S (sum_list counts.*2).
Proof.
  induction counts as [|[k' n] rest IH]; [reflexivity|].
  cbn [bump]. case_bool_decide; rewrite !fmap_cons; cbn [snd sum_list].
  - reflexivity.
  - rewrite IH. lia.
Qed.

(** The histogram that a counting loop builds from any list of items. *)
Lemma tally_invariant {A : Type} (key counted : A -> string) (items : list A)
    (counts : list (string * nat)) :
  (forall x, key x = counted x) ->
  NoDup counts.*1 ->
  (forall t c, (t, c) ∈ counts -> 0 < c) ->
  let h := fold_left (fun counts x => bump (key x) counts) items counts in
  NoDup h.*1 /\
  (forall t c, (t, c) ∈ h -> 0 < c) /\
  (forall t, count_get t h =
             count_get t counts + length (filter (fun x => counted x = t) items)) /\
  sum_list h.*2 = sum_list counts.*2 + length items.
Proof.
  intros Hkey.
  revert counts. induction items as [|x items IH]; intros counts Hnd Hpos; simpl.
  - repeat split; try assumption; intros; lia.
  - destruct (IH (bump (key x) counts)) as (H1 & H2 & H3 & H4).
    { by apply bump_NoDup. }
    { by apply bump_positive. }
    repeat split; try assumption.
    + intros t. rewrite H3, count_get_bump, Hkey, filter_cons.
      case_bool_decide; case_decide; simpl; try congruence; lia.
    + rewrite H4, bump_total. lia.
Qed.

(** The keys of a list in the order of their first appearance. *)
Fixpoint first_seen (keys : list string) : list string :=
  match keys with
  | [] => []
  | k :: rest => k :: filter (fun k' => k' <> k) (first_seen rest)
  end.

Lemma tally_keys {A : Type} (key counted : A -> string) (items : list A)
    (counts : list (string * nat)) :
  (forall x, key x = counted x) ->
  (fold_left (fun counts x => bump (key x) counts) items counts).*1 =
  counts.*1 ++ filter (fun k => k ∉ counts.*1) (first_seen (map counted items)).
Proof.
  intros Hkey.
  revert counts. induction items as [|x items IH]; intros counts; simpl.
  - by rewrite app_nil_r.
  - rewrite IH, bump_keys, <- Hkey, filter_cons. case_bool_decide as Hin.
    + rewrite decide_False by (intros Hn; by apply Hn).
      f_equal. rewrite list_filter_filter. apply list_filter_iff.
      intros k. split; [intros Hk; split; [exact Hk | intros ->; by apply Hk] | intros [Hk _]; exact Hk].
    + rewrite decide_True by exact Hin.
      rewrite <- app_assoc. f_equal. simpl. f_equal.
      rewrite list_filter_filter. apply list_filter_iff.
      intros k. rewrite elem_of_app, list_elem_of_singleton. tauto.
Qed.

Lemma filter_everything {A : Type} (P : A -> Prop) `{!forall x, Decision (P x)}
    (l : list A) :
  (forall x, P x) -> filter P l = l.
Proof.
  intros HP. induction l as [|x l IH]; [reflexivity|].
  rewrite filter_cons, decide_True by apply HP. by rewrite IH.
Qed.

Lemma tally_entries (count : string -> nat) (h : list (string * nat)) :
  (forall t c, (t, c) ∈ h -> c = count t) ->
  map (fun p => Observer.repeated_error p.1 p.2) (filter (fun p => 5 <= p.2) h) =
  map (fun t => Observer.repeated_error t (count t))
      (filter (fun t => 5 <= count t) h.*1).
Proof.
  induction h as [|[t c] h IH]; intros Hall; [reflexivity|].
  assert (c = count t) as -> by (apply Hall; left).
  rewrite fmap_cons, !filter_cons. cbn [fst snd].
  specialize (IH (fun t' c' H' => Hall t' c' (list_elem_of_further _ _ _ H'))).
  case_decide; cbn [map]; rewrite IH; reflexivity.
Qed.

(** X1. The statistics of an observation count what the batch holds:
    tickets, errors and failed checkouts; the error-type histogram gives
    for every type the number of errors that have that type (an error
    without a type has the type [unknown]), lists no type twice and sums to
    the error count; the migration-stage histogram does the same for the
    stages of the migration states (a state without a stage has the stage
    [unknown]). *)
Theorem compute_stats_counts (signals : Signals.t) :
  let stats := Observer._compute_stats signals in
  Stats.ticket_count stats = length (Signals.tickets signals) /\
  Stats.error_count stats = length (Signals.errors signals) /\
  Stats.failed_checkouts stats = failures (Signals.checkouts signals) /\
  (forall t, count_get t (Stats.error_types stats) = occurrences t (Signals.errors signals)) /\
  NoDup (Stats.error_types stats).*1 /\
  sum_list (Stats.error_types stats).*2 = Stats.error_count stats /\
  (forall t, count_get t (Stats.migration_stage_distribution stats) =
             length (filter (fun m => counted_stage m = t)
                            (Signals.migration_states signals))) /\
  NoDup (Stats.migration_stage_distribution stats).*1 /\
  sum_list (Stats.migration_stage_distribution stats).*2 =
    length (Signals.migration_states signals).
Proof.
  cbv zeta. unfold Observer._compute_stats.
  cbn [Stats.ticket_count Stats.error_count Stats.failed_checkouts Stats.error_types
       Stats.migration_stage_distribution].
  destruct (tally_invariant Observer.error_key counted_type (Signals.errors signals) [])
    as (E1 & _ & E3 & E4).
  { exact error_key_spec. }
  { constructor. }
  { intros t c H. by apply elem_of_nil in H. }
  destruct (tally_invariant Observer.stage_key counted_stage
              (Signals.migration_states signals) [])
    as (M1 & _ & M3 & M4).
  { exact stage_key_spec. }
  { constructor. }
  { intros t c H. by apply elem_of_nil in H. }
  split; [reflexivity|]. split; [reflexivity|].
  split; [by rewrite failed_checkouts_count|].
  split; [intros t; by rewrite E3|]. split; [exact E1|]. split; [exact E4|].
  split; [intros t; by rewrite M3|]. split; [exact M1 | exact M4].
Qed.

(** X2. The anomaly list of an observation is ordered: the checkout
    anomaly first (when some checkout failed), then one [repeated_error]
    per error type that at least 5 events of the error bucket have, in the
    order in which the types first appear in the bucket (an event without
    a type has the type [unknown]). *)
Theorem detect_anomalies_order (self : nat) (now : float) (raw_signals : RawSignals.t) :
  let failed := failures (default [] (RawSignals.checkouts raw_signals)) in
  let errors := default [] (RawSignals.errors raw_signals) in
  Observation.anomalies (fst (Observer.observe self now raw_signals)) =
  (if 0 <? failed
   then [ {| Anomaly.type := "checkout_failures"; Anomaly.error_type := None;
             Anomaly.count := failed; Anomaly.severity := "high" |} ]
   else []) ++
  map (fun t => {| Anomaly.type := "repeated_error"; Anomaly.error_type := Some t;
                   Anomaly.count := occurrences t errors;
                   Anomaly.severity := "medium" |})
      (filter (fun t => 5 <= occurrences t errors)
              (first_seen (map counted_type errors))).
Proof.
  intros failed errors.
  change (Observation.anomalies (fst (Observer.observe self now raw_signals)) =
          (if 0 <? failed then [Observer.checkout_failures failed] else []) ++
          map (fun t => Observer.repeated_error t (occurrences t errors))
              (filter (fun t => 5 <= occurrences t errors)
                      (first_seen (map counted_type errors)))).
  unfold Observer.observe. cbn [fst Observation.anomalies].
  unfold Observer._detect_anomalies, Observer._compute_stats.
  cbn [Stats.failed_checkouts Stats.error_types].
  unfold Observer._ingest_signals. cbn [Signals.checkouts Signals.errors].
  fold errors. rewrite failed_checkouts_count. cbn [Nat.add]. fold failed.
  rewrite repeated_errors_loop.
  destruct (tally_invariant Observer.error_key counted_type errors [])
    as (Hnd & Hpos & Hget & _).
  { exact error_key_spec. }
  { constructor. }
  { intros t c H. by apply elem_of_nil in H. }
  pose proof (tally_keys Observer.error_key counted_type errors [] error_key_spec)
    as Hkeys.
  set (h := fold_left _ errors []) in *.
  rewrite (tally_entries (fun t => occurrences t errors) h).
  - rewrite Hkeys. cbn [fmap list_fmap app].
    rewrite (filter_everything (fun k : string => k ∉ []));
      [destruct (0 <? failed); reflexivity|].
    intros k. apply not_elem_of_nil.
  - intros t c Hin. apply (elem_of_counts t c h Hnd Hpos) in Hin as [<- _].
    rewrite Hget. reflexivity.
Qed.

(** The observations of successive calls of [observe] on one instance,
    each batch with the clock reading of its call. *)
Fixpoint observe_all (self : nat) (calls : list (float * RawSignals.t))
  : list Observation.t * nat :=
  match calls with
  | [] => ([], self)
  | (now, raw_signals) :: rest =>
      let '(observation, self) := Observer.observe self now raw_signals in
      let '(observations, self) := observe_all self rest in
      (observation :: observations, self)
  end.

(** X3. The ids of the observations of one observer are consecutive: the
    calls made from counter [self] get the ids [self + 1], [self + 2], ...
    in order, so no id is used twice, and the counter ends at [self] plus
    the number of calls. *)
Theorem observation_ids_consecutive (self : nat) (calls : list (float * RawSignals.t)) :
  map Observation.observation_id (fst (observe_all self calls)) =
    seq (S self) (length calls) /\
  snd (observe_all self calls) = self + length calls /\
  NoDup (map Observation.observation_id (fst (observe_all self calls))).
Proof.
  assert (map Observation.observation_id (fst (observe_all self calls)) =
            seq (S self) (length calls) /\
          snd (observe_all self calls) = self + length calls) as [Hids Hend].
  { revert self. induction calls as [|[now raw] calls IH]; intros self.
    - simpl. split; [reflexivity | lia].
    - cbn [observe_all]. unfold Observer.observe. cbv zeta.
      destruct (IH (self + 1)) as [Hids Hend].
      destruct (observe_all (self + 1) calls) as [observations final].
      cbn [fst snd map Observation.observation_id length seq] in *.
      rewrite Hids, Hend. replace (self + 1) with (S self) by lia.
      split; [reflexivity | lia]. }
  split; [exact Hids|]. split; [exact Hend|]. rewrite Hids. apply NoDup_seq.
Qed.

(** The confidence estimate, by the count of the loop. *)
Lemma estimate_confidence_by_count (raw_signals : RawSignals.t) :
  let n := number_of_empty_buckets raw_signals in
  n <= 5 /\
  Observer._estimate_confidence (Observer._ingest_signals raw_signals) =
    py_max (1.0 - float_of_nat n * 0.1)%float 0.5%float.
Proof.
  unfold Observer._estimate_confidence, Observer.bucket_falsiness,
    Observer._ingest_signals, number_of_empty_buckets.
  simpl. rewrite !falsy_default.
  destruct (is_empty_bucket (RawSignals.tickets raw_signals)),
    (is_empty_bucket (RawSignals.errors raw_signals)),
    (is_empty_bucket (RawSignals.checkouts raw_signals)),
    (is_empty_bucket (RawSignals.webhooks raw_signals)),
    (is_empty_bucket (RawSignals.migration_states raw_signals));
    (split; [simpl; lia | vm_compute; reflexivity]).
Qed.

(** X4. An observation made by [observe] falls below the safety gate of
    the Decider (confidence under 0.6) exactly when all five buckets of the
    batch are absent or empty; with at most four empty buckets [decide]
    never blocks. *)
Theorem gate_blocks_only_blind_batches (self : nat) (now : float)
    (raw_signals : RawSignals.t) (reasoning : Reasoning.t) :
  let observation := fst (Observer.observe self now raw_signals) in
  ((Observation.confidence observation <? 0.6)%float = true <->
   number_of_empty_buckets raw_signals = 5) /\
  (Decider.decide observation reasoning =
     Decider._block "Low observation confidence" observation reasoning <->
   number_of_empty_buckets raw_signals = 5).
Proof.
  intros observation.
  destruct (estimate_confidence_by_count raw_signals) as [Hle Hc].
  assert ((Observation.confidence observation <? 0.6)%float = true <->
          number_of_empty_buckets raw_signals = 5) as Hgate.
  { unfold observation, Observer.observe. cbn [fst Observation.confidence].
    rewrite Hc. set (n := number_of_empty_buckets raw_signals) in *.
    destruct n as [|[|[|[|[|[|n]]]]]]; try lia;
      (split; [vm_compute; try discriminate; reflexivity
              | intros H; try discriminate H; try lia; vm_compute; reflexivity]). }
  split; [exact Hgate|]. rewrite <- Hgate.
  unfold Decider.decide. destruct (Observation.confidence observation <? 0.6)%float.
  - split; reflexivity.
  - split; [|discriminate]. intros H.
    apply (f_equal (fun out => map Decision.type (DecisionOutput.decisions out))) in H.
    cbn [Decider._block DecisionOutput.decisions map Decision.type] in H.
    cbv zeta in H. unfold Decider._finalize in H. cbn [DecisionOutput.decisions] in H.
    repeat match type of H with
           | context [if ?b then _ else _] => destruct b
           end; discriminate H.
Qed.

(* ===================================================================== *)
(** ** Further properties of the delegate client and the Reasoner         *)
(* ===================================================================== *)

(** X5. [generate] returns a value in exactly one situation: the request
    succeeds with an object whose [response] member (the empty string when
    the member is absent) is a string, that string is not blank once
    stripped, and it parses as a JSON object; the value is then that
    object. Every other reply is an exception. *)
Theorem generate_succeeds_iff http_post py_strip json_loads (prompt : string)
    (value : json) :
  OllamaClient.generate http_post py_strip json_loads prompt = Ok value <->
  exists members text root,
    http_post prompt = Ok (JObj members) /\
    default (JStr "") (obj_get "response" members) = JStr text /\
    py_strip text <> "" /\
    json_loads (py_strip text) = Ok (JObj root) /\
    value = JObj root.
Proof.
  unfold OllamaClient.generate, bind. split.
  - destruct (http_post prompt) as [[| | | |?|members]|]; try discriminate.
    destruct (default (JStr "") (obj_get "response" members))
      as [| | |text| |] eqn:Hget; try discriminate.
    case_bool_decide as Hblank; try discriminate.
    destruct (json_loads (py_strip text)) as [[| | | |?|root]|] eqn:Hparse;
      try discriminate.
    intros [= <-]. exists members, text, root. repeat split; assumption.
  - intros (members & text & root & -> & -> & Hblank & -> & ->).
    rewrite bool_decide_eq_false_2 by exact Hblank. reflexivity.
Qed.

(** A hypothesis with its three keys present. *)
Definition complete (h : Hyp.t) : Prop :=
  is_Some (Hyp.cause h) /\ is_Some (Hyp.explanation h) /\ is_Some (Hyp.confidence h).

Lemma hypothesis_complete cause explanation confidence :
  complete (Reasoner.hypothesis cause explanation confidence).
Proof. repeat split; eexists; reflexivity. Qed.

Lemma reason_deterministic_answers (observation : Observation.t) :
  exists reasoning,
    Reasoner._reason_deterministic observation = Ok reasoning /\
    Reasoning.reasoning_mode reasoning = "deterministic" /\
    Reasoning.hypotheses reasoning <> [] /\
    Forall complete (Reasoning.hypotheses reasoning).
Proof.
  unfold Reasoner._reason_deterministic.
  destruct (5 <=? Stats.failed_checkouts (Observation.stats observation));
    destruct (3 <=? count_get "webhook_401" _);
    destruct (3 <=? count_get "frontend_state_mismatch" _);
    destruct (10 <=? count_get "unknown" _);
    (eexists; split; [vm_compute; reflexivity|]);
    (split; [reflexivity|]); (split; [discriminate|]);
    repeat constructor; eexists; reflexivity.
Qed.

Lemma normalize_hypotheses_complete parse_float (confidence : float)
    (raw_hypotheses : list json) :
  forall hypotheses result,
    Forall complete hypotheses ->
    Reasoner.normalize_hypotheses parse_float confidence raw_hypotheses hypotheses
      = Ok result ->
    Forall complete result.
Proof.
  induction raw_hypotheses as [|item rest IH]; intros hypotheses result Hall; simpl.
  - intros [= <-]. exact Hall.
  - destruct item as [| | |s| |members]; try (by apply IH).
    + apply IH. apply Forall_app. split; [exact Hall|].
      repeat constructor; eexists; reflexivity.
    + unfold bind. destruct (Reasoner.py_float _ _) as [c|e]; [|discriminate].
      apply IH. apply Forall_app. split; [exact Hall|].
      repeat constructor; eexists; reflexivity.
Qed.

Lemma reason_with_llm_answers parse_float py_str json_dumps _build_prompt generate
    (observation : Observation.t) :
  let reasoning :=
    Reasoner._reason_with_llm parse_float py_str json_dumps _build_prompt
      generate observation in
  (Reasoning.reasoning_mode reasoning = "llm" \/
   Reasoning.reasoning_mode reasoning = "llm_failed") /\
  Reasoning.hypotheses reasoning <> [] /\
  Forall complete (Reasoning.hypotheses reasoning).
Proof.
  unfold Reasoner._reason_with_llm, try_except.
  destruct (Reasoner.llm_attempt _ _ _ _ _ _) as [r|e] eqn:E.
  - unfold Reasoner.llm_attempt, bind in E.
    destruct (generate _) as [[| | | |?|response]|]; try discriminate.
    destruct (match default (JArr []) (obj_get "hypotheses" response) with
              | JArr items => _ | _ => Ok [] end) as [hypotheses|] eqn:Hn;
      [|discriminate].
    assert (Forall complete hypotheses) as Hall.
    { destruct (default (JArr []) (obj_get "hypotheses" response));
        try (injection Hn as <-; constructor).
      eapply normalize_hypotheses_complete; [constructor | exact Hn]. }
    destruct (Reasoner.py_iter _) as [assumptions|]; [|discriminate].
    destruct (Reasoner.py_iter _) as [unknowns|]; [|discriminate].
    injection E as <-. cbn [Reasoning.reasoning_mode Reasoning.hypotheses].
    split; [left; reflexivity|].
    destruct hypotheses as [|h hs]; cbn [falsy app].
    + split; [discriminate|]. repeat constructor; eexists; reflexivity.
    + split; [discriminate | exact Hall].
  - split; [right; reflexivity|]. split; [discriminate|].
    repeat constructor; eexists; reflexivity.
Qed.

(** X6. [reason] answers for every observation, every delegate (however
    it replies or fails) and every setting of [USE_LLM]: it raises nothing
    and returns a reasoning of mode [deterministic], [llm] or [llm_failed]
    whose hypothesis list is not empty and whose hypotheses all carry a
    cause, an explanation and a confidence. *)
Theorem reason_always_answers parse_float py_str json_dumps _build_prompt
    (llm : option (string -> result json)) (USE_LLM : option string)
    (observation : Observation.t) :
  exists reasoning,
    Reasoner.reason parse_float py_str json_dumps _build_prompt llm USE_LLM
      observation = Ok reasoning /\
    Reasoning.reasoning_mode reasoning ∈ ["deterministic"; "llm"; "llm_failed"] /\
    Reasoning.hypotheses reasoning <> [] /\
    Forall complete (Reasoning.hypotheses reasoning).
Proof.
  assert (exists reasoning,
             Reasoner._reason_deterministic observation = Ok reasoning /\
             Reasoning.reasoning_mode reasoning ∈ ["deterministic"; "llm"; "llm_failed"] /\
             Reasoning.hypotheses reasoning <> [] /\
             Forall complete (Reasoning.hypotheses reasoning)) as Hdet.
  { destruct (reason_deterministic_answers observation) as (r & Hr & Hm & Hne & Hall).
    exists r. rewrite Hm. repeat split; try assumption. left. }
  unfold Reasoner.reason. cbv zeta.
  destruct llm as [generate|]; [|exact Hdet].
  destruct (bool_decide _ && Reasoner._should_use_llm observation); [|exact Hdet].
  eexists. split; [reflexivity|].
  destruct (reason_with_llm_answers parse_float py_str json_dumps _build_prompt
              generate observation) as ([Hm|Hm] & Hne & Hall);
    rewrite Hm; repeat split; try assumption.
  - right. left.
  - right. right. left.
Qed.

(** When the delegate is consulted: it is configured, [USE_LLM] is unset
    or spells [true] in any letter case, and the observation is unsure
    (confidence under 0.85) or shows at least two anomalies. *)
Definition consulted (llm : option (string -> result json)) (USE_LLM : option string)
    (observation : Observation.t) : Prop :=
  is_Some llm /\
  Reasoner.lower (default "true" USE_LLM) = "true" /\
  ((Observation.confidence observation <? 0.85)%float = true \/
   2 <= length (Observation.anomalies observation)).

(** X7. The mode of the reasoning tells whether the delegate was
    consulted: [reason] returns the deterministic reasoning, of mode
    [deterministic], unless a delegate is configured, [USE_LLM] is unset or
    spells [true] (in any letter case) and the observation has confidence
    under 0.85 or at least two anomalies; in that case the mode is [llm] or
    [llm_failed]. *)
Theorem reason_mode_tells_path parse_float py_str json_dumps _build_prompt
    (llm : option (string -> result json)) (USE_LLM : option string)
    (observation : Observation.t) :
  (~ consulted llm USE_LLM observation ->
   Reasoner.reason parse_float py_str json_dumps _build_prompt llm USE_LLM observation =
     Reasoner._reason_deterministic observation) /\
  match Reasoner.reason parse_float py_str json_dumps _build_prompt llm USE_LLM
          observation with
  | Ok reasoning =>
      Reasoning.reasoning_mode reasoning = "deterministic" <->
      ~ consulted llm USE_LLM observation
  | Raise _ => False
  end.
Proof.
  assert (Reasoner._should_use_llm observation = true <->
          (Observation.confidence observation <? 0.85)%float = true \/
          2 <= length (Observation.anomalies observation)) as Hneed.
  { unfold Reasoner._should_use_llm.
    destruct (Observation.confidence observation <? 0.85)%float; [tauto|].
    destruct (Nat.leb_spec 2 (length (Observation.anomalies observation))).
    - tauto.
    - split; [discriminate | intros [?|?]; [discriminate | lia]]. }
  destruct (reason_deterministic_answers observation) as (r & Hr & Hm & _).
  unfold consulted, Reasoner.reason. cbv zeta.
  destruct llm as [generate|].
  2:{ rewrite Hr, Hm. split; [reflexivity|].
      split; [intros _ [[? [=]] _] | reflexivity]. }
  case_bool_decide as Henv; cbn [andb].
  2:{ rewrite Hr, Hm. split; [reflexivity|].
      split; [intros _ (_ & ? & _); contradiction | reflexivity]. }
  destruct (Reasoner._should_use_llm observation).
  - pose proof (proj1 Hneed eq_refl) as Hs. split.
    + intros Hno. exfalso. apply Hno. repeat split; [by eexists | exact Henv | exact Hs].
    + destruct (reason_with_llm_modes parse_float py_str json_dumps _build_prompt
                  generate observation) as [Hmode|Hmode]; cbv zeta in Hmode;
        rewrite Hmode; (split; [discriminate|]);
        intros Hno; exfalso; apply Hno; repeat split;
          [by eexists | exact Henv | exact Hs | by eexists | exact Henv | exact Hs].
  - rewrite Hr, Hm. split; [reflexivity|].
    split; [|reflexivity]. intros _ (_ & _ & Hyes). apply Hneed in Hyes. discriminate.
Qed.

(** The entries of [raw_hypotheses] that the loop keeps, and the
    hypothesis each becomes under the overall confidence [confidence]. *)
Definition is_entry (item : json) : bool :=
  match item with
  | JObj _ => true
  | JStr _ => true
  | _ => false
  end.

Inductive normalized (parse_float : string -> option float) (confidence : float)
  : json -> Hyp.t -> Prop :=
| normalized_object members x :
    Reasoner.py_float parse_float
      (default (JNum confidence) (obj_get "confidence" members)) = Ok x ->
    normalized parse_float confidence (JObj members)
      {| Hyp.cause := Some (default (JStr "unknown") (obj_get "cause" members));
         Hyp.explanation := Some (default (JStr "") (obj_get "explanation" members));
         Hyp.confidence := Some x |}
| normalized_string s :
    normalized parse_float confidence (JStr s)
      {| Hyp.cause := Some (JStr s);
         Hyp.explanation := Some (JStr "");
         Hyp.confidence := Some confidence |}.

Lemma normalize_hypotheses_kept parse_float (confidence : float)
    (raw_hypotheses : list json) :
  forall hypotheses result,
    Reasoner.normalize_hypotheses parse_float confidence raw_hypotheses hypotheses
      = Ok result ->
    exists added,
      result = hypotheses ++ added /\
      Forall2 (normalized parse_float confidence)
              (filter (fun item => is_entry item = true) raw_hypotheses) added.
Proof.
  induction raw_hypotheses as [|item rest IH]; intros hypotheses result; simpl.
  - intros [= <-]. exists []. rewrite app_nil_r. split; [reflexivity | constructor].
  - rewrite filter_cons.
    destruct item as [| | |s| |members]; cbn [is_entry];
      try (rewrite decide_False by discriminate; by apply IH).
    + rewrite decide_True by reflexivity. intros H.
      apply IH in H as (added & -> & Hall). eexists. rewrite <- app_assoc.
      split; [reflexivity|]. constructor; [constructor | exact Hall].
    + rewrite decide_True by reflexivity. unfold bind.
      destruct (Reasoner.py_float _ _) as [x|e] eqn:Hx; [|discriminate]. intros H.
      apply IH in H as (added & -> & Hall). eexists. rewrite <- app_assoc.
      split; [reflexivity|]. constructor; [by constructor | exact Hall].
Qed.

Lemma normalize_hypotheses_raises parse_float (confidence : float)
    (raw_hypotheses : list json) (members : list (string * json)) (e : string) :
  JObj members ∈ raw_hypotheses ->
  Reasoner.py_float parse_float
    (default (JNum confidence) (obj_get "confidence" members)) = Raise e ->
  forall hypotheses, exists e',
    Reasoner.normalize_hypotheses parse_float confidence raw_hypotheses hypotheses
      = Raise e'.
Proof.
  intros Hin Hbad. induction raw_hypotheses as [|item rest IH]; intros hypotheses.
  - by apply elem_of_nil in Hin.
  - apply elem_of_cons in Hin as [<-|Hin].
    + simpl. rewrite Hbad. eexists. reflexivity.
    + specialize (IH Hin). simpl.
      destruct item as [| | |s| |members']; try apply IH.
      unfold bind.
      destruct (Reasoner.py_float parse_float
                  (default (JNum confidence) (obj_get "confidence" members')));
        [apply IH | eexists; reflexivity].
Qed.

(** X8. One hypothesis entry with a confidence that [float] cannot
    convert fails the whole delegate call: when the reply is an object
    whose [hypotheses] list holds an object entry with such a [confidence]
    member, [_reason_with_llm] returns the fallback of mode [llm_failed],
    whatever the other entries are. *)
Theorem unconvertible_confidence_fails_call parse_float py_str json_dumps _build_prompt
    (generate : string -> result json) (observation : Observation.t)
    (response : list (string * json)) (items : list json)
    (members : list (string * json)) (value : json) (e : string) :
  generate (_build_prompt observation) = Ok (JObj response) ->
  obj_get "hypotheses" response = Some (JArr items) ->
  JObj members ∈ items ->
  obj_get "confidence" members = Some value ->
  Reasoner.py_float parse_float value = Raise e ->
  let reasoning :=
    Reasoner._reason_with_llm parse_float py_str json_dumps _build_prompt
      generate observation in
  Reasoning.reasoning_mode reasoning = "llm_failed" /\
  map verdict (Reasoning.hypotheses reasoning) = [(Some (JStr "unknown"), Some 0.4%float)].
Proof.
  intros Hgen Hhyp Hin Hconf Hbad.
  unfold Reasoner._reason_with_llm, Reasoner.llm_attempt, bind.
  rewrite Hgen, Hhyp. cbn [default from_option id].
  set (confidence := from_option id 0.5%float _).
  destruct (normalize_hypotheses_raises parse_float confidence items members e Hin)
    with (hypotheses := @nil Hyp.t) as [e' He'].
  { rewrite Hconf. exact Hbad. }
  rewrite He'. split; reflexivity.
Qed.

(** A reply with a null confidence in its second entry. *)
Definition null_confidence_reply : list (string * json) :=
  [ ("hypotheses",
     JArr [ JObj [("cause", JStr "webhook_auth_failure"); ("confidence", JNum 0.9)];
            JObj [("cause", JStr "platform_regression"); ("confidence", JNull)] ]);
    ("confidence", JNum 0.9) ].

Lemma unconvertible_confidence_fails_call_witness :
  let generate := fun _ : string => Ok (JObj null_confidence_reply) in
  generate "prompt" = Ok (JObj null_confidence_reply) /\
  obj_get "hypotheses" null_confidence_reply =
    Some (JArr [ JObj [("cause", JStr "webhook_auth_failure"); ("confidence", JNum 0.9)];
                 JObj [("cause", JStr "platform_regression"); ("confidence", JNull)] ]) /\
  Reasoning.reasoning_mode
    (Reasoner._reason_with_llm (fun _ => None) (fun _ => "") (fun _ => "")
       (fun _ => "prompt") generate Sample.storm_observation) = "llm_failed" /\
  map verdict
    (Reasoning.hypotheses
       (Reasoner._reason_with_llm (fun _ => None) (fun _ => "") (fun _ => "")
          (fun _ => "prompt") generate Sample.storm_observation)) =
    [(Some (JStr "unknown"), Some 0.4%float)].
Proof.
  cbv zeta. split; [reflexivity|]. split; [reflexivity|].
  apply (unconvertible_confidence_fails_call (fun _ => None) (fun _ => "") (fun _ => "")
           (fun _ => "prompt") (fun _ => Ok (JObj null_confidence_reply))
           Sample.storm_observation null_confidence_reply
           [ JObj [("cause", JStr "webhook_auth_failure"); ("confidence", JNum 0.9)];
             JObj [("cause", JStr "platform_regression"); ("confidence", JNull)] ]
           [("cause", JStr "platform_regression"); ("confidence", JNull)]
           JNull "float() argument must be a string or a real number").
  - reflexivity.
  - reflexivity.
  - right. left.
  - reflexivity.
  - reflexivity.
Defined.

(** The entries the reply offers as hypotheses, and its overall
    confidence as the Reasoner reads it. *)
Definition offered (response : list (string * json)) : list json :=
  match obj_get "hypotheses" response with
  | Some (JArr items) => items
  | _ => []
  end.

Definition stated_confidence (response : list (string * json)) : float :=
  match obj_get "confidence" response with
  | Some (JNum x) => x
  | Some (JBool b) => if b then 1%float else 0%float
  | _ => 0.5%float
  end.

(** X9. When the delegate call succeeds (mode [llm]), the overall
    confidence is the number the reply states, and 0.5 when it states none;
    the hypotheses are, in order, the object and string entries of the
    reply's [hypotheses] list, normalised (a string entry becomes a cause
    with the overall confidence), every other entry being dropped; and when
    no entry is kept, or [hypotheses] is absent or not a list, the single
    placeholder [unknown] of confidence 0.4 stands in. *)
Theorem llm_reasoning_keeps_entries parse_float py_str json_dumps _build_prompt
    (generate : string -> result json) (observation : Observation.t)
    (response : list (string * json)) :
  let reasoning :=
    Reasoner._reason_with_llm parse_float py_str json_dumps _build_prompt
      generate observation in
  let kept := filter (fun item => is_entry item = true) (offered response) in
  generate (_build_prompt observation) = Ok (JObj response) ->
  Reasoning.reasoning_mode reasoning = "llm" ->
  Reasoning.confidence reasoning = stated_confidence response /\
  (kept = [] ->
   map verdict (Reasoning.hypotheses reasoning) =
     [(Some (JStr "unknown"), Some 0.4%float)]) /\
  (kept <> [] ->
   Forall2 (normalized parse_float (stated_confidence response)) kept
           (Reasoning.hypotheses reasoning)).
Proof.
  intros reasoning kept Hgen Hmode. subst reasoning kept.
  unfold Reasoner._reason_with_llm, Reasoner.llm_attempt, bind in *.
  rewrite Hgen in *.
  assert (default 0.5%float
            (Reasoner.as_number (default (JNum 0.5) (obj_get "confidence" response))) =
          stated_confidence response) as Hc.
  { unfold stated_confidence.
    destruct (obj_get "confidence" response) as [[]|]; reflexivity. }
  rewrite Hc in *.
  assert (exists hypotheses,
             match default (JArr []) (obj_get "hypotheses" response) with
             | JArr items =>
                 Reasoner.normalize_hypotheses parse_float (stated_confidence response)
                   items []
             | _ => Ok []
             end = Ok hypotheses /\
             Forall2 (normalized parse_float (stated_confidence response))
                     (filter (fun item => is_entry item = true) (offered response))
                     hypotheses) as (hypotheses & Hn & Hkept).
  { unfold offered.
    destruct (obj_get "hypotheses" response) as [[| | | |items|]|] eqn:Hh;
      cbn [default from_option id];
      try (exists []; split; [reflexivity | constructor]).
    cbn [default from_option id] in Hmode.
    destruct (Reasoner.normalize_hypotheses _ _ items []) as [hs|e] eqn:Hn.
    - exists hs. split; [reflexivity|].
      apply normalize_hypotheses_kept in Hn as (added & -> & Hall). exact Hall.
    - exfalso. discriminate Hmode. }
  rewrite Hn in *.
  destruct (Reasoner.py_iter _) as [assumptions|]; [|discriminate Hmode].
  destruct (Reasoner.py_iter _) as [unknowns|]; [|discriminate Hmode].
  cbn [try_except Reasoning.confidence Reasoning.hypotheses].
  split; [reflexivity|]. split.
  - intros Hnone. rewrite Hnone in Hkept. inversion Hkept. reflexivity.
  - intros Hsome. destruct hypotheses as [|h hs]; [|exact Hkept].
    inversion Hkept as [Hnil|]. congruence.
Qed.

(** A reply that mixes a number, a string and an object entry. *)
Definition mixed_reply : list (string * json) :=
  [ ("hypotheses",
     JArr [ JNum 3;
            JStr "disk_full";
            JObj [("cause", JStr "webhook_auth_failure"); ("confidence", JNum 0.7)] ]);
    ("assumptions", JArr [JStr "logs are complete"]);
    ("confidence", JNum 0.6) ].

Lemma llm_reasoning_keeps_entries_witness :
  let generate := fun _ : string => Ok (JObj mixed_reply) in
  let reasoning :=
    Reasoner._reason_with_llm (fun _ => None) (fun _ => "") (fun _ => "")
      (fun _ => "prompt") generate Sample.storm_observation in
  let kept := filter (fun item => is_entry item = true) (offered mixed_reply) in
  Reasoning.reasoning_mode reasoning = "llm" /\
  Reasoning.confidence reasoning = stated_confidence mixed_reply /\
  (kept = [] ->
   map verdict (Reasoning.hypotheses reasoning) =
     [(Some (JStr "unknown"), Some 0.4%float)]) /\
  (kept <> [] ->
   Forall2 (normalized (fun _ => None) (stated_confidence mixed_reply)) kept
           (Reasoning.hypotheses reasoning)).
Proof.
  cbv zeta. split; [vm_compute; reflexivity|].
  apply (llm_reasoning_keeps_entries (fun _ => None) (fun _ => "") (fun _ => "")
           (fun _ => "prompt") (fun _ => Ok (JObj mixed_reply))
           Sample.storm_observation mixed_reply).
  - reflexivity.
  - vm_compute; reflexivity.
Defined.

(** X10. For an observation made by [observe], the Reasoner wants the
    delegate exactly when at least two of the five buckets are absent or
    empty or the observation lists at least two anomalies. *)
Theorem delegate_wanted_iff (self : nat) (now : float) (raw_signals : RawSignals.t) :
  let observation := fst (Observer.observe self now raw_signals) in
  Reasoner._should_use_llm observation = true <->
  2 <= number_of_empty_buckets raw_signals \/
  2 <= length (Observation.anomalies observation).
Proof.
  intros observation.
  destruct (estimate_confidence_by_count raw_signals) as [Hle Hc].
  assert ((Observation.confidence observation <? 0.85)%float = true <->
          2 <= number_of_empty_buckets raw_signals) as Hlow.
  { unfold observation, Observer.observe. cbn [fst Observation.confidence].
    rewrite Hc. set (n := number_of_empty_buckets raw_signals) in *.
    destruct n as [|[|[|[|[|[|n]]]]]]; try lia;
      (split; [vm_compute; try discriminate; intros _; lia
              | intros H; try lia; vm_compute; reflexivity]). }
  unfold Reasoner._should_use_llm. rewrite <- Hlow.
  destruct (Observation.confidence observation <? 0.85)%float; [tauto|].
  destruct (Nat.leb_spec 2 (length (Observation.anomalies observation))).
  - tauto.
  - split; [discriminate | intros [?|?]; [discriminate | lia]].
Qed.

(** X11. Past the safety gate, the decisions taken on the deterministic
    reasoning follow the first threshold rule that fires, in rule order:
    failed checkouts or webhook failures give [support_guidance] (risk
    low), else a frontend mismatch gives the documentation suggestion and
    monitoring (risk medium), else unknown errors give the engineering
    escalation (risk high), else monitoring (risk low). An escalation is
    thus taken only when no earlier rule fires. *)
Theorem deterministic_decisions_by_priority (observation : Observation.t) :
  (Observation.confidence observation <? 0.6)%float = false ->
  exists reasoning,
    Reasoner._reason_deterministic observation = Ok reasoning /\
    let stats := Observation.stats observation in
    let out := Decider.decide observation reasoning in
    (map row (DecisionOutput.decisions out), DecisionOutput.risk_level out) =
    if 5 <=? Stats.failed_checkouts stats
    then ([("support_guidance", None, false)], "low")
    else if 3 <=? count_get "webhook_401" (Stats.error_types stats)
    then ([("support_guidance", None, false)], "low")
    else if 3 <=? count_get "frontend_state_mismatch" (Stats.error_types stats)
    then ([("documentation_update_suggestion", None, true);
           ("monitor_only", None, false)], "medium")
    else if 10 <=? count_get "unknown" (Stats.error_types stats)
    then ([("escalate_engineering", Some "high", false)], "high")
    else ([("monitor_only", None, false)], "low").
Proof.
  intros Hgate. unfold Reasoner._reason_deterministic. cbv zeta.
  destruct (5 <=? Stats.failed_checkouts (Observation.stats observation));
    destruct (3 <=? count_get "webhook_401" _);
    destruct (3 <=? count_get "frontend_state_mismatch" _);
    destruct (10 <=? count_get "unknown" _);
    (eexists; split; [vm_compute; reflexivity|]);
    unfold Decider.decide; rewrite Hgate; vm_compute; reflexivity.
Qed.

Lemma deterministic_decisions_by_priority_witness :
  (Observation.confidence Sample.storm_observation <? 0.6)%float = false /\
  exists reasoning,
    Reasoner._reason_deterministic Sample.storm_observation = Ok reasoning /\
    let stats := Observation.stats Sample.storm_observation in
    let out := Decider.decide Sample.storm_observation reasoning in
    (map row (DecisionOutput.decisions out), DecisionOutput.risk_level out) =
    if 5 <=? Stats.failed_checkouts stats
    then ([("support_guidance", None, false)], "low")
    else if 3 <=? count_get "webhook_401" (Stats.error_types stats)
    then ([("support_guidance", None, false)], "low")
    else if 3 <=? count_get "frontend_state_mismatch" (Stats.error_types stats)
    then ([("documentation_update_suggestion", None, true);
           ("monitor_only", None, false)], "medium")
    else if 10 <=? count_get "unknown" (Stats.error_types stats)
    then ([("escalate_engineering", Some "high", false)], "high")
    else ([("monitor_only", None, false)], "low").
Proof.
  split; [vm_compute; reflexivity|].
  apply (deterministic_decisions_by_priority Sample.storm_observation).
  vm_compute; reflexivity.
Defined.

(* ===================================================================== *)
(** ** Further properties of the Decider and the Actor                    *)
(* ===================================================================== *)

Definition decision_types : list string :=
  [ "monitor_only"; "support_guidance"; "escalate_engineering";
    "documentation_update_suggestion"; "block_auto_actions" ].

(** The decision lists that [decide] can return, by their rows. *)
Definition decision_sets : list (list (string * option string * bool)) :=
  [ [("block_auto_actions", None, true)];
    [("escalate_engineering", Some "high", false)];
    [("support_guidance", None, false)];
    [("documentation_update_suggestion", None, true); ("monitor_only", None, false)];
    [("monitor_only", None, false)] ].

Ltac pick_member :=
  repeat first [ apply list_elem_of_here | apply list_elem_of_further ].

Lemma decide_rows (observation : Observation.t) (reasoning : Reasoning.t) :
  let out := Decider.decide observation reasoning in
  map row (DecisionOutput.decisions out) ∈ decision_sets /\
  (map row (DecisionOutput.decisions out) = [("block_auto_actions", None, true)] <->
   (Observation.confidence observation <? 0.6)%float = true) /\
  DecisionOutput.risk_level out =
    (if (Observation.confidence observation <? 0.6)%float then "high"
     else Decider._assess_risk (DecisionOutput.decisions out)) /\
  DecisionOutput.observation_id out = Observation.observation_id observation /\
  DecisionOutput.trace out =
    {| Trace.observation_confidence := Observation.confidence observation;
       Trace.reasoning_confidence := Reasoning.confidence reasoning |}.
Proof.
  unfold Decider.decide. cbv zeta.
  destruct (Observation.confidence observation <? 0.6)%float.
  - repeat split; try reflexivity. unfold decision_sets. simpl. pick_member.
  - repeat match goal with
           | |- context [if json_is_str ?c ?s then _ else _] =>
               destruct (json_is_str c s)
           end;
      (split; [unfold decision_sets; simpl; pick_member|]);
      (split; [split; [intros H; discriminate H | intros H; discriminate H]|]);
      repeat split; reflexivity.
Qed.

(** X12. Whatever the observation and the reasoning, [decide] returns one
    or two decisions, each of one of the five decision types; a decision
    requires human approval exactly when it is a documentation suggestion
    or the block; the block is returned exactly when the observation's
    confidence is under 0.6; the risk level is [low], [medium] or [high];
    and the observation id and both confidences are copied to the output
    unchanged. *)
Theorem decide_output_well_formed (observation : Observation.t) (reasoning : Reasoning.t) :
  let out := Decider.decide observation reasoning in
  1 <= length (DecisionOutput.decisions out) <= 2 /\
  (forall d, d ∈ DecisionOutput.decisions out ->
     Decision.type d ∈ decision_types /\
     (Decision.requires_human_approval d = true <->
      Decision.type d ∈ ["documentation_update_suggestion"; "block_auto_actions"])) /\
  ((exists d, d ∈ DecisionOutput.decisions out /\ Decision.type d = "block_auto_actions") <->
   (Observation.confidence observation <? 0.6)%float = true) /\
  DecisionOutput.risk_level out ∈ ["low"; "medium"; "high"] /\
  DecisionOutput.observation_id out = Observation.observation_id observation /\
  Trace.observation_confidence (DecisionOutput.trace out) =
    Observation.confidence observation /\
  Trace.reasoning_confidence (DecisionOutput.trace out) =
    Reasoning.confidence reasoning.
Proof.
  intros out.
  destruct (decide_rows observation reasoning) as (Hrows & Hblock & Hrisk & Hid & Htrace).
  fold out in Hrows, Hblock, Hrisk, Hid, Htrace.
  assert (forall d, d ∈ DecisionOutput.decisions out -> row d ∈ map row (DecisionOutput.decisions out))
    as Hrow.
  { intros d Hd. apply list_elem_of_fmap. exists d. split; [reflexivity | exact Hd]. }
  assert (forall (rows : list (string * option string * bool)) (P : Decision.t -> Prop),
             map row (DecisionOutput.decisions out) = rows ->
             (forall d, row d ∈ rows -> P d) ->
             forall d, d ∈ DecisionOutput.decisions out -> P d) as Hby.
  { intros rows P Heq HP d Hd. apply HP. rewrite <- Heq. by apply Hrow. }
  assert (forall d t s a, row d = (t, s, a) ->
             Decision.type d = t /\ Decision.requires_human_approval d = a) as Hparts.
  { intros d t s a [= <- _ <-]. split; reflexivity. }
  split; [|split; [|split; [|split; [|split; [exact Hid|rewrite Htrace; split; reflexivity]]]]].
  - rewrite <- (length_map row).
    unfold decision_sets in Hrows.
    repeat (apply elem_of_cons in Hrows as [->|Hrows]; [simpl; lia|]).
    by apply elem_of_nil in Hrows.
  - unfold decision_sets in Hrows.
    repeat (apply elem_of_cons in Hrows as [Hrows|Hrows];
      [ apply (Hby _ _ Hrows); intros d Hd;
        repeat (apply elem_of_cons in Hd as [Hd|Hd];
          [ apply Hparts in Hd as [-> ->];
            (split; [unfold decision_types; pick_member|]);
            (split; [ intros H; first [discriminate H | pick_member]
                    | intros H; first [reflexivity
                        | exfalso;
                          repeat (apply elem_of_cons in H as [H|H]; [discriminate H|]);
                          by apply elem_of_nil in H] ])
          | ]);
        by apply elem_of_nil in Hd
      | ]).
    by apply elem_of_nil in Hrows.
  - rewrite <- Hblock. split.
    + intros (d & Hd & Ht). apply Hrow in Hd.
      unfold decision_sets in Hrows.
      repeat (apply elem_of_cons in Hrows as [Hrows|Hrows];
        [ first [exact Hrows
                | exfalso; rewrite Hrows in Hd;
                  repeat (apply elem_of_cons in Hd as [Hd|Hd];
                    [apply Hparts in Hd as [Hd _]; rewrite Ht in Hd; discriminate Hd|]);
                  by apply elem_of_nil in Hd]
        | ]).
      by apply elem_of_nil in Hrows.
    + intros Heq. destruct (DecisionOutput.decisions out) as [|d [|d' ds]];
        try discriminate Heq.
      exists d. split; [left|]. inversion Heq as [[Ht Hs Ha]]. reflexivity.
  - rewrite Hrisk. destruct (Observation.confidence observation <? 0.6)%float.
    + pick_member.
    + unfold Decider._assess_risk. destruct (existsb _ _); [pick_member|].
      destruct (existsb _ _); pick_member.
Qed.

(** A decision that the Actor drops without a trace: it needs no approval
    and its type is none of the three the dispatcher knows. *)
Definition dropped (d : Decision.t) : Prop :=
  Decision.requires_human_approval d = false /\
  (Decision.type d ∉ ["monitor_only"; "support_guidance"; "escalate_engineering"]).

Lemma three_way_split (decisions : list Decision.t) :
  length (filter awaits_approval decisions) + length (filter executed decisions) +
  length (filter dropped decisions) = length decisions.
Proof.
  induction decisions as [|d decisions IH]; [reflexivity|].
  rewrite !filter_cons.
  assert (Decision.requires_human_approval d = true \/
          Decision.requires_human_approval d = false) as [Happ|Happ]
    by (destruct (Decision.requires_human_approval d); auto).
  - rewrite (decide_True (P := awaits_approval d)) by exact Happ.
    rewrite (decide_False (P := executed d)) by (intros [? _]; congruence).
    rewrite (decide_False (P := dropped d)) by (intros [? _]; congruence).
    simpl. lia.
  - rewrite (decide_False (P := awaits_approval d))
      by (unfold awaits_approval; congruence).
    destruct (decide (Decision.type d ∈
                ["monitor_only"; "support_guidance"; "escalate_engineering"])) as [Hin|Hout].
    + rewrite (decide_True (P := executed d)) by (split; [exact Happ | exact Hin]).
      rewrite (decide_False (P := dropped d)) by (intros [_ ?]; contradiction).
      simpl. lia.
    + rewrite (decide_False (P := executed d)) by (intros [_ ?]; contradiction).
      rewrite (decide_True (P := dropped d)) by (split; [exact Happ | exact Hout]).
      simpl. lia.
Qed.

(** X13. [act] accounts for a decision in one of three ways: it is queued
    in [pending_approvals], or it yields one action in [actions_taken], or
    (needing no approval and being of a type the dispatcher does not know)
    it is dropped silently; so actions and pending approvals together
    number the decisions less the dropped ones, and an action is never
    taken for more decisions than are executable. *)
Theorem act_accounts_for_decisions (now : float) (decision_output : DecisionOutput.t)
    (STATE_FILE : file (list StateUpdate.t)) :
  let update := fst (Actor.act now decision_output STATE_FILE) in
  let decisions := DecisionOutput.decisions decision_output in
  length (StateUpdate.actions_taken update) +
  length (StateUpdate.pending_approvals update) +
  length (filter dropped decisions) = length decisions /\
  length (StateUpdate.actions_taken update) = length (filter executed decisions) /\
  StateUpdate.risk_level update = DecisionOutput.risk_level decision_output /\
  StateUpdate.observation_id update = DecisionOutput.observation_id decision_output /\
  StateUpdate.timestamp update = now.
Proof.
  unfold Actor.act.
  destruct (act_loop (DecisionOutput.decisions decision_output) [] [])
    as (performed & Heq & Hall).
  rewrite Heq. cbn [fst StateUpdate.actions_taken StateUpdate.pending_approvals
                    StateUpdate.risk_level StateUpdate.observation_id
                    StateUpdate.timestamp app].
  apply Forall2_length in Hall.
  pose proof (three_way_split (DecisionOutput.decisions decision_output)).
  repeat split; lia.
Qed.

(** X14. Nothing the Decider returns is dropped by the Actor: on the
    output of [decide], every decision is either queued for approval or
    executed into exactly one action, so actions and pending approvals
    together number the decisions; when the gate blocks, nothing is
    executed and the block is the one pending approval. *)
Theorem act_handles_every_decision_of_decide (now : float)
    (observation : Observation.t) (reasoning : Reasoning.t)
    (STATE_FILE : file (list StateUpdate.t)) :
  let out := Decider.decide observation reasoning in
  let update := fst (Actor.act now out STATE_FILE) in
  filter dropped (DecisionOutput.decisions out) = [] /\
  length (StateUpdate.actions_taken update) +
  length (StateUpdate.pending_approvals update) =
    length (DecisionOutput.decisions out) /\
  ((Observation.confidence observation <? 0.6)%float = true ->
   StateUpdate.actions_taken update = [] /\
   StateUpdate.pending_approvals update = DecisionOutput.decisions out).
Proof.
  intros out update.
  assert (filter dropped (DecisionOutput.decisions out) = []) as Hnone.
  { unfold out, Decider.decide. cbv zeta.
    destruct (Observation.confidence observation <? 0.6)%float; [reflexivity|].
    repeat match goal with
           | |- context [if json_is_str ?c ?s then _ else _] =>
               destruct (json_is_str c s)
           end; reflexivity. }
  split; [exact Hnone|]. split.
  - pose proof (act_loop (DecisionOutput.decisions out) [] []) as (performed & Heq & Hall).
    unfold update, Actor.act. rewrite Heq.
    cbn [fst StateUpdate.actions_taken StateUpdate.pending_approvals app].
    apply Forall2_length in Hall.
    pose proof (three_way_split (DecisionOutput.decisions out)) as Hsplit.
    rewrite Hnone in Hsplit. simpl in Hsplit. lia.
  - intros Hlow. unfold update, out, Decider.decide. rewrite Hlow.
    split; reflexivity.
Qed.

Lemma act_handles_every_decision_of_decide_witness :
  let out := Decider.decide Sample.blind_observation Sample.tied_reasoning in
  let update := fst (Actor.act 150 out Absent) in
  (Observation.confidence Sample.blind_observation <? 0.6)%float = true /\
  filter dropped (DecisionOutput.decisions out) = [] /\
  length (StateUpdate.actions_taken update) +
  length (StateUpdate.pending_approvals update) =
    length (DecisionOutput.decisions out) /\
  ((Observation.confidence Sample.blind_observation <? 0.6)%float = true ->
   StateUpdate.actions_taken update = [] /\
   StateUpdate.pending_approvals update = DecisionOutput.decisions out).
Proof.
  cbv zeta. split; [vm_compute; reflexivity|].
  apply (act_handles_every_decision_of_decide 150 Sample.blind_observation
           Sample.tied_reasoning Absent).
Defined.

(** The updates a state file holds for [_write_state]: those of the
    document, and none when the file is absent or its text is not a JSON
    document. *)
Definition history (STATE_FILE : file (list StateUpdate.t)) : list StateUpdate.t :=
  match STATE_FILE with
  | Document existing => existing
  | _ => []
  end.

(** X15. After [act] the state file is a complete document whose last
    entry is the update returned; the earlier entries are those the file
    held before, unless the file was absent or held text that is not a
    JSON document (an empty or partly written file, on which [json.load]
    raises [JSONDecodeError]), in which case the history restarts with
    this update alone.  While it is written the file is first empty and
    then filled through the buffer of the file object: a reader finds text
    that is not a JSON document until the write is complete. *)
Theorem act_extends_state_file (now : float) (decision_output : DecisionOutput.t)
    (STATE_FILE : file (list StateUpdate.t)) :
  snd (Actor.act now decision_output STATE_FILE) =
    Document (history STATE_FILE ++ [fst (Actor.act now decision_output STATE_FILE)]) /\
  states_during
    (Actor._write_state (fst (Actor.act now decision_output STATE_FILE)) STATE_FILE)
    STATE_FILE =
    [ STATE_FILE; Unparsable; Unparsable;
      Document (history STATE_FILE ++ [fst (Actor.act now decision_output STATE_FILE)]) ].
Proof.
  unfold Actor.act.
  destruct (fold_left _ _ _) as [actions_taken pending_approvals].
  destruct STATE_FILE; split; reflexivity.
Qed.

(* ===================================================================== *)
(** ** Further properties of the Memory                                   *)
(* ===================================================================== *)

Lemma attach_absent (incident_id : string) (value : gmap string json)
    (memory : list Incident.t) :
  (forall entry, entry ∈ memory -> Incident.incident_id entry <> incident_id) ->
  Memory.attach incident_id value memory = memory.
Proof.
  intros Hnone. induction memory as [|entry memory IH]; [reflexivity|]. simpl.
  rewrite bool_decide_eq_false_2 by (apply Hnone; left).
  f_equal. apply IH. intros e He. apply Hnone. by right.
Qed.

(** X16. [update_outcome] on an id that no stored incident has changes
    nothing: it returns normally and the file holds the same collection. *)
Theorem update_outcome_unknown_id (incident_id : string) (outcome : gmap string json)
    (now : float) (memory : list Incident.t) :
  (forall entry, entry ∈ memory -> Incident.incident_id entry <> incident_id) ->
  Memory.update_outcome incident_id outcome now (Document memory) =
    (Ok tt, Document memory).
Proof.
  intros Hnone. unfold Memory.update_outcome, Memory.update_outcome_steps. simpl.
  rewrite attach_absent by exact Hnone. reflexivity.
Qed.

Lemma update_outcome_unknown_id_witness :
  (forall entry, entry ∈ [storm_incident "id-0" 100] ->
                 Incident.incident_id entry <> "id-9") /\
  Memory.update_outcome "id-9" resolved 200 (Document [storm_incident "id-0" 100]) =
    (Ok tt, Document [storm_incident "id-0" 100]).
Proof.
  assert (forall entry, entry ∈ [storm_incident "id-0" 100] ->
                        Incident.incident_id entry <> "id-9") as Hnone.
  { intros entry Hin. apply list_elem_of_singleton in Hin. subst entry. discriminate. }
  split; [exact Hnone|].
  apply (update_outcome_unknown_id "id-9" resolved 200 [storm_incident "id-0" 100]).
  exact Hnone.
Defined.

(** A memory file that cannot be loaded: absent, or not a JSON document. *)
Definition unreadable (MEMORY_FILE : Memory.store) : Prop :=
  MEMORY_FILE = Absent \/ MEMORY_FILE = Unparsable.

(** X17. On a memory file that is absent or is not a JSON document,
    [record_incident], [update_outcome] and [query_similar] raise and
    write nothing; constructing the Memory creates an absent file holding
    the empty list but leaves an unreadable one as it is, so a file left
    truncated keeps every later operation failing. *)
Theorem unreadable_memory_file_fails (MEMORY_FILE : Memory.store)
    (uuid4 : string) (now : float) (observation : Observation.t)
    (reasoning : Reasoning.t) (decision : DecisionOutput.t) (action : StateUpdate.t)
    (outcome : gmap string json) (cause : option string) (min_confidence : float) :
  unreadable MEMORY_FILE ->
  (exists e,
     Memory.record_incident uuid4 now observation reasoning decision action MEMORY_FILE
       = (Raise e, MEMORY_FILE)) /\
  (exists e,
     Memory.update_outcome uuid4 outcome now MEMORY_FILE = (Raise e, MEMORY_FILE)) /\
  (exists e, Memory.query_similar cause min_confidence MEMORY_FILE = Raise e) /\
  Memory.init Absent = Document [] /\
  Memory.init Unparsable = Unparsable /\
  (exists e,
     Memory.record_incident uuid4 now observation reasoning decision action
       (Memory.init Unparsable) = (Raise e, Unparsable)).
Proof.
  intros [-> | ->]; repeat split; eexists; reflexivity.
Qed.

Lemma unreadable_memory_file_fails_witness :
  unreadable Unparsable /\
  (exists e,
     Memory.record_incident "id-1" 150 Sample.storm_observation Sample.tied_reasoning
       (Decider.decide Sample.storm_observation Sample.tied_reasoning)
       (fst (Actor.act 150
               (Decider.decide Sample.storm_observation Sample.tied_reasoning) Absent))
       Unparsable = (Raise e, Unparsable)) /\
  (exists e, Memory.update_outcome "id-1" resolved 150 Unparsable = (Raise e, Unparsable)) /\
  (exists e, Memory.query_similar None 0 Unparsable = Raise e) /\
  Memory.init Absent = Document [] /\
  Memory.init Unparsable = Unparsable /\
  (exists e,
     Memory.record_incident "id-1" 150 Sample.storm_observation Sample.tied_reasoning
       (Decider.decide Sample.storm_observation Sample.tied_reasoning)
       (fst (Actor.act 150
               (Decider.decide Sample.storm_observation Sample.tied_reasoning) Absent))
       (Memory.init Unparsable) = (Raise e, Unparsable)).
Proof.
  split; [right; reflexivity|].
  apply (unreadable_memory_file_fails Unparsable "id-1" 150 Sample.storm_observation
           Sample.tied_reasoning
           (Decider.decide Sample.storm_observation Sample.tied_reasoning)
           (fst (Actor.act 150
                   (Decider.decide Sample.storm_observation Sample.tied_reasoning) Absent))
           resolved None 0).
  right; reflexivity.
Defined.

Lemma find_app_other (incident_id : string) (memory : list Incident.t)
    (incident : Incident.t) :
  Incident.incident_id incident <> incident_id ->
  find (fun entry => bool_decide (Incident.incident_id entry = incident_id))
       (memory ++ [incident]) =
  find (fun entry => bool_decide (Incident.incident_id entry = incident_id)) memory.
Proof.
  intros Hne. induction memory as [|entry memory IH]; simpl.
  - rewrite bool_decide_eq_false_2 by exact Hne. reflexivity.
  - destruct (bool_decide _); [reflexivity | exact IH].
Qed.

Lemma find_attach_other (incident_id other : string) (value : gmap string json)
    (memory : list Incident.t) :
  other <> incident_id ->
  find (fun entry => bool_decide (Incident.incident_id entry = other))
       (Memory.attach incident_id value memory) =
  find (fun entry => bool_decide (Incident.incident_id entry = other)) memory.
Proof.
  intros Hne. induction memory as [|entry memory IH]; [reflexivity|]. simpl.
  case_bool_decide as Hid; simpl.
  - rewrite !bool_decide_eq_false_2 by congruence. reflexivity.
  - destruct (bool_decide _); [reflexivity | exact IH].
Qed.

(** X18. Recording an incident or attaching an outcome leaves every other
    id as it was: a lookup of an id other than the one recorded or updated
    gives the same incident (or the same absence) after the call as
    before. *)
Theorem other_incidents_untouched (memory : list Incident.t) (other : string)
    (uuid4 : string) (now : float) (observation : Observation.t)
    (reasoning : Reasoning.t) (decision : DecisionOutput.t) (action : StateUpdate.t)
    (outcome : gmap string json) :
  other <> uuid4 ->
  Memory.lookup other
    (snd (Memory.record_incident uuid4 now observation reasoning decision action
            (Document memory))) = Memory.lookup other (Document memory) /\
  Memory.lookup other
    (snd (Memory.update_outcome uuid4 outcome now (Document memory)))
    = Memory.lookup other (Document memory).
Proof.
  intros Hne. unfold Memory.lookup. simpl. split; f_equal.
  - apply find_app_other. simpl. congruence.
  - by apply find_attach_other.
Qed.

Lemma other_incidents_untouched_witness :
  "id-0" <> "id-1" /\
  Memory.lookup "id-0"
    (snd (Memory.record_incident "id-1" 150 Sample.storm_observation
            Sample.tied_reasoning
            (Decider.decide Sample.storm_observation Sample.tied_reasoning)
            (fst (Actor.act 150
                    (Decider.decide Sample.storm_observation Sample.tied_reasoning)
                    Absent))
            (Document [storm_incident "id-0" 100])))
    = Memory.lookup "id-0" (Document [storm_incident "id-0" 100]) /\
  Memory.lookup "id-0"
    (snd (Memory.update_outcome "id-1" resolved 150
            (Document [storm_incident "id-0" 100])))
    = Memory.lookup "id-0" (Document [storm_incident "id-0" 100]).
Proof.
  split; [discriminate|].
  apply (other_incidents_untouched [storm_incident "id-0" 100] "id-0" "id-1" 150
           Sample.storm_observation Sample.tied_reasoning
           (Decider.decide Sample.storm_observation Sample.tied_reasoning)
           (fst (Actor.act 150
                   (Decider.decide Sample.storm_observation Sample.tied_reasoning)
                   Absent))
           resolved).
  discriminate.
Defined.

(** An incident without its outcome. *)
Definition without_outcome (entry : Incident.t) : Incident.t :=
  {| Incident.incident_id := Incident.incident_id entry;
     Incident.timestamp := Incident.timestamp entry;
     Incident.observation := Incident.observation entry;
     Incident.reasoning := Incident.reasoning entry;
     Incident.decision := Incident.decision entry;
     Incident.action := Incident.action entry;
     Incident.outcome := None |}.

Lemma attach_without_outcome (incident_id : string) (value : gmap string json)
    (memory : list Incident.t) :
  map without_outcome (Memory.attach incident_id value memory) =
  map without_outcome memory.
Proof.
  induction memory as [|entry memory IH]; [reflexivity|]. simpl.
  case_bool_decide; simpl; [reflexivity | by rewrite IH].
Qed.

(** X19. [update_outcome] changes outcomes only: whatever the id and the
    stored collection, the file afterwards holds the same incidents in the
    same order, equal to the former ones in every field but the outcome,
    and an incident's id, timestamp, observation, reasoning, decision and
    action are never rewritten. *)
Theorem update_outcome_changes_outcomes_only (incident_id : string)
    (outcome : gmap string json) (now : float) (memory : list Incident.t) :
  exists memory',
    Memory.update_outcome incident_id outcome now (Document memory) =
      (Ok tt, Document memory') /\
    map without_outcome memory' = map without_outcome memory /\
    length memory' = length memory /\
    map Incident.incident_id memory' = map Incident.incident_id memory.
Proof.
  exists (Memory.attach incident_id (Memory.stamped now outcome) memory).
  split; [reflexivity|].
  pose proof (attach_without_outcome incident_id (Memory.stamped now outcome) memory) as H.
  split; [exact H|]. split.
  - apply (f_equal length) in H. by rewrite !length_map in H.
  - apply (f_equal (map Incident.incident_id)) in H.
    rewrite <- !list_fmap_compose in H. exact H.
Qed.

(** X20. The store is append-only for queries too: after
    [record_incident], [query_similar] returns what it returned before,
    followed by the new incident when that incident matches, and nothing
    more. *)
Theorem query_after_record (cause : option string) (min_confidence : float)
    (memory : list Incident.t) (uuid4 : string) (now : float)
    (observation : Observation.t) (reasoning : Reasoning.t)
    (decision : DecisionOutput.t) (action : StateUpdate.t) :
  let incident := Memory.new_incident uuid4 now observation reasoning decision action in
  let after :=
    snd (Memory.record_incident uuid4 now observation reasoning decision action
           (Document memory)) in
  exists before,
    Memory.query_similar cause min_confidence (Document memory) = Ok before /\
    (matching cause min_confidence incident ->
     Memory.query_similar cause min_confidence after = Ok (before ++ [incident])) /\
    (~ matching cause min_confidence incident ->
     Memory.query_similar cause min_confidence after = Ok before).
Proof.
  cbv zeta. unfold Memory.query_similar. simpl.
  eexists. split; [reflexivity|].
  rewrite fold_left_app. cbn [fold_left]. cbv zeta.
  cbn [Incident.reasoning Memory.new_incident].
  destruct (Memory.reaches_append cause min_confidence (Reasoning.hypotheses reasoning))
    eqn:E.
  - split; [reflexivity|]. intros Hno. exfalso. apply Hno.
    apply reaches_append_spec in E. exact E.
  - split; [|reflexivity]. intros Hyes.
    apply reaches_append_spec in Hyes. simpl in Hyes. congruence.
Qed.

Lemma query_fold_without_outcome (cause : option string) (min_confidence : float)
    (memory memory' : list Incident.t) :
  map without_outcome memory' = map without_outcome memory ->
  forall results results',
    map without_outcome results' = map without_outcome results ->
    map without_outcome
      (fold_left
         (fun results entry =>
            let hypotheses := Reasoning.hypotheses (Incident.reasoning entry) in
            if Memory.reaches_append cause min_confidence hypotheses
            then results ++ [entry] else results)
         memory' results') =
    map without_outcome
      (fold_left
         (fun results entry =>
            let hypotheses := Reasoning.hypotheses (Incident.reasoning entry) in
            if Memory.reaches_append cause min_confidence hypotheses
            then results ++ [entry] else results)
         memory results).
Proof.
  revert memory'. induction memory as [|entry memory IH];
    intros [|entry' memory'] Hsame results results' Hres; try discriminate Hsame.
  - exact Hres.
  - cbn [map] in Hsame.
    assert (without_outcome entry' = without_outcome entry) as Hentry by congruence.
    assert (map without_outcome memory' = map without_outcome memory) as Hrest
      by congruence.
    cbn [fold_left]. apply IH; [exact Hrest|].
    cbv zeta.
    replace (Incident.reasoning entry') with (Incident.reasoning entry)
      by exact (f_equal Incident.reasoning (eq_sym Hentry)).
    destruct (Memory.reaches_append _ _ _); [|exact Hres].
    rewrite !map_app, Hres. cbn [map]. by rewrite Hentry.
Qed.

(** X21. Attaching an outcome never changes which incidents a query
    returns: after [update_outcome], [query_similar] returns the same
    incidents in the same order, differing at most by their outcome. *)
Theorem query_ignores_outcomes (cause : option string) (min_confidence : float)
    (incident_id : string) (outcome : gmap string json) (now : float)
    (memory : list Incident.t) :
  exists before after,
    Memory.query_similar cause min_confidence (Document memory) = Ok before /\
    Memory.query_similar cause min_confidence
      (snd (Memory.update_outcome incident_id outcome now (Document memory))) = Ok after /\
    map without_outcome after = map without_outcome before.
Proof.
  unfold Memory.query_similar. simpl. eexists. eexists.
  split; [reflexivity|]. split; [reflexivity|].
  apply query_fold_without_outcome; [apply attach_without_outcome | reflexivity].
Qed.

Lemma selects_sublist {A : Type} (P Q : A -> Prop) (l r r' : list A) :
  (forall x, P x -> Q x) -> selects P l r -> selects Q l r' -> sublist r r'.
Proof.
  intros HPQ Hr. revert r'.
  induction Hr as [|x l r Hx _ IH|x l r Hx _ IH]; intros r' Hr'.
  - inversion Hr'. constructor.
  - inversion Hr' as [|y l0 r0 Hq Hsel|y l0 r0 Hq Hsel]; subst.
    + apply sublist_skip. by apply IH.
    + exfalso. apply Hq. by apply HPQ.
  - inversion Hr' as [|y l0 r0 Hq Hsel|y l0 r0 Hq Hsel]; subst.
    + apply sublist_cons. by apply IH.
    + by apply IH.
Qed.

(** X22. Raising the confidence floor can only remove results: for floors
    [low <= high], what [query_similar] returns at [high] is a sublist (in
    the same order) of what it returns at [low], for the same cause. *)
Theorem query_floor_monotone (cause : option string) (low high : float)
    (memory : list Incident.t) :
  (low <=? high)%float = true ->
  exists at_low at_high,
    Memory.query_similar cause low (Document memory) = Ok at_low /\
    Memory.query_similar cause high (Document memory) = Ok at_high /\
    sublist at_high at_low.
Proof.
  intros Hle.
  destruct (query_loop cause low memory []) as (at_low & Hlow & Hsel_low).
  destruct (query_loop cause high memory []) as (at_high & Hhigh & Hsel_high).
  exists at_low, at_high. unfold Memory.query_similar. simpl.
  split; [f_equal; exact Hlow|]. split; [f_equal; exact Hhigh|].
  eapply selects_sublist; [|exact Hsel_high | exact Hsel_low].
  intros entry (h & Hin & Hcause & Hfloor). exists h. split; [exact Hin|].
  split; [exact Hcause|]. unfold meets_floor in *.
  apply not_true_is_false. intros Hbelow.
  assert ((default 0%float (Hyp.confidence h) <? high)%float = true) as Hcontra.
  { eapply FloatOrder.ltb_leb_trans; [exact Hbelow | exact Hle]. }
  congruence.
Qed.

Lemma query_floor_monotone_witness :
  (0.5 <=? 0.75)%float = true /\
  exists at_low at_high,
    Memory.query_similar (Some "migration_misconfiguration") 0.5
      (Document [storm_incident "id-0" 100]) = Ok at_low /\
    Memory.query_similar (Some "migration_misconfiguration") 0.75
      (Document [storm_incident "id-0" 100]) = Ok at_high /\
    sublist at_high at_low.
Proof.
  split; [vm_compute; reflexivity|].
  apply (query_floor_monotone (Some "migration_misconfiguration") 0.5 0.75
           [storm_incident "id-0" 100]).
  vm_compute; reflexivity.
Defined.

(** X23. The outcome stored by [update_outcome] holds every field of the
    outcome given, unchanged; its [timestamp] is the time of the call
    unless the outcome given has a [timestamp] of its own, which then
    stays. *)
Theorem stamped_outcome_fields (now : float) (outcome : gmap string json) :
  (forall key value, outcome !! key = Some value ->
                     Memory.stamped now outcome !! key = Some value) /\
  (forall key, key <> "timestamp" -> Memory.stamped now outcome !! key = outcome !! key) /\
  Memory.stamped now outcome !! "timestamp" =
    Some (default (JNum now) (outcome !! "timestamp")).
Proof.
  unfold Memory.stamped. split; [|split].
  - intros key value H. by apply lookup_union_Some_l.
  - intros key Hkey. rewrite lookup_union.
    rewrite (lookup_singleton_ne "timestamp" key) by congruence.
    destruct (outcome !! key); reflexivity.
  - rewrite lookup_union, lookup_singleton_eq.
    destruct (outcome !! "timestamp"); reflexivity.
Qed.

(* ===================================================================== *)
(** ** Properties of the runner                                           *)
(* ===================================================================== *)

Lemma reason_returns parse_float py_str json_dumps _build_prompt
    (llm : option (string -> result json)) (USE_LLM : option string)
    (observation : Observation.t) :
  exists reasoning,
    Reasoner.reason parse_float py_str json_dumps _build_prompt llm USE_LLM
      observation = Ok reasoning.
Proof.
  destruct (reason_deterministic_answers observation) as (r & Hr & _).
  unfold Reasoner.reason. cbv zeta.
  destruct llm as [generate|]; [|by exists r].
  destruct (bool_decide _ && Reasoner._should_use_llm observation); [|by exists r].
  eexists. reflexivity.
Qed.

(** One cycle on a readable memory file, given the reasoning returned. *)
Lemma run_once_on_document http_post py_strip json_loads parse_float
    py_str json_dumps _build_prompt (USE_LLM : option string)
    (self : AgentRunner.t) (env : AgentRunner.draws) (raw_signals : RawSignals.t)
    (memory : list Incident.t) (reasoning : Reasoning.t) :
  AgentRunner.MEMORY_FILE self = Document memory ->
  let observation :=
    fst (Observer.observe (AgentRunner.observation_id self)
           (AgentRunner.observe_time env) raw_signals) in
  AgentRunner.reasoner http_post py_strip json_loads parse_float py_str json_dumps
    _build_prompt USE_LLM observation = Ok reasoning ->
  let decision := Decider.decide observation reasoning in
  let action :=
    fst (Actor.act (AgentRunner.act_time env) decision (AgentRunner.STATE_FILE self)) in
  AgentRunner.run_once http_post py_strip json_loads parse_float py_str json_dumps
    _build_prompt USE_LLM self env raw_signals =
  (Ok (AgentRunner.uuid4 env),
   {| AgentRunner.observation_id := AgentRunner.observation_id self + 1;
      AgentRunner.STATE_FILE :=
        Document (history (AgentRunner.STATE_FILE self) ++ [action]);
      AgentRunner.MEMORY_FILE :=
        Document
          (memory ++
           [{| Incident.incident_id := AgentRunner.uuid4 env;
               Incident.timestamp := AgentRunner.record_time env;
               Incident.observation := observation;
               Incident.reasoning := reasoning;
               Incident.decision := decision;
               Incident.action := action;
               Incident.outcome := None |}]) |}).
Proof.
  intros Hmem observation Hr.
  unfold AgentRunner.run_once, AgentRunner.reasoner in *.
  unfold observation in Hr. unfold Observer.observe in *. cbn [fst] in Hr.
  rewrite Hr. rewrite Hmem. cbv zeta.
  unfold Actor.act. destruct (fold_left Actor.act_step _ _) as [actions pending].
  destruct (AgentRunner.STATE_FILE self); reflexivity.
Qed.

(** X24. A cycle on a readable memory file runs to its end: [run_once]
    returns the id drawn for the incident, the observer's counter advances
    by one, the state file gains the cycle's state update as its last
    entry, and the memory gains, after the incidents it held, one incident
    with no outcome that holds the observation, the reasoning, the decision
    and the action of this very cycle. *)
Theorem run_once_records_the_cycle http_post py_strip json_loads parse_float
    py_str json_dumps _build_prompt (USE_LLM : option string)
    (self : AgentRunner.t) (env : AgentRunner.draws) (raw_signals : RawSignals.t)
    (memory : list Incident.t) :
  AgentRunner.MEMORY_FILE self = Document memory ->
  let observation :=
    fst (Observer.observe (AgentRunner.observation_id self)
           (AgentRunner.observe_time env) raw_signals) in
  exists reasoning,
    AgentRunner.reasoner http_post py_strip json_loads parse_float py_str json_dumps
      _build_prompt USE_LLM observation = Ok reasoning /\
    let decision := Decider.decide observation reasoning in
    let action :=
      fst (Actor.act (AgentRunner.act_time env) decision (AgentRunner.STATE_FILE self)) in
    AgentRunner.run_once http_post py_strip json_loads parse_float py_str json_dumps
      _build_prompt USE_LLM self env raw_signals =
    (Ok (AgentRunner.uuid4 env),
     {| AgentRunner.observation_id := AgentRunner.observation_id self + 1;
        AgentRunner.STATE_FILE :=
          Document (history (AgentRunner.STATE_FILE self) ++ [action]);
        AgentRunner.MEMORY_FILE :=
          Document
            (memory ++
             [{| Incident.incident_id := AgentRunner.uuid4 env;
                 Incident.timestamp := AgentRunner.record_time env;
                 Incident.observation := observation;
                 Incident.reasoning := reasoning;
                 Incident.decision := decision;
                 Incident.action := action;
                 Incident.outcome := None |}]) |}).
Proof.
  intros Hmem observation.
  destruct (reason_returns parse_float py_str json_dumps _build_prompt
              (Some (OllamaClient.generate http_post py_strip json_loads))
              USE_LLM observation) as [reasoning Hr].
  exists reasoning. split; [exact Hr|].
  cbv zeta. apply run_once_on_document; [exact Hmem | exact Hr].
Qed.

(** A runner over an empty memory, and what a cycle draws. *)
Definition fresh_runner : AgentRunner.t := AgentRunner.init Absent Absent.

Definition first_draws : AgentRunner.draws :=
  {| AgentRunner.observe_time := 100;
     AgentRunner.act_time := 101;
     AgentRunner.record_time := 102;
     AgentRunner.uuid4 := "id-1" |}.

Lemma run_once_records_the_cycle_witness :
  AgentRunner.MEMORY_FILE fresh_runner = Document [] /\
  exists reasoning,
    AgentRunner.reasoner (fun _ => Raise "Connection refused") (fun s => s)
      (fun _ => Raise "Expecting value") (fun _ => None) (fun _ => "") (fun _ => "")
      (fun _ => "prompt") None
      (fst (Observer.observe (AgentRunner.observation_id fresh_runner)
              (AgentRunner.observe_time first_draws)
              AgentRunner.scenario_webhook_failure)) = Ok reasoning /\
    fst (AgentRunner.run_once (fun _ => Raise "Connection refused") (fun s => s)
           (fun _ => Raise "Expecting value") (fun _ => None) (fun _ => "") (fun _ => "")
           (fun _ => "prompt") None fresh_runner first_draws
           AgentRunner.scenario_webhook_failure) = Ok "id-1".
Proof.
  split; [reflexivity|].
  destruct (run_once_records_the_cycle (fun _ => Raise "Connection refused") (fun s => s)
              (fun _ => Raise "Expecting value") (fun _ => None) (fun _ => "")
              (fun _ => "") (fun _ => "prompt") None fresh_runner first_draws
              AgentRunner.scenario_webhook_failure [] eq_refl) as (reasoning & Hr & Hrun).
  exists reasoning. split; [exact Hr|]. cbv zeta in Hrun. rewrite Hrun. reflexivity.
Defined.

(** X25. A cycle whose incident cannot be recorded has acted all the
    same: when the memory file is absent or unreadable, [run_once] raises
    and the memory file is left as it was, but the observer's counter has
    advanced and the state file has gained the cycle's state update. *)
Theorem run_once_acts_before_recording http_post py_strip json_loads parse_float
    py_str json_dumps _build_prompt (USE_LLM : option string)
    (self : AgentRunner.t) (env : AgentRunner.draws) (raw_signals : RawSignals.t) :
  unreadable (AgentRunner.MEMORY_FILE self) ->
  exists e update,
    AgentRunner.run_once http_post py_strip json_loads parse_float py_str json_dumps
      _build_prompt USE_LLM self env raw_signals =
    (Raise e,
     {| AgentRunner.observation_id := AgentRunner.observation_id self + 1;
        AgentRunner.STATE_FILE :=
          Document (history (AgentRunner.STATE_FILE self) ++ [update]);
        AgentRunner.MEMORY_FILE := AgentRunner.MEMORY_FILE self |}) /\
    StateUpdate.observation_id update = AgentRunner.observation_id self + 1.
Proof.
  intros Hbad.
  destruct (reason_returns parse_float py_str json_dumps _build_prompt
              (Some (OllamaClient.generate http_post py_strip json_loads))
              USE_LLM
              (fst (Observer.observe (AgentRunner.observation_id self)
                      (AgentRunner.observe_time env) raw_signals))) as [reasoning Hr].
  unfold AgentRunner.run_once, AgentRunner.reasoner.
  unfold Observer.observe in *. cbn [fst] in Hr. rewrite Hr. cbv zeta.
  unfold Actor.act. destruct (fold_left Actor.act_step _ _) as [actions pending].
  destruct Hbad as [Hbad|Hbad]; rewrite Hbad;
    destruct (AgentRunner.STATE_FILE self); eexists; eexists;
      (split; [reflexivity|]);
      pose proof (decide_rows
        {| Observation.observation_id := AgentRunner.observation_id self + 1;
           Observation.timestamp := AgentRunner.observe_time env;
           Observation.signals := Observer._ingest_signals raw_signals;
           Observation.stats :=
             Observer._compute_stats (Observer._ingest_signals raw_signals);
           Observation.anomalies :=
             Observer._detect_anomalies (Observer._ingest_signals raw_signals)
               (Observer._compute_stats (Observer._ingest_signals raw_signals));
           Observation.confidence :=
             Observer._estimate_confidence (Observer._ingest_signals raw_signals) |}
        reasoning) as (_ & _ & _ & Hid & _);
      exact Hid.
Qed.

Lemma run_once_acts_before_recording_witness :
  unreadable (AgentRunner.MEMORY_FILE
                {| AgentRunner.observation_id := 4;
                   AgentRunner.STATE_FILE := Absent;
                   AgentRunner.MEMORY_FILE := Unparsable |}) /\
  exists e update,
    AgentRunner.run_once (fun _ => Raise "Connection refused") (fun s => s)
      (fun _ => Raise "Expecting value") (fun _ => None) (fun _ => "") (fun _ => "")
      (fun _ => "prompt") None
      {| AgentRunner.observation_id := 4;
         AgentRunner.STATE_FILE := Absent;
         AgentRunner.MEMORY_FILE := Unparsable |}
      first_draws AgentRunner.scenario_healthy_system =
    (Raise e,
     {| AgentRunner.observation_id := 4 + 1;
        AgentRunner.STATE_FILE := Document (history Absent ++ [update]);
        AgentRunner.MEMORY_FILE := Unparsable |}) /\
    StateUpdate.observation_id update = 4 + 1.
Proof.
  split; [right; reflexivity|].
  apply (run_once_acts_before_recording (fun _ => Raise "Connection refused")
           (fun s => s) (fun _ => Raise "Expecting value") (fun _ => None)
           (fun _ => "") (fun _ => "") (fun _ => "prompt") None
           {| AgentRunner.observation_id := 4;
              AgentRunner.STATE_FILE := Absent;
              AgentRunner.MEMORY_FILE := Unparsable |}
           first_draws AgentRunner.scenario_healthy_system).
  right; reflexivity.
Defined.

(** None of the runner's four scenarios is stopped by the safety
    gate, whatever the counter and the clock; the Reasoner wants the
    delegate for [scenario_checkout_failure] (two anomalies) and for
    [scenario_healthy_system] (two empty buckets), and reasons
    deterministically on [scenario_webhook_failure] and
    [scenario_frontend_mismatch] (the tables follow the order of
    [SCENARIOS]: checkout failure, webhook failure, frontend mismatch,
    healthy system). *)
Theorem scenarios_and_the_delegate (self : nat) (now : float) :
  let observed raw_signals := fst (Observer.observe self now raw_signals) in
  (forall raw_signals, raw_signals ∈ AgentRunner.SCENARIOS ->
     (Observation.confidence (observed raw_signals) <? 0.6)%float = false) /\
  map (fun raw_signals => Reasoner._should_use_llm (observed raw_signals))
      AgentRunner.SCENARIOS = [true; false; false; true] /\
  map (fun raw_signals =>
         (number_of_empty_buckets raw_signals,
          length (Observation.anomalies (observed raw_signals))))
      AgentRunner.SCENARIOS = [(1, 2); (0, 1); (1, 1); (2, 0)].
Proof.
  cbv zeta. split; [|split; vm_compute; reflexivity].
  intros raw_signals Hin. unfold AgentRunner.SCENARIOS in Hin.
  repeat (apply elem_of_cons in Hin as [->|Hin]; [vm_compute; reflexivity|]).
  by apply elem_of_nil in Hin.
Qed.

(** X26. A failed delegate degrades the cycle to monitoring: on the
    fallback reasoning of mode [llm_failed], past the safety gate, [decide]
    returns the single decision [monitor_only] with risk [low], and [act]
    turns it into one monitoring action with nothing left pending; no
    guidance, escalation or approval request comes out of a failed call. *)
Theorem failed_delegate_only_monitors (observation : Observation.t) (e : string)
    (now : float) (STATE_FILE : file (list StateUpdate.t)) :
  (Observation.confidence observation <? 0.6)%float = false ->
  let out := Decider.decide observation (Reasoner.llm_failed e) in
  let update := fst (Actor.act now out STATE_FILE) in
  map row (DecisionOutput.decisions out) = [("monitor_only", None, false)] /\
  DecisionOutput.risk_level out = "low" /\
  StateUpdate.actions_taken update =
    [monitoring "Root cause unclear, monitoring for changes"] /\
  StateUpdate.pending_approvals update = [].
Proof.
  intros Hgate. cbv zeta. unfold Decider.decide. rewrite Hgate.
  repeat split; vm_compute; reflexivity.
Qed.

Lemma failed_delegate_only_monitors_witness :
  (Observation.confidence Sample.storm_observation <? 0.6)%float = false /\
  let out := Decider.decide Sample.storm_observation (Reasoner.llm_failed "Read timed out") in
  let update := fst (Actor.act 150 out Absent) in
  map row (DecisionOutput.decisions out) = [("monitor_only", None, false)] /\
  DecisionOutput.risk_level out = "low" /\
  StateUpdate.actions_taken update =
    [monitoring "Root cause unclear, monitoring for changes"] /\
  StateUpdate.pending_approvals update = [].
Proof.
  split; [vm_compute; reflexivity|].
  apply (failed_delegate_only_monitors Sample.storm_observation "Read timed out" 150 Absent).
  vm_compute; reflexivity.
Defined.




(** X28. The confidence of an observation takes one of six values, by the
    number of empty buckets: 1.0, 0.9, 0.8, 0.7, 0.6 and 0.5, each exactly
    the binary64 number that the decimal denotes (the subtraction
    [1.0 - n * 0.1] lands on it); so four empty buckets give exactly 0.6,
    which is not under the gate. *)
Theorem confidence_table (self : nat) (now : float) (raw_signals : RawSignals.t) :
  number_of_empty_buckets raw_signals <= 5 /\
  Some (Observation.confidence (fst (Observer.observe self now raw_signals))) =
    [1.0; 0.9; 0.8; 0.7; 0.6; 0.5]%float !! number_of_empty_buckets raw_signals.
Proof.
  destruct (estimate_confidence_by_count raw_signals) as [Hle Hc].
  split; [exact Hle|].
  unfold Observer.observe. cbn [fst Observation.confidence]. rewrite Hc.
  set (n := number_of_empty_buckets raw_signals) in *.
  destruct n as [|[|[|[|[|[|n]]]]]]; try lia; vm_compute; reflexivity.
Qed.

(** The cycles of the main loop, one after the other: each cycle with what
    it draws and the batch it is given. *)
Section Loop.

Variable http_post : string -> result json.
Variable py_strip : string -> string.
Variable json_loads : string -> result json.
Variable parse_float : string -> option float.
Variable py_str : json -> string.
Variable json_dumps : json -> string.
Variable _build_prompt : Observation.t -> string.
Variable USE_LLM : option string.

Fixpoint run_cycles (self : AgentRunner.t)
    (cycles : list (AgentRunner.draws * RawSignals.t))
  : list (result string) * AgentRunner.t :=
  match cycles with
  | [] => ([], self)
  | (env, raw_signals) :: rest =>
      let '(incident_id, self) :=
        AgentRunner.run_once http_post py_strip json_loads parse_float py_str
          json_dumps _build_prompt USE_LLM self env raw_signals in
      let '(incident_ids, self) := run_cycles self rest in
      (incident_id :: incident_ids, self)
  end.

End Loop.

(** X29. Cycles run one after the other from a readable memory file all
    succeed: each returns the id drawn for it, the memory ends with the
    incidents it held followed by one incident per cycle, in order, under
    the ids drawn and with no outcome, the observations recorded carry
    consecutive ids, and the observer's counter has advanced by the number
    of cycles. *)
Theorem run_cycles_append_incidents http_post py_strip json_loads parse_float
    py_str json_dumps _build_prompt (USE_LLM : option string)
    (cycles : list (AgentRunner.draws * RawSignals.t))
    (self : AgentRunner.t) (memory : list Incident.t) :
  AgentRunner.MEMORY_FILE self = Document memory ->
  let done :=
    run_cycles http_post py_strip json_loads parse_float py_str json_dumps
      _build_prompt USE_LLM self cycles in
  fst done = map (fun cycle => Ok (AgentRunner.uuid4 (fst cycle))) cycles /\
  AgentRunner.observation_id (snd done) = AgentRunner.observation_id self + length cycles /\
  exists added,
    AgentRunner.MEMORY_FILE (snd done) = Document (memory ++ added) /\
    map Incident.incident_id added =
      map (fun cycle => AgentRunner.uuid4 (fst cycle)) cycles /\
    map (fun entry => Observation.observation_id (Incident.observation entry)) added =
      seq (S (AgentRunner.observation_id self)) (length cycles) /\
    Forall (fun entry => Incident.outcome entry = None) added.
Proof.
  revert self memory. induction cycles as [|[env raw] cycles IH]; intros self memory Hmem.
  - cbn [run_cycles fst snd map length]. split; [reflexivity|]. split; [lia|].
    exists []. rewrite app_nil_r. repeat split; try assumption; constructor.
  - destruct (reason_returns parse_float py_str json_dumps _build_prompt
                (Some (OllamaClient.generate http_post py_strip json_loads)) USE_LLM
                (fst (Observer.observe (AgentRunner.observation_id self)
                        (AgentRunner.observe_time env) raw))) as [reasoning Hr].
    pose proof (run_once_on_document http_post py_strip json_loads parse_float py_str
                  json_dumps _build_prompt USE_LLM self env raw memory reasoning
                  Hmem Hr) as Hstep.
    cbv zeta in Hstep. cbn [run_cycles]. rewrite Hstep.
    match goal with
    | |- context [run_cycles _ _ _ _ _ _ _ _ ?next cycles] => set (self' := next)
    end.
    specialize (IH self' _ eq_refl). cbv zeta in IH.
    destruct (run_cycles _ _ _ _ _ _ _ _ self' cycles) as [ids final].
    cbn [fst snd] in *. destruct IH as (Hids & Hcount & added & Hfile & Hnames & Hobs & Hnull).
    split; [cbn [map fst]; by rewrite Hids|].
    split; [rewrite Hcount; unfold self'; cbn [AgentRunner.observation_id length]; lia|].
    eexists (_ :: added). split; [rewrite Hfile, <- app_assoc; reflexivity|].
    split; [cbn [map fst Incident.incident_id]; by rewrite Hnames|].
    split.
    + cbn [map length seq]. rewrite Hobs. unfold self'.
      cbn [AgentRunner.observation_id Incident.observation].
      unfold Observer.observe. cbn [fst Observation.observation_id].
      replace (AgentRunner.observation_id self + 1) with (S (AgentRunner.observation_id self))
        by lia.
      reflexivity.
    + constructor; [reflexivity | exact Hnull].
Qed.

Definition second_draws : AgentRunner.draws :=
  {| AgentRunner.observe_time := 105;
     AgentRunner.act_time := 106;
     AgentRunner.record_time := 107;
     AgentRunner.uuid4 := "id-2" |}.

Lemma run_cycles_append_incidents_witness :
  AgentRunner.MEMORY_FILE fresh_runner = Document [] /\
  fst (run_cycles (fun _ => Raise "Connection refused") (fun s => s)
         (fun _ => Raise "Expecting value") (fun _ => None) (fun _ => "") (fun _ => "")
         (fun _ => "prompt") None fresh_runner
         [ (first_draws, AgentRunner.scenario_webhook_failure);
           (second_draws, AgentRunner.scenario_healthy_system) ])
    = [Ok "id-1"; Ok "id-2"].
Proof.
  split; [reflexivity|].
  exact (proj1 (run_cycles_append_incidents (fun _ => Raise "Connection refused")
                  (fun s => s) (fun _ => Raise "Expecting value") (fun _ => None)
                  (fun _ => "") (fun _ => "") (fun _ => "prompt") None
                  [ (first_draws, AgentRunner.scenario_webhook_failure);
                    (second_draws, AgentRunner.scenario_healthy_system) ]
                  fresh_runner [] eq_refl)).
Defined.
